(** * Cluster API: the clusterctl cluster client and the template webhooks

    A shallow embedding of

    - [cmd/clusterctl/clusterdeployer/clusterclient/clusterclient.go]
      (the facade over the remote object store: accessors, ownership
      filters, the concurrent machine creator, the deletion coordinator
      and the readiness waits), and
    - the [ClusterTemplate] validating webhook of [exp/api/v1alpha3].

    Go values are modelled as they are in the source: a nilable pointer
    or interface is an [option], [error] is an [option] of an error
    value, a slice is a [list], a struct is a record.  Remote calls go
    through one test double ([respond]) and are logged in call order; a
    run-time panic is an outcome of its own.  Goroutines run interleaved,
    one step at a time, under a schedule that is a parameter. *)

From Stdlib Require Import String Ascii List Bool Arith ZArith Lia Permutation.
Import ListNotations.

Local Open Scope string_scope.
Local Open Scope list_scope.

(** ** apimachinery: metadata *)

(** [metav1.TypeMeta]. *)
Record TypeMeta := {
  Kind : string;
  APIVersion : string
}.

(** [metav1.OwnerReference]; [Controller] and [BlockOwnerDeletion] are
    read by no function below. *)
Record OwnerReference := {
  or_APIVersion : string;
  or_Kind : string;
  or_Name : string;
  or_UID : string
}.

(** [metav1.ObjectMeta], the fields the client reads or writes. *)
Record ObjectMeta := {
  Name : string;
  Namespace : string;
  Annotations : list (string * string);
  OwnerReferences : list OwnerReference;
  Finalizers : list string
}.

Definition SetNamespace (ns : string) (m : ObjectMeta) : ObjectMeta :=
  {| Name := Name m; Namespace := ns; Annotations := Annotations m;
     OwnerReferences := OwnerReferences m; Finalizers := Finalizers m |}.

Definition SetFinalizers (fs : list string) (m : ObjectMeta) : ObjectMeta :=
  {| Name := Name m; Namespace := Namespace m; Annotations := Annotations m;
     OwnerReferences := OwnerReferences m; Finalizers := fs |}.

(** [types.NamespacedName]. *)
Record NamespacedName := {
  nn_Namespace : string;
  nn_Name : string
}.

(** ** apimachinery: field errors and API status errors *)

(** The value an invalid field held ([interface{}] in Go). *)
Inductive BadValue :=
| BadEndpoint (host : string) (port : Z)
| BadBool (b : bool).

Inductive ErrorType := ErrorTypeInvalid | ErrorTypeRequired.

(** [field.Path]: the path elements from the root. *)
Definition Path := list string.

Definition NewPath (name : string) (more : list string) : Path := name :: more.
Definition Child (p : Path) (name : string) : Path := p ++ [name].

(** [Path.String]: the elements joined by dots. *)
Definition Path_String (p : Path) : string := String.concat "." p.

(** [field.Error]. *)
Record FieldError := {
  fe_Type : ErrorType;
  fe_Field : string;
  fe_BadValue : BadValue;
  fe_Detail : string
}.

Definition ErrorList := list FieldError.

(** [field.Invalid]. *)
Definition Invalid (p : Path) (value : BadValue) (detail : string) : FieldError :=
  {| fe_Type := ErrorTypeInvalid; fe_Field := Path_String p;
     fe_BadValue := value; fe_Detail := detail |}.

Record GroupKind := {
  gk_Group : string;
  gk_Kind : string
}.

(** [metav1.StatusReason], the reasons the client tells apart. *)
Inductive StatusReason :=
| StatusReasonNotFound
| StatusReasonAlreadyExists
| StatusReasonConflict
| StatusReasonInvalid
| StatusReasonUnknown.

(** A non-nil Go [error] value.  [WithMessage] is what [errors.Wrap] and
    [errors.Wrapf] of [github.com/pkg/errors] build: the format, its
    arguments and the cause. *)
Inductive Err :=
| StatusError (reason : StatusReason) (message : string)
| InvalidError (gk : GroupKind) (name : string) (errs : ErrorList)
| ErrWaitTimeout
| ErrorString (message : string)
| WithMessage (format : string) (args : list string) (cause : Err).

(** The Go type [error]: [None] is [nil]. *)
Definition error := option Err.

Definition Wrapf (cause : Err) (format : string) (args : list string) : error :=
  Some (WithMessage format args cause).

Definition Wrap (cause : Err) (message : string) : error :=
  Some (WithMessage message [] cause).

(** [apierrors.NewInvalid]. *)
Definition NewInvalid (gk : GroupKind) (name : string) (errs : ErrorList) : Err :=
  InvalidError gk name errs.

(** [apierrors.IsNotFound]: the reason of the error itself. *)
Definition IsNotFound (e : Err) : bool :=
  match e with
  | StatusError StatusReasonNotFound _ => true
  | _ => false
  end.

(** ** exp/api/v1alpha3: the cluster template webhook *)

Module v1alpha3.

(** [clusterv1.APIEndpoint] of the v1alpha3 API. *)
Record APIEndpoint := {
  Host : string;
  Port : Z
}.

(** Modelled from the spec: [APIEndpoint.IsZero] is declared with the
    v1alpha3 core types, outside the files at hand; the spec speaks of
    a "non-zero control-plane endpoint", the zero value being the empty
    host with port 0. *)
Definition IsZero (v : APIEndpoint) : bool :=
  (Host v =? "")%string && (Port v =? 0)%Z.

(** [clusterv1.ClusterSpec], the two fields the webhook inspects. *)
Record ClusterSpec := {
  Paused : bool;
  ControlPlaneEndpoint : APIEndpoint
}.

Record ClusterTemplateResource := {
  tr_Spec : ClusterSpec
}.

Record ClusterTemplateSpec := {
  Template : ClusterTemplateResource
}.

Record ClusterTemplate := {
  ct_TypeMeta : TypeMeta;
  ct_ObjectMeta : ObjectMeta;
  Spec : ClusterTemplateSpec
}.

(** [GroupVersion.WithKind("ClusterTemplate").GroupKind()]; the group
    is the one of the webhook marker. *)
Definition ClusterTemplateGroupKind : GroupKind :=
  {| gk_Group := "exp.cluster.x-k8s.io"; gk_Kind := "ClusterTemplate" |}.

Definition endpointValue (e : APIEndpoint) : BadValue :=
  BadEndpoint (Host e) (Port e).

(** The error list [validate] accumulates in [allErrs]. *)
Definition validate_allErrs (c : ClusterTemplate) : ErrorList :=
  let templateSpecPath := NewPath "spec" ["template"; "spec"] in
  let allErrs : ErrorList := [] in
  let allErrs :=
    if negb (IsZero (ControlPlaneEndpoint (tr_Spec (Template (Spec c))))) then
      allErrs ++
        [Invalid (Child templateSpecPath "controlPlaneEndpoint")
           (endpointValue (ControlPlaneEndpoint (tr_Spec (Template (Spec c)))))
           "may not be populated for cluster templates"]
    else allErrs in
  let allErrs :=
    if Paused (tr_Spec (Template (Spec c))) then
      allErrs ++
        [Invalid (Child templateSpecPath "controlPlaneEndpoint")
           (BadBool (Paused (tr_Spec (Template (Spec c)))))
           "may not be populated for cluster templates"]
    else allErrs in
  allErrs.

(** The method [validate] of [ClusterTemplate]. *)
Definition validate (c : ClusterTemplate) : error :=
  let allErrs := validate_allErrs c in
  if (0 <? length allErrs)%nat then
    Some (NewInvalid ClusterTemplateGroupKind (Name (ct_ObjectMeta c)) allErrs)
  else None.

Definition ValidateCreate (c : ClusterTemplate) : error := validate c.
Definition ValidateUpdate (c old : ClusterTemplate) : error := validate c.
Definition ValidateDelete (c : ClusterTemplate) : error := None.

(** The fields of the embedded spec a template may not populate, by
    their JSON path. *)
Inductive TemplateField := FControlPlaneEndpoint | FPaused.

Definition field_path (f : TemplateField) : string :=
  match f with
  | FControlPlaneEndpoint => "spec.template.spec.controlPlaneEndpoint"
  | FPaused => "spec.template.spec.paused"
  end.

Definition violates (c : ClusterTemplate) (f : TemplateField) : bool :=
  match f with
  | FControlPlaneEndpoint =>
      negb (IsZero (ControlPlaneEndpoint (tr_Spec (Template (Spec c)))))
  | FPaused => Paused (tr_Spec (Template (Spec c)))
  end.

Definition violated_fields (c : ClusterTemplate) : list TemplateField :=
  filter (violates c) [FControlPlaneEndpoint; FPaused].

End v1alpha3.


(** ** pkg/apis/cluster/v1alpha1: the resources of the cluster client *)

Module clusterv1.

(** [corev1.ObjectReference], as far as a node reference is compared. *)
Record ObjectReference := {
  ref_Kind : string;
  ref_Name : string
}.

(** [runtime.RawExtension]: the raw bytes of a provider's status. *)
Definition RawExtension := string.

Record APIEndpoint := {
  Host : string;
  Port : Z
}.

(** Modelled from the spec: the v1alpha1 status types are declared outside
    the files at hand.  The spec gives a Cluster's status as "endpoints,
    provider-status"; [APIEndpoints] is a slice ([None] is the nil slice
    of the zero value) and [ProviderStatus] a pointer. *)
Record ClusterStatus := {
  APIEndpoints : option (list APIEndpoint);
  cs_ProviderStatus : option RawExtension
}.

(** Modelled from the spec: a MachineDeployment's status is not detailed
    there; it is the record of replica counters of the v1alpha1 API, all
    0 in the zero value. *)
Record MachineDeploymentStatus := {
  mds_ObservedGeneration : Z;
  mds_Replicas : Z;
  mds_ReadyReplicas : Z
}.

(** Modelled from the spec: as for MachineDeployments. *)
Record MachineSetStatus := {
  mss_Replicas : Z;
  mss_ReadyReplicas : Z;
  mss_ObservedGeneration : Z
}.

(** Modelled from the spec: a Machine's status is "node-reference,
    provider-status", both pointers. *)
Record MachineStatus := {
  NodeRef : option ObjectReference;
  ms_ProviderStatus : option RawExtension
}.

(** [reflect.DeepEqual(clusterv1.ClusterStatus{}, s)]. *)
Definition ClusterStatus_isZero (s : ClusterStatus) : bool :=
  match APIEndpoints s, cs_ProviderStatus s with
  | None, None => true
  | _, _ => false
  end.

(** [reflect.DeepEqual(clusterv1.MachineDeploymentStatus{}, s)]. *)
Definition MachineDeploymentStatus_isZero (s : MachineDeploymentStatus) : bool :=
  (mds_ObservedGeneration s =? 0)%Z && (mds_Replicas s =? 0)%Z
  && (mds_ReadyReplicas s =? 0)%Z.

(** [reflect.DeepEqual(clusterv1.MachineSetStatus{}, s)]. *)
Definition MachineSetStatus_isZero (s : MachineSetStatus) : bool :=
  (mss_Replicas s =? 0)%Z && (mss_ReadyReplicas s =? 0)%Z
  && (mss_ObservedGeneration s =? 0)%Z.

(** [reflect.DeepEqual(clusterv1.MachineStatus{}, s)]. *)
Definition MachineStatus_isZero (s : MachineStatus) : bool :=
  match NodeRef s, ms_ProviderStatus s with
  | None, None => true
  | _, _ => false
  end.

Record MachineVersionInfo := {
  Kubelet : string;
  ControlPlane : string
}.

Record MachineSpec := {
  Versions : MachineVersionInfo
}.

Record Cluster := {
  Cluster_TypeMeta : TypeMeta;
  Cluster_ObjectMeta : ObjectMeta;
  Cluster_Status : ClusterStatus
}.

Record MachineClass := {
  MachineClass_TypeMeta : TypeMeta;
  MachineClass_ObjectMeta : ObjectMeta
}.

Record MachineDeployment := {
  MachineDeployment_TypeMeta : TypeMeta;
  MachineDeployment_ObjectMeta : ObjectMeta;
  MachineDeployment_Status : MachineDeploymentStatus
}.

Record MachineSet := {
  MachineSet_TypeMeta : TypeMeta;
  MachineSet_ObjectMeta : ObjectMeta;
  MachineSet_Status : MachineSetStatus
}.

Record Machine := {
  Machine_TypeMeta : TypeMeta;
  Machine_ObjectMeta : ObjectMeta;
  Machine_Spec : MachineSpec;
  Machine_Status : MachineStatus
}.

End clusterv1.

(** Modelled from the spec: [util.IsControlPlaneMachine] lives in
    [pkg/util], outside the files at hand.  The spec has control-plane
    machines "distinguished by a spec marker", and the comment of
    [ExtractControlPlaneMachines] names the marker: the machine
    "specifies the control plane version". *)
Definition IsControlPlaneMachine (machine : clusterv1.Machine) : bool :=
  negb (clusterv1.ControlPlane (clusterv1.Versions (clusterv1.Machine_Spec machine)) =? "").

(** [ExtractControlPlaneMachines]: control plane machines, nodes, error. *)
Definition ExtractControlPlaneMachines (machines : list clusterv1.Machine)
  : list clusterv1.Machine * list clusterv1.Machine * error :=
  let '(controlPlaneMachines, nodes) :=
    fold_left
      (fun (acc : list clusterv1.Machine * list clusterv1.Machine) machine =>
         let '(controlPlaneMachines, nodes) := acc in
         if IsControlPlaneMachine machine
         then (controlPlaneMachines ++ [machine], nodes)
         else (controlPlaneMachines, nodes ++ [machine]))
      machines ([], []) in
  if (length controlPlaneMachines <? 1)%nat then
    ([], [],
     Some (ErrorString "expected one or more control plane machines, got: 0"))
  else (controlPlaneMachines, nodes, None).

(** ** The remote object store, as the client sees it *)

Inductive ResourceKind :=
| KCluster | KMachineClass | KMachineDeployment | KMachineSet | KMachine.

(** The Go type of an object of each kind. *)
Definition obj (k : ResourceKind) : Type :=
  match k with
  | KCluster => clusterv1.Cluster
  | KMachineClass => clusterv1.MachineClass
  | KMachineDeployment => clusterv1.MachineDeployment
  | KMachineSet => clusterv1.MachineSet
  | KMachine => clusterv1.Machine
  end.

(** [ctrlclient.ListOptions]; the zero value lists every namespace. *)
Record ListOptions := {
  lo_Namespace : string;
  lo_LabelSelector : string
}.

Definition noListOptions : ListOptions :=
  {| lo_Namespace := ""; lo_LabelSelector := "" |}.

Inductive DeletionPropagation :=
| DeletePropagationOrphan
| DeletePropagationBackground
| DeletePropagationForeground.

(** Every call that leaves the client.  [client_*] are the methods of the
    controller-runtime client, [clientSet_List] is [List] of the generated
    typed clientset ([c.clientSet.ClusterV1alpha1().Xs(ns).List]).
    [client_DeleteList] is [Delete] handed a pointer to a list object,
    [None] when the pointer is nil. *)
Inductive Call :=
| ctrl_GetConfig
| ctrlclient_New
| SetLabelSelector (selector : string)
| os_Getenv (name : string)
| client_List (k : ResourceKind) (opts : ListOptions)
| client_Get (k : ResourceKind) (key : NamespacedName)
| client_Create (k : ResourceKind) (o : obj k)
| client_Update (k : ResourceKind) (o : obj k)
| client_Delete (k : ResourceKind) (o : obj k)
    (propagation : option DeletionPropagation)
| client_DeleteList (k : ResourceKind) (l : option (list (obj k)))
| clientSet_List (k : ResourceKind) (namespace : string).

(** What each call hands back: an [error] where Go returns only one, the
    error or the decoded object(s) where the call fills its argument. *)
Definition reply (c : Call) : Type :=
  match c with
  | ctrl_GetConfig => error
  | ctrlclient_New => error
  | SetLabelSelector _ => error
  | os_Getenv _ => string
  | client_List k _ => (Err + list (obj k))%type
  | client_Get k _ => (Err + obj k)%type
  | client_Create k _ => (Err + obj k)%type
  | client_Update k _ => (Err + obj k)%type
  | client_Delete _ _ _ => error
  | client_DeleteList _ _ => error
  | clientSet_List k _ => (Err + list (obj k))%type
  end.

(** Go run-time panics. *)
Inductive PanicReason :=
| NilPointerDereference
| IndexOutOfRange (index len : nat).

(** ** Constants of the client *)

Definition Second : Z := 1000000000.
Definition Minute : Z := 60 * Second.

Definition retryIntervalResourceReady : Z := 10 * Second.
Definition retryIntervalResourceDelete : Z := 10 * Second.
Definition timeoutResourceReady : Z := 15 * Minute.
Definition timeoutMachineReady : Z := 30 * Minute.
Definition timeoutResourceDelete : Z := 15 * Minute.
Definition machineClusterLabelName : string := "cluster.k8s.io/cluster-name".
Definition TimeoutMachineReady : string := "CLUSTER_API_MACHINE_READY_TIMEOUT".

(** A 64-bit signed integer operation wraps around. *)
Definition wrap64 (z : Z) : Z :=
  ((z + 2 ^ 63) mod 2 ^ 64 - 2 ^ 63)%Z.

Definition digit (c : ascii) : option Z :=
  let n := Z.of_nat (nat_of_ascii c) in
  if ((48 <=? n) && (n <=? 57))%Z then Some (n - 48)%Z else None.

Fixpoint digits (s : string) (acc : Z) : option Z :=
  match s with
  | EmptyString => Some acc
  | String c s' =>
      match digit c with
      | Some d => digits s' (10 * acc + d)%Z
      | None => None
      end
  end.

(** [strconv.Atoi]: an optional sign, then decimal digits, within the
    range of [int]; [None] stands for its error. *)
Definition Atoi (s : string) : option Z :=
  let in_range (z : Z) :=
    if ((- 2 ^ 63 <=? z) && (z <? 2 ^ 63))%Z then Some z else None in
  match s with
  | EmptyString => None
  | String c s' =>
      if (c =? "-")%char then
        match s' with
        | EmptyString => None
        | _ => match digits s' 0 with
               | Some z => in_range (- z)%Z
               | None => None
               end
        end
      else if (c =? "+")%char then
        match s' with
        | EmptyString => None
        | _ => match digits s' 0 with
               | Some z => in_range z
               | None => None
               end
        end
      else match digits s 0 with
           | Some z => in_range z
           | None => None
           end
  end.

(** [map[string]*T]: a missing key reads as the nil pointer. *)
Fixpoint map_lookup {T : Type} (key : string) (m : list (string * T)) : option T :=
  match m with
  | [] => None
  | (k, v) :: m' => if (k =? key)%string then Some v else map_lookup key m'
  end.

(** Writing through the pointer stored under [key]. *)
Fixpoint map_store {T : Type} (key : string) (v : T) (m : list (string * T))
  : list (string * T) :=
  match m with
  | [] => []
  | (k, v0) :: m' =>
      if (k =? key)%string then (k, v) :: m' else (k, v0) :: map_store key v m'
  end.

(** [_, ok := seen[key]] on a [map[string]bool] kept as its key list. *)
Definition seen_has (key : string) (seen : list string) : bool :=
  existsb (fun k => (k =? key)%string) seen.

(** [m[key] = v] on a Go map kept as an association list. *)
Fixpoint map_insert {T : Type} (key : string) (v : T) (m : list (string * T))
  : list (string * T) :=
  match m with
  | [] => [(key, v)]
  | (k, v0) :: m' =>
      if (k =? key)%string then (k, v) :: m' else (k, v0) :: map_insert key v m'
  end.

(** ** What [Get] leaves in the object it is handed *)

(** The client decodes an answer into the object its caller hands in, as
    [encoding/json] fills a value that already holds data: a field that
    the answer holds replaces the one of the object, a field that the
    answer leaves out keeps the value the object had, and the entries of
    a map are added to the map the object has.  The encodings of these
    types are declared outside the files at hand; every field is taken
    to be left out when it is empty, as the fields of the metadata are. *)
Definition decodeString (answer into : string) : string :=
  if (answer =? "")%string then into else answer.

Definition decodeSlice {T : Type} (answer into : list T) : list T :=
  match answer with
  | [] => into
  | _ :: _ => answer
  end.

Definition decodeMap {T : Type} (answer into : list (string * T))
  : list (string * T) :=
  fold_left (fun m kv => map_insert (fst kv) (snd kv) m) answer into.

(** A pointer: the nil pointer is filled with the answer, a pointer that
    is set has the answer decoded into what it points to. *)
Definition decodePointer {T : Type} (decode : T -> T -> T) (answer into : option T)
  : option T :=
  match answer, into with
  | None, _ => into
  | Some a, None => Some a
  | Some a, Some i => Some (decode a i)
  end.

Definition decodeTypeMeta (answer into : TypeMeta) : TypeMeta :=
  {| Kind := decodeString (Kind answer) (Kind into);
     APIVersion := decodeString (APIVersion answer) (APIVersion into) |}.

Definition decodeObjectMeta (answer into : ObjectMeta) : ObjectMeta :=
  {| Name := decodeString (Name answer) (Name into);
     Namespace := decodeString (Namespace answer) (Namespace into);
     Annotations := decodeMap (Annotations answer) (Annotations into);
     OwnerReferences := decodeSlice (OwnerReferences answer) (OwnerReferences into);
     Finalizers := decodeSlice (Finalizers answer) (Finalizers into) |}.

Definition decodeObjectReference (answer into : clusterv1.ObjectReference)
  : clusterv1.ObjectReference :=
  {| clusterv1.ref_Kind :=
       decodeString (clusterv1.ref_Kind answer) (clusterv1.ref_Kind into);
     clusterv1.ref_Name :=
       decodeString (clusterv1.ref_Name answer) (clusterv1.ref_Name into) |}.

(** [machine] after [clientset.Get(ctx, key, machine)] was answered. *)
Definition decodeMachine (answer into : clusterv1.Machine) : clusterv1.Machine :=
  {| clusterv1.Machine_TypeMeta :=
       decodeTypeMeta (clusterv1.Machine_TypeMeta answer)
         (clusterv1.Machine_TypeMeta into);
     clusterv1.Machine_ObjectMeta :=
       decodeObjectMeta (clusterv1.Machine_ObjectMeta answer)
         (clusterv1.Machine_ObjectMeta into);
     clusterv1.Machine_Spec :=
       {| clusterv1.Versions :=
            {| clusterv1.Kubelet :=
                 decodeString
                   (clusterv1.Kubelet (clusterv1.Versions (clusterv1.Machine_Spec answer)))
                   (clusterv1.Kubelet (clusterv1.Versions (clusterv1.Machine_Spec into)));
               clusterv1.ControlPlane :=
                 decodeString
                   (clusterv1.ControlPlane
                      (clusterv1.Versions (clusterv1.Machine_Spec answer)))
                   (clusterv1.ControlPlane
                      (clusterv1.Versions (clusterv1.Machine_Spec into))) |} |};
     clusterv1.Machine_Status :=
       {| clusterv1.NodeRef :=
            decodePointer decodeObjectReference
              (clusterv1.NodeRef (clusterv1.Machine_Status answer))
              (clusterv1.NodeRef (clusterv1.Machine_Status into));
          clusterv1.ms_ProviderStatus :=
            decodePointer (fun a _ => a)
              (clusterv1.ms_ProviderStatus (clusterv1.Machine_Status answer))
              (clusterv1.ms_ProviderStatus (clusterv1.Machine_Status into)) |} |}.

(** ** The client, over an arbitrary test double of the remote side *)

Section Client.

(** The double: its state and how it answers each call. *)
Variable S : Type.
Variable respond : forall c : Call, S -> reply c * S.

(** What a run has done so far: the double's state and the calls issued,
    oldest first. *)
Record World := {
  remote : S;
  calls : list Call
}.

(** A Go function either returns or panics; an unrecovered panic, in any
    goroutine, ends the process. *)
Inductive Outcome (A : Type) :=
| Returns (a : A) (w : World)
| Panics (r : PanicReason) (w : World).

Arguments Returns {A} a w.
Arguments Panics {A} r w.

Definition M (A : Type) : Type := World -> Outcome A.

Definition ret {A : Type} (a : A) : M A := fun w => Returns a w.

Definition bind {A B : Type} (m : M A) (k : A -> M B) : M B :=
  fun w =>
    match m w with
    | Returns a w' => k a w'
    | Panics r w' => Panics r w'
    end.

Definition panic {A : Type} (r : PanicReason) : M A := fun w => Panics r w.

Notation "x <- m ;; k" := (bind m (fun x => k))
  (at level 61, m at next level, right associativity).

(** Issue a call: the double answers and moves on, the call is logged. *)
Definition call (c : Call) : M (reply c) :=
  fun w =>
    let (r, s') := respond c (remote w) in
    Returns r {| remote := s'; calls := calls w ++ [c] |}.

(** The value of [clientset] after [clientset, err := ctrlclient.New(...)]:
    the interface is nil exactly when [err] is not. *)
Inductive Client := nilClient | liveClient.

Definition New : M Client :=
  err <- call ctrlclient_New ;;
  ret (match err with None => liveClient | Some _ => nilClient end).

(** A method call on [clientset]; on the nil interface it panics. *)
Definition via (clientset : Client) (c : Call) : M (reply c) :=
  match clientset with
  | liveClient => call c
  | nilClient => panic NilPointerDereference
  end.

(** [s[idx]] on a slice. *)
Definition index {A : Type} (s : list A) (idx : nat) : M A :=
  match nth_error s idx with
  | Some x => ret x
  | None => panic (IndexOutOfRange idx (length s))
  end.

(** [for idx, x := range l { st = body idx x st }]. *)
Fixpoint forRange {A St : Type} (body : nat -> A -> St -> M St)
  (idx : nat) (l : list A) (st : St) : M St :=
  match l with
  | [] => ret st
  | x :: l' => st' <- body idx x st ;; forRange body (Datatypes.S idx) l' st'
  end.

(** A [for ... range] whose body may [return err]. *)
Fixpoint forEachErr {A : Type} (body : A -> M error) (l : list A) : M error :=
  match l with
  | [] => ret None
  | x :: l' =>
      err <- body x ;;
      match err with
      | Some e => ret (Some e)
      | None => forEachErr body l'
      end
  end.

(** *** The polling primitive *)

Fixpoint poll {L : Type} (ticks : nat) (condition : L -> M (bool * error * L))
  (l : L) : M error :=
  r <- condition l ;;
  match r with
  | (_, Some e, _) => ret (Some e)
  | (true, None, _) => ret None
  | (false, None, l') =>
      match ticks with
      | O => ret (Some ErrWaitTimeout)
      | Datatypes.S ticks' => poll ticks' condition l'
      end
  end.

(** Modelled from the spec: [util.PollImmediate] lives in [pkg/util],
    outside the files at hand.  By the spec the probe "is invoked
    immediately (no initial delay), then at interval cadence, until it
    reports true, reports a terminal error, or timeout elapses"; a
    non-nil error "aborts immediately and surfaces err", and on timeout
    the caller receives a timeout error.  Time is counted in ticks: after
    the immediate invocation there is one more per whole [interval] within
    [timeout].  [l] is the state the probe's closure keeps between
    invocations. *)
Definition PollImmediate {L : Type} (interval timeout : Z)
  (condition : L -> M (bool * error * L)) (l : L) : M error :=
  poll (Z.to_nat (timeout / interval)) condition l.

(** A probe that keeps no state of its own. *)
Definition stateless (condition : M (bool * error)) : unit -> M (bool * error * unit) :=
  fun _ => r <- condition ;; ret (r, tt).

(** *** Accessors *)

Definition GetClusters (namespace : string) : M (list clusterv1.Cluster * error) :=
  err <- call ctrl_GetConfig ;;
  match err with
  | Some e => ret ([], Wrap e "error creating config for core clientset")
  | None =>
      clientset <- New ;;
      let opts := {| lo_Namespace := namespace; lo_LabelSelector := "" |} in
      r <- via clientset (client_List KCluster opts) ;;
      match r with
      | inl e =>
          ret ([], Wrapf e "error listing cluster objects in namespace %q" [namespace])
      | inr items =>
          (* clusterList collects &clusters.Items[i] for every i *)
          ret (items, None)
      end
  end.

(** [GetCluster]: the first cluster of that name, the nil pointer when
    the loop finds none. *)
Definition GetCluster (name ns : string) : M (option clusterv1.Cluster * error) :=
  r <- GetClusters ns ;;
  let '(clustersInNamespace, err) := r in
  match err with
  | Some e => ret (None, Some e)
  | None =>
      ret (find (fun nc => (Name (clusterv1.Cluster_ObjectMeta nc) =? name)%string)
             clustersInNamespace, None)
  end.

(** *** Ownership filters *)

(** [or.Kind == cluster.Kind && or.Name == cluster.Name]. *)
Definition ownerIs (cluster : clusterv1.Cluster) (or : OwnerReference) : bool :=
  (or_Kind or =? Kind (clusterv1.Cluster_TypeMeta cluster))%string
  && (or_Name or =? Name (clusterv1.Cluster_ObjectMeta cluster))%string.

Definition clusterSelector (cluster : clusterv1.Cluster) : string :=
  machineClusterLabelName ++ "=" ++ Name (clusterv1.Cluster_ObjectMeta cluster).

Definition selectorArgs (cluster : clusterv1.Cluster) : list string :=
  [machineClusterLabelName; Name (clusterv1.Cluster_ObjectMeta cluster);
   Namespace (clusterv1.Cluster_ObjectMeta cluster);
   Name (clusterv1.Cluster_ObjectMeta cluster)].

Definition clusterArgs (cluster : clusterv1.Cluster) : list string :=
  [Namespace (clusterv1.Cluster_ObjectMeta cluster);
   Name (clusterv1.Cluster_ObjectMeta cluster)].

Definition GetMachineDeploymentsForCluster (cluster : clusterv1.Cluster)
  : M (list clusterv1.MachineDeployment * error) :=
  err <- call ctrl_GetConfig ;;
  match err with
  | Some e => ret ([], Wrap e "error creating config for core clientset")
  | None =>
      clientset <- New ;;
      err <- call (SetLabelSelector (clusterSelector cluster)) ;;
      match err with
      | Some e =>
          ret ([], Wrapf e "error settings label selector '%s=%s' for Cluster %s/%s"
                     (selectorArgs cluster))
      | None =>
          let listOpts := {| lo_Namespace := "";
                             lo_LabelSelector := clusterSelector cluster |} in
          r <- via clientset (client_List KMachineDeployment listOpts) ;;
          match r with
          | inl e =>
              ret ([], Wrapf e "error listing MachineDeployments for Cluster %s/%s"
                         (clusterArgs cluster))
          | inr Items =>
              machineDeployments <-
                forRange (fun idx md machineDeployments =>
                  forRange (fun _ or (machineDeployments : list clusterv1.MachineDeployment) =>
                    if ownerIs cluster or then
                      x <- index machineDeployments idx ;;
                      ret (machineDeployments ++ [x])
                    else ret machineDeployments)
                    0 (OwnerReferences (clusterv1.MachineDeployment_ObjectMeta md))
                    machineDeployments)
                  0 Items [] ;;
              ret (machineDeployments, None)
          end
      end
  end.

Definition GetMachineSetsForCluster (cluster : clusterv1.Cluster)
  : M (list clusterv1.MachineSet * error) :=
  err <- call ctrl_GetConfig ;;
  match err with
  | Some e => ret ([], Wrap e "error creating config for core clientset")
  | None =>
      clientset <- New ;;
      err <- call (SetLabelSelector (clusterSelector cluster)) ;;
      match err with
      | Some e =>
          ret ([], Wrapf e "error settings label selector '%s=%s' for Cluster %s/%s"
                     (selectorArgs cluster))
      | None =>
          let listOpts := {| lo_Namespace := "";
                             lo_LabelSelector := clusterSelector cluster |} in
          r <- via clientset (client_List KMachineSet listOpts) ;;
          match r with
          | inl e =>
              ret ([], Wrapf e "error listing MachineSets for Cluster %s/%s"
                         (clusterArgs cluster))
          | inr Items =>
              machineSets <-
                forRange (fun idx md machineSets =>
                  forRange (fun _ or (machineSets : list clusterv1.MachineSet) =>
                    if ownerIs cluster or then
                      x <- index Items idx ;;
                      ret (machineSets ++ [x])
                    else ret machineSets)
                    0 (OwnerReferences (clusterv1.MachineSet_ObjectMeta md))
                    machineSets)
                  0 Items [] ;;
              ret (machineSets, None)
          end
      end
  end.

Definition GetMachinesForCluster (cluster : clusterv1.Cluster)
  : M (list clusterv1.Machine * error) :=
  err <- call ctrl_GetConfig ;;
  match err with
  | Some e => ret ([], Wrap e "error creating config for core clientset")
  | None =>
      clientset <- New ;;
      err <- call (SetLabelSelector (clusterSelector cluster)) ;;
      match err with
      | Some e =>
          ret ([], Wrapf e "error settings label selector '%s=%s' for Cluster %s/%s"
                     (selectorArgs cluster))
      | None =>
          let listOpts := {| lo_Namespace := "";
                             lo_LabelSelector := clusterSelector cluster |} in
          r <- via clientset (client_List KMachine listOpts) ;;
          match r with
          | inl e =>
              ret ([], Wrapf e "error listing Machines for Cluster %s/%s"
                         (clusterArgs cluster))
          | inr Items =>
              machines <-
                forRange (fun idx md machines =>
                  forRange (fun _ or (machines : list clusterv1.Machine) =>
                    if ownerIs cluster or then
                      x <- index Items idx ;;
                      ret (machines ++ [x])
                    else ret machines)
                    0 (OwnerReferences (clusterv1.Machine_ObjectMeta md))
                    machines)
                  0 Items [] ;;
              ret (machines, None)
          end
      end
  end.

(** *** Waiting for a machine *)

Definition setMachineNamespace (namespace : string) (machine : clusterv1.Machine)
  : clusterv1.Machine :=
  {| clusterv1.Machine_TypeMeta := clusterv1.Machine_TypeMeta machine;
     clusterv1.Machine_ObjectMeta :=
       SetNamespace namespace (clusterv1.Machine_ObjectMeta machine);
     clusterv1.Machine_Spec := clusterv1.Machine_Spec machine;
     clusterv1.Machine_Status := clusterv1.Machine_Status machine |}.

Definition setMachineFinalizers (fs : list string) (machine : clusterv1.Machine)
  : clusterv1.Machine :=
  {| clusterv1.Machine_TypeMeta := clusterv1.Machine_TypeMeta machine;
     clusterv1.Machine_ObjectMeta :=
       SetFinalizers fs (clusterv1.Machine_ObjectMeta machine);
     clusterv1.Machine_Spec := clusterv1.Machine_Spec machine;
     clusterv1.Machine_Status := clusterv1.Machine_Status machine |}.

(** [machine.Status.NodeRef != nil || len(machine.Annotations) > 0]. *)
Definition machineReady (machine : clusterv1.Machine) : bool :=
  match clusterv1.NodeRef (clusterv1.Machine_Status machine) with
  | Some _ => true
  | None => (0 <? length (Annotations (clusterv1.Machine_ObjectMeta machine)))%nat
  end.

(** The probe of [waitForMachineReady].  [machine] is the pointer the
    function was handed; the probe reads [machine.Name] first, and [Get]
    decodes its answer into the object it points to, which keeps what
    the answer leaves out: the readiness is read off that object. *)
Definition machineReadyProbe (clientset : Client) (machine : option clusterv1.Machine)
  : M (bool * error * option clusterv1.Machine) :=
  match machine with
  | None => panic NilPointerDereference
  | Some m =>
      let namespacedName :=
        {| nn_Namespace := Namespace (clusterv1.Machine_ObjectMeta m);
           nn_Name := Name (clusterv1.Machine_ObjectMeta m) |} in
      r <- via clientset (client_Get KMachine namespacedName) ;;
      match r with
      | inl e =>
          if negb (IsNotFound e) then ret (false, None, Some m)
          else ret (machineReady m, None, Some m)
      | inr answer =>
          let m := decodeMachine answer m in
          ret (machineReady m, None, Some m)
      end
  end.

(** The timeout of [waitForMachineReady]: the default unless the variable
    holds an integer, then that many minutes. *)
Definition machineReadyTimeout (p : string) : Z :=
  if (p =? "")%string then timeoutMachineReady
  else match Atoi p with
       | Some t => wrap64 (t * Minute)
       | None => timeoutMachineReady
       end.

Definition waitForMachineReady (machine : option clusterv1.Machine) : M error :=
  err <- call ctrl_GetConfig ;;
  match err with
  | Some e => ret (Wrap e "error creating config for core clientset")
  | None =>
      clientset <- New ;;
      p <- call (os_Getenv TimeoutMachineReady) ;;
      let timeout := machineReadyTimeout p in
      PollImmediate retryIntervalResourceReady timeout
        (machineReadyProbe clientset) machine
  end.

(** *** The concurrent machine creator *)

(** [errOnce] and [gerr]: the write-once latch of the first error. *)
Record Latch := {
  errOnce_done : bool;
  gerr : error
}.

(** [errOnce.Do(func() { gerr = e })]. *)
Definition errOnce_Do (e : error) (l : Latch) : Latch :=
  if errOnce_done l then l else {| errOnce_done := true; gerr := e |}.

(** The variables that the goroutines of [CreateMachines] share: [err],
    which [CreateMachines] declares and every goroutine assigns and
    reads, and the latch. *)
Record Shared := {
  shared_err : error;
  shared_latch : Latch
}.

(** Where a goroutine stands in its body.  One step is one call that
    leaves the client or one access to a shared variable:
    [atCreate] before [clientset.Create], [atAssign] with its result in
    hand, before [err] is assigned, [atTest] before [if err != nil],
    [atDo] before the [errOnce.Do] of a failed create; the next four
    are inside [waitForMachineReady], before [ctrl.GetConfig],
    [ctrlclient.New], [os.Getenv] and [util.PollImmediate]; [atWaited] is
    after the wait, with its result in hand. *)
Inductive UnitAt :=
| atCreate (machine : clusterv1.Machine)
| atAssign (result : error)
| atTest
| atDo
| atGetConfig
| atNew
| atGetenv (clientset : Client)
| atPoll (clientset : Client) (p : string)
| atWaited (err : error).

(** One step of the goroutine started for a machine; the result [None]
    says that the goroutine has returned.  [createdMachine] is declared
    and never assigned, so it is the nil pointer where it is handed to
    [waitForMachineReady].  [err] is the variable of [CreateMachines],
    not one of the goroutine: what the goroutine tests and wraps is what
    [err] holds by then.  [errors.Wrapf] of the nil error is nil.  The
    poll is one step: of the nil machine it is over at the first probe,
    before any call. *)
Definition createMachineUnit (clientset : Client) (namespace : string)
  (position : UnitAt) (v : Shared) : M (option UnitAt * Shared) :=
  let createdMachine : option clusterv1.Machine := None in
  match position with
  | atCreate machine =>
      let machine := setMachineNamespace namespace machine in
      r <- via clientset (client_Create KMachine machine) ;;
      match r with
      | inl e => ret (Some (atAssign (Some e)), v)
      | inr _ => ret (Some (atAssign None), v)
      end
  | atAssign result =>
      ret (Some atTest, {| shared_err := result; shared_latch := shared_latch v |})
  | atTest =>
      match shared_err v with
      | Some _ => ret (Some atDo, v)
      | None => ret (Some atGetConfig, v)
      end
  | atDo =>
      let wrapped :=
        match shared_err v with
        | Some e => Wrapf e "error creating a machine object in namespace %v" [namespace]
        | None => None
        end in
      ret (None, {| shared_err := shared_err v;
                    shared_latch := errOnce_Do wrapped (shared_latch v) |})
  | atGetConfig =>
      err <- call ctrl_GetConfig ;;
      match err with
      | Some e =>
          ret (Some (atWaited (Wrap e "error creating config for core clientset")), v)
      | None => ret (Some atNew, v)
      end
  | atNew =>
      clientset <- New ;;
      ret (Some (atGetenv clientset), v)
  | atGetenv clientset =>
      p <- call (os_Getenv TimeoutMachineReady) ;;
      ret (Some (atPoll clientset p), v)
  | atPoll clientset p =>
      let timeout := machineReadyTimeout p in
      err <- PollImmediate retryIntervalResourceReady timeout
               (machineReadyProbe clientset) createdMachine ;;
      ret (Some (atWaited err), v)
  | atWaited err =>
      match err with
      | Some e =>
          ret (None, {| shared_err := shared_err v;
                        shared_latch := errOnce_Do (Some e) (shared_latch v) |})
      | None => ret (None, v)
      end
  end.

(** The goroutine after its step: still there, or gone. *)
Definition resumed (next : option UnitAt) : list UnitAt :=
  match next with
  | Some position => [position]
  | None => []
  end.

(** The goroutines run interleaved, one step of one goroutine at a time,
    until all have returned, which is when [wg.Wait] returns; a panic in
    any of them ends the process.  [schedule] is the scheduler: its next
    number, modulo the number of goroutines that have not returned, says
    which of them takes the step, and when it runs out the first of them
    does.  [steps] bounds the steps that are left; it is never used up
    when it starts at [unitSteps] for each goroutine. *)
Fixpoint interleave (clientset : Client) (namespace : string) (steps : nat)
  (schedule : list nat) (units : list UnitAt) (v : Shared) : M Shared :=
  match units, steps with
  | [], _ => ret v
  | _ :: _, O => ret v
  | _ :: _, Datatypes.S steps =>
      let i := (hd O schedule mod length units)%nat in
      match nth_error units i with
      | None => ret v
      | Some position =>
          r <- createMachineUnit clientset namespace position v ;;
          let '(next, v) := r in
          interleave clientset namespace steps (tl schedule)
            (firstn i units ++ resumed next ++ skipn (Datatypes.S i) units) v
      end
  end.

(** The steps a goroutine takes at most, from the position it is at. *)
Definition stepsToEnd (position : UnitAt) : nat :=
  match position with
  | atCreate _ => 8
  | atAssign _ => 7
  | atTest => 6
  | atGetConfig => 5
  | atNew => 4
  | atGetenv _ => 3
  | atPoll _ _ => 2
  | atWaited _ => 1
  | atDo => 1
  end.

Definition unitSteps : nat := 8.

(** [CreateMachines].  [err] is assigned by [ctrlclient.New] before the
    goroutines start, and [clientset] is the nil interface exactly when
    [err] is not.  The loop starts one goroutine for each machine;
    nothing orders their steps but the scheduler. *)
Definition CreateMachines (schedule : list nat) (machines : list clusterv1.Machine)
  (namespace : string) : M error :=
  err <- call ctrl_GetConfig ;;
  match err with
  | Some e => ret (Wrap e "error creating config for core clientset")
  | None =>
      err <- call ctrlclient_New ;;
      let clientset := match err with None => liveClient | Some _ => nilClient end in
      v <- interleave clientset namespace (unitSteps * length machines) schedule
             (map atCreate machines)
             {| shared_err := err;
                shared_latch := {| errOnce_done := false; gerr := None |} |} ;;
      ret (gerr (shared_latch v))
  end.

(** Every outcome that some schedule leads the goroutines to. *)
Fixpoint reachable (clientset : Client) (namespace : string) (steps : nat)
  (units : list UnitAt) (v : Shared) (w : World) : list (Outcome Shared) :=
  match units, steps with
  | [], _ => [Returns v w]
  | _ :: _, O => [Returns v w]
  | _ :: _, Datatypes.S steps =>
      flat_map (fun i =>
        match nth_error units i with
        | None => []
        | Some position =>
            match createMachineUnit clientset namespace position v w with
            | Returns (next, v') w' =>
                reachable clientset namespace steps
                  (firstn i units ++ resumed next ++ skipn (Datatypes.S i) units) v' w'
            | Panics r w' => [Panics r w']
            end
        end) (seq 0 (length units))
  end.

(** Every outcome that some schedule leads [CreateMachines] to. *)
Definition CreateMachines_outcomes (machines : list clusterv1.Machine)
  (namespace : string) (w : World) : list (Outcome error) :=
  match call ctrl_GetConfig w with
  | Panics r w0 => [Panics r w0]
  | Returns (Some e) w0 =>
      [Returns (Wrap e "error creating config for core clientset") w0]
  | Returns None w0 =>
      match call ctrlclient_New w0 with
      | Panics r w1 => [Panics r w1]
      | Returns err w1 =>
          let clientset := match err with None => liveClient | Some _ => nilClient end in
          map (fun o =>
                 match o with
                 | Returns v w' => Returns (gerr (shared_latch v)) w'
                 | Panics r w' => Panics r w'
                 end)
            (reachable clientset namespace (unitSteps * length machines)
               (map atCreate machines)
               {| shared_err := err;
                  shared_latch := {| errOnce_done := false; gerr := None |} |} w1)
      end
  end.

(** *** The deletion coordinator *)

Definition waitForClusterDelete (namespace : string) : M error :=
  PollImmediate retryIntervalResourceDelete timeoutResourceDelete
    (stateless (
       err <- call ctrl_GetConfig ;;
       match err with
       | Some e => ret (false, Wrap e "error creating config for core clientset")
       | None =>
           clientset <- New ;;
           r <- via clientset (client_List KCluster noListOptions) ;;
           match r with
           | inl e =>
               ret (false,
                    Wrapf e "error listing cluster objects in namespace %q" [namespace])
           | inr Items =>
               if (0 <? length Items)%nat then ret (false, None) else ret (true, None)
           end
       end)) tt.

Definition waitForMachineSetsDelete (namespace : string) : M error :=
  PollImmediate retryIntervalResourceDelete timeoutResourceDelete
    (stateless (
       err <- call ctrl_GetConfig ;;
       match err with
       | Some e => ret (false, Wrap e "error creating config for core clientset")
       | None =>
           clientset <- New ;;
           r <- via clientset (client_List KMachineSet noListOptions) ;;
           match r with
           | inl e => ret (false, None)
           | inr Items =>
               if (0 <? length Items)%nat then ret (false, None) else ret (true, None)
           end
       end)) tt.

Definition waitForMachinesDelete (namespace : string) : M error :=
  PollImmediate retryIntervalResourceDelete timeoutResourceDelete
    (stateless (
       err <- call ctrl_GetConfig ;;
       match err with
       | Some e => ret (false, Wrap e "error creating config for core clientset")
       | None =>
           clientset <- New ;;
           r <- via clientset (client_List KMachine noListOptions) ;;
           match r with
           | inl e => ret (false, None)
           | inr Items =>
               if (0 <? length Items)%nat then ret (false, None) else ret (true, None)
           end
       end)) tt.

(** The loop that fills [seen] and the per-namespace lists.  The map of
    lists holds pointers and no statement ever stores one, so
    [toDelete[ns]] reads the nil pointer and [.Items] dereferences it. *)
Definition collectNamespaces {T : Type} (namespace_of : T -> string)
  (items : list T) (seen : list string) (toDelete : list (string * list T))
  : M (list string * list (string * list T)) :=
  forRange (fun _ item (st : list string * list (string * list T)) =>
    let '(seen, toDelete) := st in
    let ns := namespace_of item in
    if negb (seen_has ns seen) then
      let seen := seen ++ [ns] in
      match map_lookup ns toDelete with
      | None => panic NilPointerDereference
      | Some list_Items => ret (seen, map_store ns (list_Items ++ [item]) toDelete)
      end
    else ret (seen, toDelete))
    0 items (seen, toDelete).

(** [DeleteClusters].  [seen] is kept as the list of its keys in the
    order they were stored; [range seen] visits them in that order. *)
Definition DeleteClusters (namespace : string) : M error :=
  err <- call ctrl_GetConfig ;;
  match err with
  | Some e => ret (Wrap e "error creating config for core clientset")
  | None =>
      clientset <- New ;;
      let seen : list string := [] in
      let clustersToDelete : list (string * list clusterv1.Cluster) := [] in
      collected <-
        (if negb (namespace =? "")%string then
           ret (inr (seen ++ [namespace], clustersToDelete))
         else
           r <- via clientset (client_List KCluster noListOptions) ;;
           match r with
           | inl e => ret (inl (Wrap e "error listing Clusters in all namespaces"))
           | inr Items =>
               st <- collectNamespaces
                       (fun c => Namespace (clusterv1.Cluster_ObjectMeta c))
                       Items seen clustersToDelete ;;
               ret (inr st)
           end) ;;
      match collected with
      | inl err => ret err
      | inr (seen, clustersToDelete) =>
          forEachErr (fun ns =>
            err <- via clientset
                     (client_DeleteList KCluster (map_lookup ns clustersToDelete)) ;;
            match err with
            | Some e => ret (Wrapf e "error deleting Clusters in namespace %q" [ns])
            | None =>
                err <- waitForClusterDelete ns ;;
                match err with
                | Some e =>
                    ret (Wrapf e
                      "error waiting for Cluster(s) deletion to complete in namespace %q"
                      [ns])
                | None => ret None
                end
            end) seen
      end
  end.

(** [DeleteMachines]; the wait it calls is [waitForMachineSetsDelete]. *)
Definition DeleteMachines (namespace : string) : M error :=
  err <- call ctrl_GetConfig ;;
  match err with
  | Some e => ret (Wrap e "error creating config for core clientset")
  | None =>
      clientset <- New ;;
      let seen : list string := [] in
      let machinesToDelete : list (string * list clusterv1.Machine) := [] in
      collected <-
        (if negb (namespace =? "")%string then
           ret (inr (seen ++ [namespace], machinesToDelete))
         else
           r <- via clientset (client_List KMachine noListOptions) ;;
           match r with
           | inl e => ret (inl (Wrap e "error listing Machines in all namespaces"))
           | inr Items =>
               st <- collectNamespaces
                       (fun ms => Namespace (clusterv1.Machine_ObjectMeta ms))
                       Items seen machinesToDelete ;;
               ret (inr st)
           end) ;;
      match collected with
      | inl err => ret err
      | inr (seen, machinesToDelete) =>
          forEachErr (fun ns =>
            err <- via clientset
                     (client_DeleteList KMachine (map_lookup ns machinesToDelete)) ;;
            match err with
            | Some e => ret (Wrapf e "error deleting Machines in namespace %q" [ns])
            | None =>
                err <- waitForMachineSetsDelete ns ;;
                match err with
                | Some e =>
                    ret (Wrapf e
                      "error waiting for Machine(s) deletion to complete in namespace %q"
                      [ns])
                | None => ret None
                end
            end) seen
      end
  end.

(** [ForceDeleteMachine]: [Get] and [Update] decode the answer into
    [machine]. *)
Definition ForceDeleteMachine (namespace name : string) : M error :=
  err <- call ctrl_GetConfig ;;
  match err with
  | Some e => ret (Wrap e "error creating config for core clientset")
  | None =>
      clientset <- New ;;
      let namespacedName := {| nn_Namespace := namespace; nn_Name := name |} in
      r <- via clientset (client_Get KMachine namespacedName) ;;
      match r with
      | inl e => ret (Wrapf e "error getting Machine %s/%s" [namespace; name])
      | inr machine =>
          let machine := setMachineFinalizers [] machine in
          r <- via clientset (client_Update KMachine machine) ;;
          match r with
          | inl e =>
              ret (Wrapf e "error removing finalizer for Machine %s/%s" [namespace; name])
          | inr machine =>
              err <- via clientset
                       (client_Delete KMachine machine (Some DeletePropagationForeground)) ;;
              match err with
              | Some e => ret (Wrapf e "error deleting Machine %s/%s" [namespace; name])
              | None => ret None
              end
          end
      end
  end.

(** *** Waiting for statuses *)

(** The loop over the listed clusters: [false] when it returns early. *)
Fixpoint clustersHaveStatus (Items : list clusterv1.Cluster) : bool :=
  match Items with
  | [] => true
  | cluster :: rest =>
      if clusterv1.ClusterStatus_isZero (clusterv1.Cluster_Status cluster) then false
      else match clusterv1.cs_ProviderStatus (clusterv1.Cluster_Status cluster) with
           | None => false
           | Some _ => clustersHaveStatus rest
           end
  end.

Fixpoint machineDeploymentsHaveStatus (Items : list clusterv1.MachineDeployment) : bool :=
  match Items with
  | [] => true
  | md :: rest =>
      if clusterv1.MachineDeploymentStatus_isZero (clusterv1.MachineDeployment_Status md)
      then false
      else machineDeploymentsHaveStatus rest
  end.

Fixpoint machineSetsHaveStatus (Items : list clusterv1.MachineSet) : bool :=
  match Items with
  | [] => true
  | ms :: rest =>
      if clusterv1.MachineSetStatus_isZero (clusterv1.MachineSet_Status ms) then false
      else machineSetsHaveStatus rest
  end.

Fixpoint machinesHaveStatus (Items : list clusterv1.Machine) : bool :=
  match Items with
  | [] => true
  | m :: rest =>
      if clusterv1.MachineStatus_isZero (clusterv1.Machine_Status m) then false
      else match clusterv1.ms_ProviderStatus (clusterv1.Machine_Status m) with
           | None => false
           | Some _ => machinesHaveStatus rest
           end
  end.

(** One tick of the probe of [WaitForResourceStatuses].  The result of
    the first [clientset.List] is dropped: [clusters] is assigned again by
    the typed list and [err] is shadowed. *)
Definition resourceStatusesProbe (clientset : Client) : M (bool * error) :=
  _ <- via clientset (client_List KCluster noListOptions) ;;
  r <- call (clientSet_List KCluster "") ;;
  match r with
  | inl _ => ret (false, None)
  | inr clusters =>
      if negb (clustersHaveStatus clusters) then ret (false, None)
      else
        r <- call (clientSet_List KMachineDeployment "") ;;
        match r with
        | inl _ => ret (false, None)
        | inr machineDeployments =>
            if negb (machineDeploymentsHaveStatus machineDeployments)
            then ret (false, None)
            else
              r <- call (clientSet_List KMachineSet "") ;;
              match r with
              | inl _ => ret (false, None)
              | inr machineSets =>
                  if negb (machineSetsHaveStatus machineSets) then ret (false, None)
                  else
                    r <- call (clientSet_List KMachine "") ;;
                    match r with
                    | inl _ => ret (false, None)
                    | inr machines =>
                        if negb (machinesHaveStatus machines) then ret (false, None)
                        else ret (true, None)
                    end
              end
        end
  end.

(** [WaitForResourceStatuses]; the time between [time.Now] and
    [time.Until] is not counted. *)
Definition WaitForResourceStatuses : M error :=
  err <- call ctrl_GetConfig ;;
  match err with
  | Some e => ret (Wrap e "error creating config for core clientset")
  | None =>
      clientset <- New ;;
      let timeout := timeoutResourceReady in
      PollImmediate retryIntervalResourceReady timeout
        (stateless (resourceStatusesProbe clientset)) tt
  end.

(** The lists one tick of the probe fetches when it runs to its end,
    in the order it asks for them. *)
Definition statusListing (s : S)
  : (Err + list clusterv1.Cluster) * (Err + list clusterv1.MachineDeployment)
    * (Err + list clusterv1.MachineSet) * (Err + list clusterv1.Machine) :=
  let (_, s0) := respond (client_List KCluster noListOptions) s in
  let (clusters, s1) := respond (clientSet_List KCluster "") s0 in
  let (machineDeployments, s2) := respond (clientSet_List KMachineDeployment "") s1 in
  let (machineSets, s3) := respond (clientSet_List KMachineSet "") s2 in
  let (machines, _) := respond (clientSet_List KMachine "") s3 in
  (clusters, machineDeployments, machineSets, machines).

(** The first two steps of every method: load the configuration, build
    the controller-runtime client. *)
Definition dial : M (error * Client) :=
  err <- call ctrl_GetConfig ;;
  match err with
  | Some e => ret (Some e, nilClient)
  | None => clientset <- New ;; ret (None, clientset)
  end.

(** *** What a run may send *)

(** [w'] continues [w] with calls that all satisfy [P]. *)
Definition extends (P : Call -> Prop) (w w' : World) : Prop :=
  exists l, calls w' = calls w ++ l /\ Forall P l.

Definition final {A : Type} (o : Outcome A) : World :=
  match o with
  | Returns _ w => w
  | Panics _ w => w
  end.

(** Whatever [m] does, it sends only calls that satisfy [P]. *)
Definition sends_only {A : Type} (P : Call -> Prop) (m : M A) : Prop :=
  forall w, extends P w (final (m w)).

End Client.

Arguments Returns {S A} a w.
Arguments Panics {S A} r w.
Arguments remote {S} w.
Arguments calls {S} w.
Arguments final {S A} o.

(** ** A double that serves a snapshot *)

(** What the controller-runtime client answers when [Delete] is handed a
    nil pointer: it refuses the object before it sends anything. *)
Definition nilObjectRefused : Err := ErrorString "expected pointer, but got nil".

(** The objects the remote side holds.  Writes are acknowledged and not
    applied: every object is held back by a finalizer nobody processes.
    [snap_rejected] names the machines whose creation is refused.  A
    [Delete] that is handed the nil list is refused by the client and
    leaves it with [nilObjectRefused]. *)
Record Snapshot := {
  snap_clusters : list clusterv1.Cluster;
  snap_machineClasses : list clusterv1.MachineClass;
  snap_machineDeployments : list clusterv1.MachineDeployment;
  snap_machineSets : list clusterv1.MachineSet;
  snap_machines : list clusterv1.Machine;
  snap_rejected : list string;
  snap_env : string
}.

Definition meta_of (k : ResourceKind) : obj k -> ObjectMeta :=
  match k with
  | KCluster => clusterv1.Cluster_ObjectMeta
  | KMachineClass => clusterv1.MachineClass_ObjectMeta
  | KMachineDeployment => clusterv1.MachineDeployment_ObjectMeta
  | KMachineSet => clusterv1.MachineSet_ObjectMeta
  | KMachine => clusterv1.Machine_ObjectMeta
  end.

Definition snap_items (k : ResourceKind) (s : Snapshot) : list (obj k) :=
  match k with
  | KCluster => snap_clusters s
  | KMachineClass => snap_machineClasses s
  | KMachineDeployment => snap_machineDeployments s
  | KMachineSet => snap_machineSets s
  | KMachine => snap_machines s
  end.

Definition in_namespace (k : ResourceKind) (ns : string) (o : obj k) : bool :=
  (ns =? "")%string || (Namespace (meta_of k o) =? ns)%string.

Definition has_key (k : ResourceKind) (key : NamespacedName) (o : obj k) : bool :=
  (Namespace (meta_of k o) =? nn_Namespace key)%string
  && (Name (meta_of k o) =? nn_Name key)%string.

Definition notFound (key : NamespacedName) : Err :=
  StatusError StatusReasonNotFound (nn_Name key).

Definition snapshot_reply (c : Call) (s : Snapshot) : reply c :=
  match c return reply c with
  | ctrl_GetConfig => None
  | ctrlclient_New => None
  | SetLabelSelector _ => None
  | os_Getenv _ => snap_env s
  | client_List k opts => inr (filter (in_namespace k (lo_Namespace opts)) (snap_items k s))
  | client_Get k key =>
      match find (has_key k key) (snap_items k s) with
      | Some o => inr o
      | None => inl (notFound key)
      end
  | client_Create k o =>
      if existsb (fun n => (n =? Name (meta_of k o))%string) (snap_rejected s)
      then inl (StatusError StatusReasonAlreadyExists (Name (meta_of k o)))
      else inr o
  | client_Update k o =>
      match find (has_key k {| nn_Namespace := Namespace (meta_of k o);
                               nn_Name := Name (meta_of k o) |}) (snap_items k s) with
      | Some _ => inr o
      | None => inl (notFound {| nn_Namespace := Namespace (meta_of k o);
                                 nn_Name := Name (meta_of k o) |})
      end
  | client_Delete _ _ _ => None
  | client_DeleteList _ None => Some nilObjectRefused
  | client_DeleteList _ (Some _) => None
  | clientSet_List k ns => inr (filter (in_namespace k ns) (snap_items k s))
  end.

Definition snapshot (c : Call) (s : Snapshot) : reply c * Snapshot :=
  (snapshot_reply c s, s).

(** The world before the first call. *)
Definition start {S : Type} (s : S) : World S := {| remote := s; calls := [] |}.

(** ** Concrete objects *)

Definition mkMeta (name ns : string) : ObjectMeta :=
  {| Name := name; Namespace := ns; Annotations := [];
     OwnerReferences := []; Finalizers := [] |}.

Definition ownedBy (kind name : string) (m : ObjectMeta) : ObjectMeta :=
  {| Name := Name m; Namespace := Namespace m; Annotations := Annotations m;
     OwnerReferences :=
       OwnerReferences m ++
         [{| or_APIVersion := "cluster.k8s.io/v1alpha1"; or_Kind := kind;
             or_Name := name; or_UID := "" |}];
     Finalizers := Finalizers m |}.

Definition clusterType : TypeMeta :=
  {| Kind := "Cluster"; APIVersion := "cluster.k8s.io/v1alpha1" |}.

Definition noType : TypeMeta := {| Kind := ""; APIVersion := "" |}.

Definition emptyClusterStatus : clusterv1.ClusterStatus :=
  {| clusterv1.APIEndpoints := None; clusterv1.cs_ProviderStatus := None |}.

Definition readyClusterStatus : clusterv1.ClusterStatus :=
  {| clusterv1.APIEndpoints := None; clusterv1.cs_ProviderStatus := Some "{}" |}.

Definition emptyMachineStatus : clusterv1.MachineStatus :=
  {| clusterv1.NodeRef := None; clusterv1.ms_ProviderStatus := None |}.

Definition readyMachineStatus : clusterv1.MachineStatus :=
  {| clusterv1.NodeRef := None; clusterv1.ms_ProviderStatus := Some "{}" |}.

Definition mkCluster (name ns : string) (st : clusterv1.ClusterStatus)
  : clusterv1.Cluster :=
  {| clusterv1.Cluster_TypeMeta := clusterType;
     clusterv1.Cluster_ObjectMeta := mkMeta name ns;
     clusterv1.Cluster_Status := st |}.

Definition mkMachineDeployment (meta : ObjectMeta) (replicas : Z)
  : clusterv1.MachineDeployment :=
  {| clusterv1.MachineDeployment_TypeMeta := noType;
     clusterv1.MachineDeployment_ObjectMeta := meta;
     clusterv1.MachineDeployment_Status :=
       {| clusterv1.mds_ObservedGeneration := 0; clusterv1.mds_Replicas := replicas;
          clusterv1.mds_ReadyReplicas := 0 |} |}.

Definition mkMachineSet (meta : ObjectMeta) (replicas : Z) : clusterv1.MachineSet :=
  {| clusterv1.MachineSet_TypeMeta := noType;
     clusterv1.MachineSet_ObjectMeta := meta;
     clusterv1.MachineSet_Status :=
       {| clusterv1.mss_Replicas := replicas; clusterv1.mss_ReadyReplicas := 0;
          clusterv1.mss_ObservedGeneration := 0 |} |}.

Definition mkMachine (meta : ObjectMeta) (controlPlane : string)
  (st : clusterv1.MachineStatus) : clusterv1.Machine :=
  {| clusterv1.Machine_TypeMeta := noType;
     clusterv1.Machine_ObjectMeta := meta;
     clusterv1.Machine_Spec :=
       {| clusterv1.Versions :=
            {| clusterv1.Kubelet := "1.14.2"; clusterv1.ControlPlane := controlPlane |} |};
     clusterv1.Machine_Status := st |}.

Definition emptySnapshot : Snapshot :=
  {| snap_clusters := []; snap_machineClasses := []; snap_machineDeployments := [];
     snap_machineSets := []; snap_machines := []; snap_rejected := [];
     snap_env := "" |}.

(** A cluster [c1] that owns a machine deployment, a machine set and two
    machines; [m2] is a control plane machine, [m1] carries a finalizer. *)
Definition c1 : clusterv1.Cluster := mkCluster "c1" "default" readyClusterStatus.

Definition md1 : clusterv1.MachineDeployment :=
  mkMachineDeployment (ownedBy "Cluster" "c1" (mkMeta "md1" "default")) 1.

Definition ms1 : clusterv1.MachineSet :=
  mkMachineSet (ownedBy "Cluster" "c1" (mkMeta "ms1" "default")) 1.

Definition ms2 : clusterv1.MachineSet :=
  mkMachineSet (ownedBy "Cluster" "c2" (mkMeta "ms2" "default")) 1.

Definition m1 : clusterv1.Machine :=
  mkMachine
    (SetFinalizers ["machine.cluster.k8s.io"]
       (ownedBy "Cluster" "c1" (mkMeta "m1" "default")))
    "" readyMachineStatus.

Definition m2 : clusterv1.Machine :=
  mkMachine (mkMeta "m2" "default") "1.14.2" readyMachineStatus.

Definition populated : Snapshot :=
  {| snap_clusters := [c1]; snap_machineClasses := [];
     snap_machineDeployments := [md1]; snap_machineSets := [ms1; ms2];
     snap_machines := [m1; m2]; snap_rejected := []; snap_env := "" |}.

(** Machines are left while no machine set is: the machines wait for
    their finalizers. *)
Definition machinesLeft : Snapshot :=
  {| snap_clusters := []; snap_machineClasses := [];
     snap_machineDeployments := []; snap_machineSets := [];
     snap_machines := [m1]; snap_rejected := []; snap_env := "" |}.

(** The remote side refuses to create [m2]. *)
Definition rejectsM2 : Snapshot :=
  {| snap_clusters := []; snap_machineClasses := [];
     snap_machineDeployments := []; snap_machineSets := [];
     snap_machines := []; snap_rejected := ["m2"]; snap_env := "" |}.

(** Two schedules for two goroutines.  Under [createsFirst] each sends
    its create, then the first one runs to its end before the second
    goes on.  Under [assignsInTurn] each sends its create, then each
    assigns [err], the first one first, and then they run on as before. *)
Definition createsFirst : list nat := [0; 1]%nat.

Definition assignsInTurn : list nat := [0; 1; 0; 1]%nat.

(** A template that only sets the paused flag. *)
Definition pausedTemplate : v1alpha3.ClusterTemplate :=
  {| v1alpha3.ct_TypeMeta := noType;
     v1alpha3.ct_ObjectMeta := mkMeta "t1" "default";
     v1alpha3.Spec :=
       {| v1alpha3.Template :=
            {| v1alpha3.tr_Spec :=
                 {| v1alpha3.Paused := true;
                    v1alpha3.ControlPlaneEndpoint :=
                      {| v1alpha3.Host := ""; v1alpha3.Port := 0 |} |} |} |} |}.

Arguments ret {S A} a w.
Arguments bind {S A B} m k w.
Arguments panic {S A} r w.
Arguments call {S} respond c w.
Arguments New {S} respond w.
Arguments via {S} respond clientset c w.
Arguments index {S A} s idx w.
Arguments forRange {S A St} body idx l st w.
Arguments forEachErr {S A} body l w.
Arguments poll {S L} ticks condition l w.
Arguments PollImmediate {S L} interval timeout condition l w.
Arguments stateless {S} condition _ w.
Arguments dial {S} respond w.
Arguments statusListing {S} respond s.
Arguments extends {S} P w w'.
Arguments sends_only {S A} P m.
Arguments GetClusters {S} respond namespace w.
Arguments GetCluster {S} respond name ns w.
Arguments GetMachineDeploymentsForCluster {S} respond cluster w.
Arguments GetMachineSetsForCluster {S} respond cluster w.
Arguments GetMachinesForCluster {S} respond cluster w.
Arguments machineReadyProbe {S} respond clientset machine w.
Arguments waitForMachineReady {S} respond machine w.
Arguments createMachineUnit {S} respond clientset namespace position v w.
Arguments interleave {S} respond clientset namespace steps schedule units v w.
Arguments CreateMachines {S} respond schedule machines namespace w.
Arguments reachable {S} respond clientset namespace steps units v w.
Arguments CreateMachines_outcomes {S} respond machines namespace w.
Arguments waitForClusterDelete {S} respond namespace w.
Arguments waitForMachineSetsDelete {S} respond namespace w.
Arguments waitForMachinesDelete {S} respond namespace w.
Arguments collectNamespaces {S T} namespace_of items seen toDelete w.
Arguments DeleteClusters {S} respond namespace w.
Arguments DeleteMachines {S} respond namespace w.
Arguments ForceDeleteMachine {S} respond namespace name w.
Arguments resourceStatusesProbe {S} respond clientset w.
Arguments WaitForResourceStatuses {S} respond w.

(** Classes of calls. *)
Definition is_list_of (k : ResourceKind) (c : Call) : bool :=
  match c, k with
  | client_List KCluster _, KCluster => true
  | client_List KMachineClass _, KMachineClass => true
  | client_List KMachineDeployment _, KMachineDeployment => true
  | client_List KMachineSet _, KMachineSet => true
  | client_List KMachine _, KMachine => true
  | _, _ => false
  end.

Definition is_write (c : Call) : bool :=
  match c with
  | client_Create _ _ | client_Update _ _
  | client_Delete _ _ _ | client_DeleteList _ _ => true
  | _ => false
  end.

Definition is_get (c : Call) : bool :=
  match c with
  | client_Get _ _ => true
  | _ => false
  end.

Definition is_create (c : Call) : bool :=
  match c with
  | client_Create _ _ => true
  | _ => false
  end.

(** The owner references of an object that name [cluster]. *)
Definition ownedByCluster (cluster : clusterv1.Cluster) (meta : ObjectMeta) : bool :=
  existsb (ownerIs cluster) (OwnerReferences meta).

(** How many owner references of an object name [cluster]. *)
Definition ownerMatches (cluster : clusterv1.Cluster) (meta : ObjectMeta) : nat :=
  length (filter (ownerIs cluster) (OwnerReferences meta)).

(** What the loops of [GetMachineSetsForCluster] and
    [GetMachinesForCluster] append: an item once for each of its owner
    references that names the cluster. *)
Definition appended {T : Type} (meta : T -> ObjectMeta) (cluster : clusterv1.Cluster)
  (Items : list T) : list T :=
  flat_map (fun x => repeat x (ownerMatches cluster (meta x))) Items.

(** The position of the first item with an owner reference that names
    [cluster]. *)
Fixpoint firstOwned {T : Type} (meta : T -> ObjectMeta) (cluster : clusterv1.Cluster)
  (Items : list T) : option nat :=
  match Items with
  | [] => None
  | x :: rest =>
      if ownedByCluster cluster (meta x) then Some 0
      else option_map Datatypes.S (firstOwned meta cluster rest)
  end.

(** Whether the snapshot refuses to create [machine]. *)
Definition rejected (s : Snapshot) (machine : clusterv1.Machine) : bool :=
  existsb (fun n => (n =? Name (clusterv1.Machine_ObjectMeta machine))%string)
    (snap_rejected s).

(** The error [CreateMachines] latches for a refused machine. *)
Definition createError (namespace : string) (machine : clusterv1.Machine) : error :=
  Wrapf (StatusError StatusReasonAlreadyExists
           (Name (clusterv1.Machine_ObjectMeta machine)))
    "error creating a machine object in namespace %v" [namespace].

(** ** More of the client *)

(** [clientcmdapi.Context] inside [tcmd.ConfigOverrides], the fields the
    client reads. *)
Module tcmd.

Record ContextOverrides := {
  Cluster : string;
  AuthInfo : string;
  Namespace : string
}.

End tcmd.

(** The [client] struct: [clientSet] is the typed clientset behind
    [clientSet_List]; [closeFn] touches only the local file system. *)
Record client := {
  kubeconfigFile : string;
  configOverrides_Context : tcmd.ContextOverrides
}.

Definition NamespaceDefault : string := "default".
Definition defaultAPIServerPort : string := "443".
Definition retryIntervalKubectlApply : Z := 10 * Second.
Definition timeoutKubectlApply : Z := 15 * Minute.

(** [apierrors.IsAlreadyExists]. *)
Definition IsAlreadyExists (e : Err) : bool :=
  match e with
  | StatusError StatusReasonAlreadyExists _ => true
  | _ => false
  end.

Definition GetContextNamespace (c : client) : string :=
  if (tcmd.Namespace (configOverrides_Context c) =? "")%string then NamespaceDefault
  else tcmd.Namespace (configOverrides_Context c).

Definition setClusterNamespace (namespace : string) (cluster : clusterv1.Cluster)
  : clusterv1.Cluster :=
  {| clusterv1.Cluster_TypeMeta := clusterv1.Cluster_TypeMeta cluster;
     clusterv1.Cluster_ObjectMeta :=
       SetNamespace namespace (clusterv1.Cluster_ObjectMeta cluster);
     clusterv1.Cluster_Status := clusterv1.Cluster_Status cluster |}.

Definition setMachineDeploymentNamespace (namespace : string)
  (deploy : clusterv1.MachineDeployment) : clusterv1.MachineDeployment :=
  {| clusterv1.MachineDeployment_TypeMeta := clusterv1.MachineDeployment_TypeMeta deploy;
     clusterv1.MachineDeployment_ObjectMeta :=
       SetNamespace namespace (clusterv1.MachineDeployment_ObjectMeta deploy);
     clusterv1.MachineDeployment_Status := clusterv1.MachineDeployment_Status deploy |}.

Definition setMachineSetNamespace (namespace : string) (ms : clusterv1.MachineSet)
  : clusterv1.MachineSet :=
  {| clusterv1.MachineSet_TypeMeta := clusterv1.MachineSet_TypeMeta ms;
     clusterv1.MachineSet_ObjectMeta :=
       SetNamespace namespace (clusterv1.MachineSet_ObjectMeta ms);
     clusterv1.MachineSet_Status := clusterv1.MachineSet_Status ms |}.

Definition setMachineDeploymentFinalizers (fs : list string)
  (md : clusterv1.MachineDeployment) : clusterv1.MachineDeployment :=
  {| clusterv1.MachineDeployment_TypeMeta := clusterv1.MachineDeployment_TypeMeta md;
     clusterv1.MachineDeployment_ObjectMeta :=
       SetFinalizers fs (clusterv1.MachineDeployment_ObjectMeta md);
     clusterv1.MachineDeployment_Status := clusterv1.MachineDeployment_Status md |}.

Definition setMachineSetFinalizers (fs : list string) (ms : clusterv1.MachineSet)
  : clusterv1.MachineSet :=
  {| clusterv1.MachineSet_TypeMeta := clusterv1.MachineSet_TypeMeta ms;
     clusterv1.MachineSet_ObjectMeta :=
       SetFinalizers fs (clusterv1.MachineSet_ObjectMeta ms);
     clusterv1.MachineSet_Status := clusterv1.MachineSet_Status ms |}.

(** [cluster.Status.APIEndpoints = append(cluster.Status.APIEndpoints, e)]. *)
Definition appendAPIEndpoint (e : clusterv1.APIEndpoint) (cluster : clusterv1.Cluster)
  : clusterv1.Cluster :=
  {| clusterv1.Cluster_TypeMeta := clusterv1.Cluster_TypeMeta cluster;
     clusterv1.Cluster_ObjectMeta := clusterv1.Cluster_ObjectMeta cluster;
     clusterv1.Cluster_Status :=
       {| clusterv1.APIEndpoints :=
            Some (match clusterv1.APIEndpoints (clusterv1.Cluster_Status cluster) with
                  | Some l => l ++ [e]
                  | None => [e]
                  end);
          clusterv1.cs_ProviderStatus :=
            clusterv1.cs_ProviderStatus (clusterv1.Cluster_Status cluster) |} |}.

(** [strings.HasPrefix(s, prefix)]. *)
Fixpoint HasPrefix (s prefix : string) : bool :=
  match prefix, s with
  | EmptyString, _ => true
  | String _ _, EmptyString => false
  | String a prefix', String b s' => (a =? b)%char && HasPrefix s' prefix'
  end.

(** [strings.Contains(s, substr)]. *)
Fixpoint Contains (s substr : string) : bool :=
  HasPrefix s substr
  || match s with
     | EmptyString => false
     | String _ s' => Contains s' substr
     end.

(** The text [namespaces "default" not found]. *)
Definition defaultNamespaceNotFound : string :=
  "namespaces " ++ String "034"%char ("default" ++ String "034"%char " not found").

(** [core.ConfigMap]; [None] is the nil map. *)
Record ConfigMap := {
  ConfigMap_ObjectMeta : ObjectMeta;
  Data : option (list (string * string))
}.

Definition configMapName : string := "clusterctl".
Definition configMapProviderComponentsKey : string := "provider-components".

(** The calls of the client that address neither of the five kinds:
    namespaces of the core API, the status subresource, the [kubectl]
    process ([args], standard input) and the config map of the provider
    components store. *)
Inductive CoreCall :=
| namespace_Create (name : string)
| namespace_Delete (name : string)
| status_Update (cluster : clusterv1.Cluster)
| exec_kubectl (args : list string) (stdin : string)
| configMap_Get (key : NamespacedName)
| configMap_Update (configMap : ConfigMap)
| configMap_Create (configMap : ConfigMap).

(** [exec_kubectl] answers with the combined output and, when the process
    failed, the text of its error. *)
Definition core_reply (c : CoreCall) : Type :=
  match c with
  | namespace_Create _ => error
  | namespace_Delete _ => error
  | status_Update _ => error
  | exec_kubectl _ _ => (string * option string)%type
  | configMap_Get _ => (Err + ConfigMap)%type
  | configMap_Update _ => error
  | configMap_Create _ => error
  end.

(** The error [kubectlManifestCmd] returns: [errors.Wrapf] of the process
    error with the output. *)
Record ExecFailure := {
  ef_output : string;
  ef_cause : string
}.

Definition ExecFailure_error (f : ExecFailure) : Err :=
  WithMessage "couldn't kubectl apply, output: %s" [ef_output f]
    (ErrorString (ef_cause f)).

(** Its [Error()]: the message, a colon, the cause. *)
Definition ExecFailure_Error (f : ExecFailure) : string :=
  "couldn't kubectl apply, output: " ++ ef_output f ++ ": " ++ ef_cause f.

(** Whether the probe of [waitForKubectlApply] tries again after this
    failure. *)
Definition retryable (f : ExecFailure) : bool :=
  (Contains (ExecFailure_Error f) "EOF"
   || Contains (ExecFailure_Error f) "refused"
   || Contains (ExecFailure_Error f) "no such host")
  || Contains (ExecFailure_Error f) "unable to recognize"
  || Contains (ExecFailure_Error f) defaultNamespaceNotFound.

Definition buildKubectlArgs (c : client) (commandName : string) : list string :=
  let args := [commandName] in
  let args :=
    if negb (kubeconfigFile c =? "")%string
    then args ++ ["--kubeconfig"; kubeconfigFile c] else args in
  let args :=
    if negb (tcmd.Cluster (configOverrides_Context c) =? "")%string
    then args ++ ["--cluster"; tcmd.Cluster (configOverrides_Context c)] else args in
  let args :=
    if negb (tcmd.Namespace (configOverrides_Context c) =? "")%string
    then args ++ ["--namespace"; tcmd.Namespace (configOverrides_Context c)] else args in
  let args :=
    if negb (tcmd.AuthInfo (configOverrides_Context c) =? "")%string
    then args ++ ["--user"; tcmd.AuthInfo (configOverrides_Context c)] else args in
  args ++ ["-f"; "-"].

Section ClientMore.

Variable S : Type.
Variable respond : forall c : Call, S -> reply c * S.

Notation "x <- m ;; k" := (bind m (fun x => k))
  (at level 61, m at next level, right associativity).

(** A [for ... range] whose body may [return]: [Some r] when it did. *)
Fixpoint forRangeReturn {A R : Type} (body : A -> M S (option R)) (l : list A)
  : M S (option R) :=
  match l with
  | [] => ret None
  | x :: l' =>
      r <- body x ;;
      match r with
      | Some v => ret (Some v)
      | None => forRangeReturn body l'
      end
  end.

(** *** Creating objects *)

Definition CreateMachineClass (machineClass : clusterv1.MachineClass) : M S error :=
  err <- call respond ctrl_GetConfig ;;
  match err with
  | Some e => ret (Wrap e "error creating config for core clientset")
  | None =>
      clientset <- New respond ;;
      r <- via respond clientset (client_Create KMachineClass machineClass) ;;
      match r with
      | inl e =>
          ret (Wrapf e "error listing machine set object %s in namespace %q"
                 [Namespace (clusterv1.MachineClass_ObjectMeta machineClass);
                  Name (clusterv1.MachineClass_ObjectMeta machineClass)])
      | inr _ => ret None
      end
  end.

Definition DeleteMachineClass (namespace name : string) : M S error :=
  let machineClass :=
    {| clusterv1.MachineClass_TypeMeta := {| Kind := ""; APIVersion := "" |};
       clusterv1.MachineClass_ObjectMeta :=
         {| Name := name; Namespace := namespace; Annotations := [];
            OwnerReferences := []; Finalizers := [] |} |} in
  err <- call respond ctrl_GetConfig ;;
  match err with
  | Some e => ret (Wrap e "error creating config for core clientset")
  | None =>
      clientset <- New respond ;;
      err <- via respond clientset (client_Delete KMachineClass machineClass None) ;;
      match err with
      | Some e => ret (Wrapf e "error deleting MachineClass %s/%s" [namespace; name])
      | None => ret None
      end
  end.

Definition CreateClusterObject (c : client) (cluster : clusterv1.Cluster) : M S error :=
  let namespace := GetContextNamespace c in
  let cluster :=
    if (Namespace (clusterv1.Cluster_ObjectMeta cluster) =? "")%string
    then setClusterNamespace namespace cluster else cluster in
  err <- call respond ctrl_GetConfig ;;
  match err with
  | Some e => ret (Wrap e "error creating config for core clientset")
  | None =>
      clientset <- New respond ;;
      r <- via respond clientset (client_Create KCluster cluster) ;;
      match r with
      | inl e =>
          ret (Wrapf e "error listing machine set object %s in namespace %q"
                 [Namespace (clusterv1.Cluster_ObjectMeta cluster);
                  Name (clusterv1.Cluster_ObjectMeta cluster)])
      | inr _ => ret None
      end
  end.

(** [CreateMachineDeployments]: the body of the loop ends in [return nil]. *)
Definition CreateMachineDeployments (deployments : list clusterv1.MachineDeployment)
  (namespace : string) : M S error :=
  err <- call respond ctrl_GetConfig ;;
  match err with
  | Some e => ret (Wrap e "error creating config for core clientset")
  | None =>
      clientset <- New respond ;;
      returned <-
        forRangeReturn (fun deploy =>
          let deploy := setMachineDeploymentNamespace namespace deploy in
          r <- via respond clientset (client_Create KMachineDeployment deploy) ;;
          match r with
          | inl e =>
              ret (Some (Wrapf e
                     "error creating a machine deployment object in namespace %q"
                     [namespace]))
          | inr _ => ret (Some None)
          end) deployments ;;
      match returned with
      | Some err => ret err
      | None => ret None
      end
  end.

(** [CreateMachineSets]: as [CreateMachineDeployments]. *)
Definition CreateMachineSets (machineSets : list clusterv1.MachineSet)
  (namespace : string) : M S error :=
  err <- call respond ctrl_GetConfig ;;
  match err with
  | Some e => ret (Wrap e "error creating config for core clientset")
  | None =>
      clientset <- New respond ;;
      returned <-
        forRangeReturn (fun ms =>
          let ms := setMachineSetNamespace namespace ms in
          r <- via respond clientset (client_Create KMachineSet ms) ;;
          match r with
          | inl e =>
              ret (Some (Wrapf e
                     "error creating a machine set object in namespace %q"
                     [namespace]))
          | inr _ => ret (Some None)
          end) machineSets ;;
      match returned with
      | Some err => ret err
      | None => ret None
      end
  end.

(** *** Listing objects *)

(** [GetMachineClasses], [GetMachineDeployments], [GetMachineSets] and
    [GetMachines] call [List] without options; [namespace] only shows in
    the error message. *)
Definition GetMachineClasses (namespace : string)
  : M S (list clusterv1.MachineClass * error) :=
  err <- call respond ctrl_GetConfig ;;
  match err with
  | Some e => ret ([], Wrap e "error creating config for core clientset")
  | None =>
      clientset <- New respond ;;
      r <- via respond clientset (client_List KMachineClass noListOptions) ;;
      match r with
      | inl e =>
          ret ([], Wrapf e "error listing machine class objects in namespace %q"
                     [namespace])
      | inr Items => ret (Items, None)
      end
  end.

Definition GetMachineDeployments (namespace : string)
  : M S (list clusterv1.MachineDeployment * error) :=
  err <- call respond ctrl_GetConfig ;;
  match err with
  | Some e => ret ([], Wrap e "error creating config for core clientset")
  | None =>
      clientset <- New respond ;;
      r <- via respond clientset (client_List KMachineDeployment noListOptions) ;;
      match r with
      | inl e =>
          ret ([], Wrapf e "error listing machine deployment objects in namespace %q"
                     [namespace])
      | inr Items => ret (Items, None)
      end
  end.

Definition GetMachineSets (namespace : string)
  : M S (list clusterv1.MachineSet * error) :=
  err <- call respond ctrl_GetConfig ;;
  match err with
  | Some e => ret ([], Wrap e "error creating config for core clientset")
  | None =>
      clientset <- New respond ;;
      r <- via respond clientset (client_List KMachineSet noListOptions) ;;
      match r with
      | inl e =>
          ret ([], Wrapf e "error listing machine deployment objects in namespace %q"
                     [namespace])
      | inr Items => ret (Items, None)
      end
  end.

Definition GetMachines (namespace : string) : M S (list clusterv1.Machine * error) :=
  err <- call respond ctrl_GetConfig ;;
  match err with
  | Some e => ret ([], Wrap e "error creating config for core clientset")
  | None =>
      clientset <- New respond ;;
      r <- via respond clientset (client_List KMachine noListOptions) ;;
      match r with
      | inl e =>
          ret ([], Wrapf e "error listing machine objects in namespace %q" [namespace])
      | inr Items => ret (Items, None)
      end
  end.

(** [GetClusterAPIObject], over the methods of this client: the cluster,
    the control plane machine, the nodes, the error. *)
Definition GetClusterAPIObject (clusterName namespace : string)
  : M S (option clusterv1.Cluster * option clusterv1.Machine
         * list clusterv1.Machine * error) :=
  r <- GetMachines namespace ;;
  let '(machines, err) := r in
  match err with
  | Some e => ret (None, None, [], Wrap e "unable to fetch machines")
  | None =>
      r <- GetCluster respond clusterName namespace ;;
      let '(cluster, err) := r in
      match err with
      | Some e =>
          ret (None, None, [],
               Wrapf e "unable to fetch cluster %s/%s" [namespace; clusterName])
      | None =>
          let '(controlPlane, nodes, err) := ExtractControlPlaneMachines machines in
          match err with
          | Some e =>
              ret (None, None, [],
                   Wrapf e "unable to fetch control plane machine in cluster %s/%s"
                     [namespace; clusterName])
          | None =>
              first <- index controlPlane 0 ;;
              ret (cluster, Some first, nodes, None)
          end
      end
  end.

(** *** Force delete, the siblings *)

Definition ForceDeleteMachineSet (namespace name : string) : M S error :=
  err <- call respond ctrl_GetConfig ;;
  match err with
  | Some e => ret (Wrap e "error creating config for core clientset")
  | None =>
      clientset <- New respond ;;
      let namespacedName := {| nn_Namespace := namespace; nn_Name := name |} in
      r <- via respond clientset (client_Get KMachineSet namespacedName) ;;
      match r with
      | inl e => ret (Wrapf e "error getting Machine %s/%s" [namespace; name])
      | inr machineSet =>
          let machineSet := setMachineSetFinalizers [] machineSet in
          r <- via respond clientset (client_Update KMachineSet machineSet) ;;
          match r with
          | inl e =>
              ret (Wrapf e "error removing finalizer for Machine %s/%s" [namespace; name])
          | inr machineSet =>
              err <- via respond clientset
                       (client_Delete KMachineSet machineSet
                          (Some DeletePropagationForeground)) ;;
              match err with
              | Some e => ret (Wrapf e "error deleting Machine %s/%s" [namespace; name])
              | None => ret None
              end
          end
      end
  end.

Definition ForceDeleteMachineDeployment (namespace name : string) : M S error :=
  err <- call respond ctrl_GetConfig ;;
  match err with
  | Some e => ret (Wrap e "error creating config for core clientset")
  | None =>
      clientset <- New respond ;;
      let namespacedName := {| nn_Namespace := namespace; nn_Name := name |} in
      r <- via respond clientset (client_Get KMachineDeployment namespacedName) ;;
      match r with
      | inl e => ret (Wrapf e "error getting Machine %s/%s" [namespace; name])
      | inr machineDeployment =>
          let machineDeployment := setMachineDeploymentFinalizers [] machineDeployment in
          r <- via respond clientset (client_Update KMachineDeployment machineDeployment) ;;
          match r with
          | inl e =>
              ret (Wrapf e "error removing finalizer for Machine %s/%s" [namespace; name])
          | inr machineDeployment =>
              err <- via respond clientset
                       (client_Delete KMachineDeployment machineDeployment
                          (Some DeletePropagationForeground)) ;;
              match err with
              | Some e => ret (Wrapf e "error deleting Machine %s/%s" [namespace; name])
              | None => ret None
              end
          end
      end
  end.

(** *** The deletion coordinator, the other kinds *)

Definition waitForMachineClassesDelete (namespace : string) : M S error :=
  PollImmediate retryIntervalResourceDelete timeoutResourceDelete
    (stateless (
       err <- call respond ctrl_GetConfig ;;
       match err with
       | Some e => ret (false, Wrap e "error creating config for core clientset")
       | None =>
           clientset <- New respond ;;
           r <- via respond clientset (client_List KMachineClass noListOptions) ;;
           match r with
           | inl e => ret (false, None)
           | inr Items =>
               if (0 <? length Items)%nat then ret (false, None) else ret (true, None)
           end
       end)) tt.

Definition waitForMachineDeploymentsDelete (namespace : string) : M S error :=
  PollImmediate retryIntervalResourceDelete timeoutResourceDelete
    (stateless (
       err <- call respond ctrl_GetConfig ;;
       match err with
       | Some e => ret (false, Wrap e "error creating config for core clientset")
       | None =>
           clientset <- New respond ;;
           r <- via respond clientset (client_List KMachineDeployment noListOptions) ;;
           match r with
           | inl e => ret (false, None)
           | inr Items =>
               if (0 <? length Items)%nat then ret (false, None) else ret (true, None)
           end
       end)) tt.

(** [DeleteMachineClasses] calls itself for every namespace of [seen]
    before it deletes anything.  [depth] bounds the call stack; the result
    [None] stands for a stack that is used up. *)
Fixpoint DeleteMachineClasses (depth : nat) (namespace : string)
  : M S (option error) :=
  match depth with
  | O => ret None
  | Datatypes.S depth' =>
      err <- call respond ctrl_GetConfig ;;
      match err with
      | Some e => ret (Some (Wrap e "error creating config for core clientset"))
      | None =>
          clientset <- New respond ;;
          let seen : list string := [] in
          let machineClassesToDelete : list (string * list clusterv1.MachineClass) := [] in
          collected <-
            (if negb (namespace =? "")%string then
               ret (inr (seen ++ [namespace], machineClassesToDelete))
             else
               r <- via respond clientset (client_List KMachineClass noListOptions) ;;
               match r with
               | inl e =>
                   ret (inl (Wrap e "error listing MachineClasss in all namespaces"))
               | inr Items =>
                   st <- collectNamespaces
                           (fun mc => Namespace (clusterv1.MachineClass_ObjectMeta mc))
                           Items seen machineClassesToDelete ;;
                   ret (inr st)
               end) ;;
          match collected with
          | inl err => ret (Some err)
          | inr (seen, machineClassesToDelete) =>
              returned <-
                forRangeReturn (fun ns =>
                  r <- DeleteMachineClasses depth' ns ;;
                  match r with
                  | None => ret (Some None)
                  | Some (Some e) => ret (Some (Some (Some e)))
                  | Some None =>
                      err <- via respond clientset
                               (client_DeleteList KMachineClass
                                  (map_lookup ns machineClassesToDelete)) ;;
                      match err with
                      | Some e =>
                          ret (Some (Some
                                 (Wrapf e "error deleting MachineClasses in namespace %q"
                                    [ns])))
                      | None =>
                          err <- waitForMachineClassesDelete ns ;;
                          match err with
                          | Some e =>
                              ret (Some (Some
                                     (Wrapf e
                                        "error waiting for MachineClass(es) deletion to complete in ns %q"
                                        [ns])))
                          | None => ret None
                          end
                      end
                  end) seen ;;
              match returned with
              | Some result => ret result
              | None => ret (Some None)
              end
          end
      end
  end.

Definition DeleteMachineDeployments (namespace : string) : M S error :=
  err <- call respond ctrl_GetConfig ;;
  match err with
  | Some e => ret (Wrap e "error creating config for core clientset")
  | None =>
      clientset <- New respond ;;
      let seen : list string := [] in
      let machineDeploymentsToDelete
        : list (string * list clusterv1.MachineDeployment) := [] in
      collected <-
        (if negb (namespace =? "")%string then
           ret (inr (seen ++ [namespace], machineDeploymentsToDelete))
         else
           r <- via respond clientset (client_List KMachineDeployment noListOptions) ;;
           match r with
           | inl e =>
               ret (inl (Wrap e "error listing MachineDeployments in all namespaces"))
           | inr Items =>
               st <- collectNamespaces
                       (fun md => Namespace (clusterv1.MachineDeployment_ObjectMeta md))
                       Items seen machineDeploymentsToDelete ;;
               ret (inr st)
           end) ;;
      match collected with
      | inl err => ret err
      | inr (seen, machineDeploymentsToDelete) =>
          forEachErr (fun ns =>
            err <- via respond clientset
                     (client_DeleteList KMachineDeployment
                        (map_lookup ns machineDeploymentsToDelete)) ;;
            match err with
            | Some e =>
                ret (Wrapf e "error deleting MachineDeployments in namespace %q" [ns])
            | None =>
                err <- waitForMachineDeploymentsDelete ns ;;
                match err with
                | Some e =>
                    ret (Wrapf e
                      "error waiting for MachineDeployment(s) deletion to complete in namespace %q"
                      [ns])
                | None => ret None
                end
            end) seen
      end
  end.

Definition DeleteMachineSets (namespace : string) : M S error :=
  err <- call respond ctrl_GetConfig ;;
  match err with
  | Some e => ret (Wrap e "error creating config for core clientset")
  | None =>
      clientset <- New respond ;;
      let seen : list string := [] in
      let machineSetsToDelete : list (string * list clusterv1.MachineSet) := [] in
      collected <-
        (if negb (namespace =? "")%string then
           ret (inr (seen ++ [namespace], machineSetsToDelete))
         else
           r <- via respond clientset (client_List KMachineSet noListOptions) ;;
           match r with
           | inl e => ret (inl (Wrap e "error listing MachineSets in all namespaces"))
           | inr Items =>
               st <- collectNamespaces
                       (fun ms => Namespace (clusterv1.MachineSet_ObjectMeta ms))
                       Items seen machineSetsToDelete ;;
               ret (inr st)
           end) ;;
      match collected with
      | inl err => ret err
      | inr (seen, machineSetsToDelete) =>
          forEachErr (fun ns =>
            err <- via respond clientset
                     (client_DeleteList KMachineSet
                        (map_lookup ns machineSetsToDelete)) ;;
            match err with
            | Some e => ret (Wrapf e "error deleting MachineSets in namespace %q" [ns])
            | None =>
                err <- waitForMachineSetsDelete respond ns ;;
                match err with
                | Some e =>
                    ret (Wrapf e
                      "error waiting for MachineSet(s) deletion to complete in namespace %q"
                      [ns])
                | None => ret None
                end
            end) seen
      end
  end.

(** *** Waiting for the API *)

Definition waitForClusterResourceReady : M S error :=
  let timeout := timeoutResourceReady in
  err <- call respond ctrl_GetConfig ;;
  match err with
  | Some e => ret (Wrap e "error creating config for core clientset")
  | None =>
      clientset <- New respond ;;
      PollImmediate retryIntervalResourceReady timeout
        (stateless (
           r <- via respond clientset (client_List KCluster noListOptions) ;;
           match r with
           | inr _ => ret (true, None)
           | inl _ => ret (false, None)
           end)) tt
  end.

Definition WaitForClusterV1alpha1Ready : M S error := waitForClusterResourceReady.

(** *** Namespaces, the endpoint, kubectl and the components store *)

(** How the remote side answers the calls of [CoreCall]; they change the
    same remote state and are not logged. *)
Variable respondCore : forall c : CoreCall, S -> core_reply c * S.

Definition callCore (c : CoreCall) : M S (core_reply c) :=
  fun w =>
    let (r, s') := respondCore c (remote w) in
    Returns r {| remote := s'; calls := calls w |}.

Definition viaCore (clientset : Client) (c : CoreCall) : M S (core_reply c) :=
  match clientset with
  | liveClient => callCore c
  | nilClient => panic NilPointerDereference
  end.

Definition EnsureNamespace (namespaceName : string) : M S error :=
  err <- call respond ctrl_GetConfig ;;
  match err with
  | Some e => ret (Wrap e "error creating config for core clientset")
  | None =>
      clientset <- New respond ;;
      err <- viaCore clientset (namespace_Create namespaceName) ;;
      match err with
      | Some e => if negb (IsAlreadyExists e) then ret (Some e) else ret None
      | None => ret None
      end
  end.

Definition DeleteNamespace (namespaceName : string) : M S error :=
  if (namespaceName =? NamespaceDefault)%string then ret None
  else
    err <- call respond ctrl_GetConfig ;;
    match err with
    | Some e => ret (Wrap e "error creating config for core clientset")
    | None =>
        clientset <- New respond ;;
        err <- viaCore clientset (namespace_Delete namespaceName) ;;
        match err with
        | Some e => if negb (IsNotFound e) then ret (Some e) else ret None
        | None => ret None
        end
    end.

(** [net.SplitHostPort] ([None] when it fails) and the error of
    [strconv.Atoi] for an input it rejects: both of the Go library. *)
Variable SplitHostPort : string -> option (string * string).
Variable NumError : string -> Err.

Definition UpdateClusterObjectEndpoint (clusterEndpoint clusterName namespace : string)
  : M S error :=
  err <- call respond ctrl_GetConfig ;;
  match err with
  | Some e => ret (Wrap e "error creating config for core clientset")
  | None =>
      clientset <- New respond ;;
      r <- GetCluster respond clusterName namespace ;;
      let '(cluster, err) := r in
      match err with
      | Some e => ret (Some e)
      | None =>
          let '(endpointHost, endpointPort) :=
            match SplitHostPort clusterEndpoint with
            | Some (host, port) => (host, port)
            | None => (clusterEndpoint, defaultAPIServerPort)
            end in
          match Atoi endpointPort with
          | None =>
              ret (Wrapf (NumError endpointPort)
                     "error while converting cluster endpoint port %q" [endpointPort])
          | Some endpointPortInt =>
              match cluster with
              | None => panic NilPointerDereference
              | Some cluster =>
                  let cluster :=
                    appendAPIEndpoint
                      {| clusterv1.Host := endpointHost;
                         clusterv1.Port := endpointPortInt |} cluster in
                  viaCore clientset (status_Update cluster)
              end
          end
      end
  end.

(** [kubectlManifestCmd]: [None] when the process succeeded. *)
Definition kubectlManifestCmd (c : client) (commandName manifest : string)
  : M S (option ExecFailure) :=
  r <- callCore (exec_kubectl (buildKubectlArgs c commandName) manifest) ;;
  let '(out, err) := r in
  match err with
  | Some cause => ret (Some {| ef_output := out; ef_cause := cause |})
  | None => ret None
  end.

Definition kubectlDelete (c : client) (manifest : string) : M S (option ExecFailure) :=
  kubectlManifestCmd c "delete" manifest.

Definition kubectlApply (c : client) (manifest : string) : M S (option ExecFailure) :=
  kubectlManifestCmd c "apply" manifest.

(** The probe of [waitForKubectlApply]. *)
Definition kubectlApplyProbe (c : client) (manifest : string) : M S (bool * error) :=
  err <- kubectlApply c manifest ;;
  match err with
  | Some f =>
      if Contains (ExecFailure_Error f) "EOF"
         || Contains (ExecFailure_Error f) "refused"
         || Contains (ExecFailure_Error f) "no such host"
      then ret (false, None)
      else if Contains (ExecFailure_Error f) "unable to recognize"
      then ret (false, None)
      else if Contains (ExecFailure_Error f) defaultNamespaceNotFound
      then ret (false, None)
      else ret (false, Some (ExecFailure_error f))
  | None => ret (true, None)
  end.

Definition waitForKubectlApply (c : client) (manifest : string) : M S error :=
  PollImmediate retryIntervalKubectlApply timeoutKubectlApply
    (stateless (kubectlApplyProbe c manifest)) tt.

Definition Apply (c : client) (manifest : string) : M S error :=
  waitForKubectlApply c manifest.

Definition Delete (c : client) (manifest : string) : M S error :=
  f <- kubectlDelete c manifest ;;
  ret (option_map ExecFailure_error f).

(** [saveToConfigMap] of the provider components store, with a live
    [Client]. *)
Definition saveToConfigMap (providerComponents : string) : M S error :=
  let namespacedName :=
    {| nn_Namespace := NamespaceDefault; nn_Name := configMapName |} in
  (* configMap.Data[configMapProviderComponentsKey] = providerComponents,
     on a fresh map when Data is nil *)
  let withComponents (configMap : ConfigMap) : ConfigMap :=
    {| ConfigMap_ObjectMeta := ConfigMap_ObjectMeta configMap;
       Data := Some (map_insert configMapProviderComponentsKey providerComponents
                       (match Data configMap with Some d => d | None => [] end)) |} in
  r <- callCore (configMap_Get namespacedName) ;;
  match r with
  | inl e =>
      if IsNotFound e then
        let configMap :=
          {| ConfigMap_ObjectMeta :=
               {| Name := configMapName; Namespace := ""; Annotations := [];
                  OwnerReferences := []; Finalizers := [] |};
             Data := None |} in
        err <- callCore (configMap_Create (withComponents configMap)) ;;
        match err with
        | Some e => ret (Wrapf e "error creating config map %q" [configMapName])
        | None => ret None
        end
      else ret (Wrapf e "unable to get configmap %q" [configMapName])
  | inr configMap =>
      err <- callCore (configMap_Update (withComponents configMap)) ;;
      match err with
      | Some e => ret (Wrapf e "error updating config map %q" [configMapName])
      | None => ret None
      end
  end.

End ClientMore.

Arguments forRangeReturn {S A R} body l w.
Arguments CreateMachineClass {S} respond machineClass w.
Arguments DeleteMachineClass {S} respond namespace name w.
Arguments CreateClusterObject {S} respond c cluster w.
Arguments CreateMachineDeployments {S} respond deployments namespace w.
Arguments CreateMachineSets {S} respond machineSets namespace w.
Arguments GetMachineClasses {S} respond namespace w.
Arguments GetMachineDeployments {S} respond namespace w.
Arguments GetMachineSets {S} respond namespace w.
Arguments GetMachines {S} respond namespace w.
Arguments GetClusterAPIObject {S} respond clusterName namespace w.
Arguments ForceDeleteMachineSet {S} respond namespace name w.
Arguments ForceDeleteMachineDeployment {S} respond namespace name w.
Arguments waitForMachineClassesDelete {S} respond namespace w.
Arguments waitForMachineDeploymentsDelete {S} respond namespace w.
Arguments DeleteMachineClasses {S} respond depth namespace w.
Arguments DeleteMachineDeployments {S} respond namespace w.
Arguments DeleteMachineSets {S} respond namespace w.
Arguments waitForClusterResourceReady {S} respond w.
Arguments WaitForClusterV1alpha1Ready {S} respond w.
Arguments callCore {S} respondCore c w.
Arguments viaCore {S} respondCore clientset c w.
Arguments EnsureNamespace {S} respond respondCore namespaceName w.
Arguments DeleteNamespace {S} respond respondCore namespaceName w.
Arguments UpdateClusterObjectEndpoint {S} respond respondCore SplitHostPort NumError
  clusterEndpoint clusterName namespace w.
Arguments kubectlManifestCmd {S} respondCore c commandName manifest w.
Arguments kubectlDelete {S} respondCore c manifest w.
Arguments kubectlApply {S} respondCore c manifest w.
Arguments kubectlApplyProbe {S} respondCore c manifest w.
Arguments waitForKubectlApply {S} respondCore c manifest w.
Arguments Apply {S} respondCore c manifest w.
Arguments Delete {S} respondCore c manifest w.
Arguments saveToConfigMap {S} respondCore providerComponents w.

(** A listing function pays no attention to its namespace: the same calls
    and the same final state for any two namespaces, and the same result
    when it succeeds. *)
Definition namespace_blind {S A : Type} (f : string -> M S (list A * error)) : Prop :=
  forall (ns1 ns2 : string) (w : World S),
    final (f ns1 w) = final (f ns2 w) /\
    forall l w', f ns1 w = Returns (l, None) w' -> f ns2 w = Returns (l, None) w'.

(** The remote state after [n] runs of [kubectl apply] on [manifest]. *)
Definition afterRuns {S : Type} (respondCore : forall c : CoreCall, S -> core_reply c * S)
  (c : client) (manifest : string) (n : nat) (s : S) : S :=
  Nat.iter n
    (fun s => snd (respondCore (exec_kubectl (buildKubectlArgs c "apply") manifest) s)) s.

(** The failure of the run of [kubectl apply] in state [s], if it fails. *)
Definition applyFailure {S : Type} (respondCore : forall c : CoreCall, S -> core_reply c * S)
  (c : client) (manifest : string) (s : S) : option ExecFailure :=
  let '(out, err) :=
    fst (respondCore (exec_kubectl (buildKubectlArgs c "apply") manifest) s) in
  match err with
  | Some cause => Some {| ef_output := out; ef_cause := cause |}
  | None => None
  end.

(** ** More doubles *)

(** The core side of a snapshot: the namespace [default] exists and no
    other; there is no config map; everything else is accepted. *)
Definition snapshotCore (c : CoreCall) (s : Snapshot) : core_reply c * Snapshot :=
  (match c return core_reply c with
   | namespace_Create name =>
       if (name =? "default")%string
       then Some (StatusError StatusReasonAlreadyExists name) else None
   | namespace_Delete name =>
       if (name =? "default")%string
       then None else Some (StatusError StatusReasonNotFound name)
   | status_Update _ => None
   | exec_kubectl _ _ => ("", None)
   | configMap_Get key => inl (notFound key)
   | configMap_Update _ => None
   | configMap_Create _ => None
   end, s).

(** An API server that refuses connections for the first two runs of
    kubectl; the state counts the runs. *)
Definition startingServer (c : CoreCall) (runs : nat) : core_reply c * nat :=
  match c return core_reply c * nat with
  | exec_kubectl _ _ =>
      if (runs <? 2)%nat
      then (("", Some "dial tcp 127.0.0.1:6443: connect: connection refused"),
            Datatypes.S runs)
      else (("cluster.cluster.k8s.io/c1 created", None), Datatypes.S runs)
  | namespace_Create _ => (None, runs)
  | namespace_Delete _ => (None, runs)
  | status_Update _ => (None, runs)
  | configMap_Get key => (inl (notFound key), runs)
  | configMap_Update _ => (None, runs)
  | configMap_Create _ => (None, runs)
  end.

(** A kubectl that rejects the manifest. *)
Definition rejectingKubectl (c : CoreCall) (runs : nat) : core_reply c * nat :=
  match c return core_reply c * nat with
  | exec_kubectl _ _ =>
      (("error: error validating data", Some "exit status 1"), Datatypes.S runs)
  | namespace_Create _ => (None, runs)
  | namespace_Delete _ => (None, runs)
  | status_Update _ => (None, runs)
  | configMap_Get key => (inl (notFound key), runs)
  | configMap_Update _ => (None, runs)
  | configMap_Create _ => (None, runs)
  end.

(** A store that holds at most the one config map. *)
Definition configMapStore (c : CoreCall) (s : option ConfigMap)
  : core_reply c * option ConfigMap :=
  match c return core_reply c * option ConfigMap with
  | configMap_Get key =>
      (match s with
       | Some configMap => inr configMap
       | None => inl (notFound key)
       end, s)
  | configMap_Update configMap =>
      match s with
      | Some _ => (None, Some configMap)
      | None =>
          (Some (notFound {| nn_Namespace := "default"; nn_Name := configMapName |}), s)
      end
  | configMap_Create configMap =>
      match s with
      | Some _ => (Some (StatusError StatusReasonAlreadyExists configMapName), s)
      | None => (None, Some configMap)
      end
  | namespace_Create _ => (None, s)
  | namespace_Delete _ => (None, s)
  | status_Update _ => (None, s)
  | exec_kubectl _ _ => (("", None), s)
  end.

Definition noOverrides : client :=
  {| kubeconfigFile := "";
     configOverrides_Context :=
       {| tcmd.Cluster := ""; tcmd.AuthInfo := ""; tcmd.Namespace := "" |} |}.

(** A config map that already holds another key. *)
Definition otherConfigMap : ConfigMap :=
  {| ConfigMap_ObjectMeta := mkMeta "clusterctl" "default";
     Data := Some [("other", "kept"); ("provider-components", "old")] |}.

(** A second control plane machine. *)
Definition m3 : clusterv1.Machine :=
  mkMachine (mkMeta "m3" "other") "1.14.2" readyMachineStatus.

Definition threeMachines : Snapshot :=
  {| snap_clusters := [c1]; snap_machineClasses := []; snap_machineDeployments := [md1];
     snap_machineSets := [ms1]; snap_machines := [m1; m2; m3]; snap_rejected := [];
     snap_env := "" |}.

(** What [net.SplitHostPort] answers on the endpoints used below, which
    have no bracket and at most one colon: the text is split at the
    colon, and an endpoint without one has no port to split off. *)
Fixpoint splitAtColon (s : string) : option (string * string) :=
  match s with
  | EmptyString => None
  | String c s' =>
      if (c =? ":")%char then Some (EmptyString, s')
      else match splitAtColon s' with
           | Some (host, port) => Some (String c host, port)
           | None => None
           end
  end.

(** A machine with an annotation that the snapshots do not hold. *)
Definition annotated : clusterv1.Machine :=
  mkMachine
    {| Name := "m7"; Namespace := "default"; Annotations := [("cluster", "c1")];
       OwnerReferences := []; Finalizers := [] |}
    "" emptyMachineStatus.

(** A remote side that refuses every create and every update. *)
Definition refusing (c : Call) (s : unit) : reply c * unit :=
  (match c return reply c with
   | ctrl_GetConfig => None
   | ctrlclient_New => None
   | SetLabelSelector _ => None
   | os_Getenv _ => ""
   | client_List _ _ => inr []
   | client_Get _ key => inl (notFound key)
   | client_Create k o => inl (StatusError StatusReasonInvalid (Name (meta_of k o)))
   | client_Update k o => inl (StatusError StatusReasonInvalid (Name (meta_of k o)))
   | client_Delete _ _ _ => None
   | client_DeleteList _ None => Some nilObjectRefused
   | client_DeleteList _ (Some _) => None
   | clientSet_List _ _ => inr []
   end, s).

(** ** The goroutines while every create is refused *)

Section Refused.

Variable S : Type.
Variable respond : forall c : Call, S -> reply c * S.
Variable namespace : string.
Variable machines : list clusterv1.Machine.

(** An error that the remote side gave to the create of one of
    [machines]. *)
Definition refusal (e : Err) : Prop :=
  exists x s s',
    In x machines /\
    respond (client_Create KMachine (setMachineNamespace namespace x)) s = (inl e, s').

(** Where a goroutine can stand then, and what [err] holds when it has
    assigned it. *)
Definition refusedAt (v : Shared) (position : UnitAt) : Prop :=
  match position with
  | atCreate machine => In machine machines
  | atAssign result => exists e, result = Some e /\ refusal e
  | atTest | atDo => exists e, shared_err v = Some e /\ refusal e
  | _ => False
  end.

(** Once the latch is shut, [gerr] holds such an error, wrapped. *)
Definition latched (v : Shared) : Prop :=
  errOnce_done (shared_latch v) = true ->
  exists e,
    refusal e /\
    gerr (shared_latch v)
    = Wrapf e "error creating a machine object in namespace %v" [namespace].

(** The create calls that are still to come. *)
Definition pendingCreates (units : list UnitAt) : list Call :=
  flat_map (fun position =>
              match position with
              | atCreate machine =>
                  [client_Create KMachine (setMachineNamespace namespace machine)]
              | _ => []
              end) units.

End Refused.

Arguments refusal {S} respond namespace machines e.
Arguments refusedAt {S} respond namespace machines v position.
Arguments latched {S} respond namespace machines v.

(** * Properties *)

(** ** The cluster template webhook *)

Lemma validate_allErrs_per_field (c : v1alpha3.ClusterTemplate) :
  length (v1alpha3.validate_allErrs c) = length (v1alpha3.violated_fields c).
Proof.
  unfold v1alpha3.validate_allErrs, v1alpha3.violated_fields; simpl.
  destruct (v1alpha3.IsZero _); destruct (v1alpha3.Paused _); reflexivity.
Qed.

Lemma validate_passes_iff (c : v1alpha3.ClusterTemplate) :
  v1alpha3.validate c = None <-> v1alpha3.violated_fields c = [].
Proof.
  unfold v1alpha3.validate.
  pose proof (validate_allErrs_per_field c) as Hlen.
  destruct (v1alpha3.validate_allErrs c) as [|e errs];
    destruct (v1alpha3.violated_fields c) as [|f fs]; simpl in *;
    try discriminate; split; intro; try reflexivity; discriminate.
Qed.

Lemma validate_fields_all_controlPlaneEndpoint (c : v1alpha3.ClusterTemplate) :
  Forall (fun e => fe_Field e = v1alpha3.field_path v1alpha3.FControlPlaneEndpoint)
    (v1alpha3.validate_allErrs c).
Proof.
  unfold v1alpha3.validate_allErrs; simpl.
  destruct (v1alpha3.IsZero _); destruct (v1alpha3.Paused _); simpl;
    repeat constructor.
Qed.

(** C8. A template that sets only [paused] fails validation with one
    field error, as it should, but the error does not name the violated
    field: its path is that of the control plane endpoint, with the
    paused flag as the bad value. *)
Theorem validate_paused_error_names_controlPlaneEndpoint :
  v1alpha3.violated_fields pausedTemplate = [v1alpha3.FPaused] /\
  exists e,
    v1alpha3.validate pausedTemplate
      = Some (InvalidError v1alpha3.ClusterTemplateGroupKind "t1" [e]) /\
    fe_BadValue e = BadBool true /\
    fe_Field e = "spec.template.spec.controlPlaneEndpoint" /\
    fe_Field e <> v1alpha3.field_path v1alpha3.FPaused.
Proof.
  split; [reflexivity|].
  eexists; split; [reflexivity|].
  repeat split; discriminate.
Qed.

(** ** Control plane machines *)

Lemma ExtractControlPlaneMachines_loop (machines cp nodes : list clusterv1.Machine) :
  fold_left
    (fun (acc : list clusterv1.Machine * list clusterv1.Machine) machine =>
       let '(controlPlaneMachines, nodes) := acc in
       if IsControlPlaneMachine machine
       then (controlPlaneMachines ++ [machine], nodes)
       else (controlPlaneMachines, nodes ++ [machine]))
    machines (cp, nodes)
  = (cp ++ filter IsControlPlaneMachine machines,
     nodes ++ filter (fun m => negb (IsControlPlaneMachine m)) machines).
Proof.
  revert cp nodes; induction machines as [|m ms IH]; intros cp nodes; simpl.
  - now rewrite !app_nil_r.
  - destruct (IsControlPlaneMachine m); simpl; rewrite IH, <- app_assoc; reflexivity.
Qed.

Lemma filter_split_Permutation {A : Type} (f : A -> bool) (l : list A) :
  Permutation (filter f l ++ filter (fun x => negb (f x)) l) l.
Proof.
  induction l as [|x l IH]; simpl; [constructor|].
  destruct (f x); simpl.
  - now constructor.
  - symmetry; apply Permutation_cons_app; now symmetry.
Qed.

Lemma filter_nil_existsb {A : Type} (f : A -> bool) (l : list A) :
  filter f l = [] <-> existsb f l = false.
Proof.
  induction l as [|x l IH]; simpl; [tauto|].
  destruct (f x); simpl; [split; discriminate | exact IH].
Qed.

(** C9. [ExtractControlPlaneMachines] fails exactly when no machine of
    the input is a control plane machine; otherwise the control plane
    machines, in input order, are the first result and all other
    machines, in input order, the second: every machine is in exactly
    one of them. *)
Theorem ExtractControlPlaneMachines_partition (machines : list clusterv1.Machine) :
  let '(controlPlaneMachines, nodes, err) := ExtractControlPlaneMachines machines in
  (err <> None <-> existsb IsControlPlaneMachine machines = false) /\
  (err = None ->
   controlPlaneMachines = filter IsControlPlaneMachine machines /\
   nodes = filter (fun m => negb (IsControlPlaneMachine m)) machines /\
   Permutation (controlPlaneMachines ++ nodes) machines /\
   (forall m, In m controlPlaneMachines -> IsControlPlaneMachine m = true) /\
   (forall m, In m nodes -> IsControlPlaneMachine m = false)).
Proof.
  unfold ExtractControlPlaneMachines.
  rewrite ExtractControlPlaneMachines_loop.
  cbn [app].
  pose proof (filter_nil_existsb IsControlPlaneMachine machines) as Hnil.
  destruct (length (filter IsControlPlaneMachine machines) <? 1)%nat eqn:Hlen.
  - split; [|discriminate].
    split; [intros _|discriminate].
    apply Hnil. apply Nat.ltb_lt in Hlen.
    destruct (filter IsControlPlaneMachine machines); [reflexivity|simpl in Hlen; lia].
  - split.
    + split; [intros H; now elim H|].
      intros H; apply Hnil in H. rewrite H in Hlen. discriminate.
    + intros _. repeat split.
      * apply filter_split_Permutation.
      * intros x Hx. now apply filter_In in Hx.
      * intros x Hx. apply filter_In in Hx. now apply negb_true_iff.
Qed.

(** ** The client over any double *)

Section ClientFacts.

Variable S : Type.
Variable respond : forall c : Call, S -> reply c * S.

(** *** What a run may send: the rules *)

Lemma extends_refl (P : Call -> Prop) (w : World S) : extends P w w.
Proof. exists []; split; [now rewrite app_nil_r | constructor]. Qed.

Lemma extends_trans (P : Call -> Prop) (w1 w2 w3 : World S) :
  extends P w1 w2 -> extends P w2 w3 -> extends P w1 w3.
Proof.
  intros [l1 [E1 F1]] [l2 [E2 F2]]. exists (l1 ++ l2); split.
  - now rewrite E2, E1, app_assoc.
  - apply Forall_app; now split.
Qed.

Lemma bind_Returns {A B : Type} (m : World S -> Outcome S A)
  (k : A -> World S -> Outcome S B) (w w' : World S) (a : A) :
  m w = Returns a w' -> bind m k w = k a w'.
Proof. intros H; unfold bind; now rewrite H. Qed.

Lemma bind_Panics {A B : Type} (m : World S -> Outcome S A)
  (k : A -> World S -> Outcome S B) (w w' : World S) (r : PanicReason) :
  m w = Panics r w' -> bind m k w = Panics r w'.
Proof. intros H; unfold bind; now rewrite H. Qed.

Lemma index_in_range {A : Type} (s : list A) (idx : nat) (x : A) (w : World S) :
  nth_error s idx = Some x -> index s idx w = Returns x w.
Proof. intros H; unfold index; now rewrite H. Qed.

Lemma index_nil {A : Type} (idx : nat) (w : World S) :
  index (@nil A) idx w = Panics (IndexOutOfRange idx 0) w.
Proof. unfold index. destruct idx; reflexivity. Qed.

Lemma sends_only_ret {A : Type} (P : Call -> Prop) (a : A) :
  sends_only (S := S) P (ret a).
Proof. intros w; apply extends_refl. Qed.

Lemma sends_only_panic {A : Type} (P : Call -> Prop) (r : PanicReason) :
  sends_only (S := S) (A := A) P (panic r).
Proof. intros w; apply extends_refl. Qed.

Lemma sends_only_call (P : Call -> Prop) (c : Call) :
  P c -> sends_only P (call respond c).
Proof.
  intros Hc w; unfold call. destruct (respond c (remote w)) as [r s']; simpl.
  exists [c]; split; [reflexivity | now constructor].
Qed.

Lemma sends_only_bind {A B : Type} (P : Call -> Prop) (m : World S -> Outcome S A)
  (k : A -> World S -> Outcome S B) :
  sends_only P m -> (forall a, sends_only P (k a)) -> sends_only P (bind m k).
Proof.
  intros Hm Hk w; unfold bind. specialize (Hm w).
  destruct (m w) as [a w'|r w']; simpl in *; [|exact Hm].
  eapply extends_trans; [exact Hm | apply Hk].
Qed.

Lemma sends_only_via (P : Call -> Prop) (clientset : Client) (c : Call) :
  P c -> sends_only P (via respond clientset c).
Proof.
  intros Hc; destruct clientset; simpl;
    [apply sends_only_panic | now apply sends_only_call].
Qed.

Lemma sends_only_New (P : Call -> Prop) :
  P ctrlclient_New -> sends_only P (New respond).
Proof.
  intros H; unfold New. apply sends_only_bind; [now apply sends_only_call|].
  intros a; apply sends_only_ret.
Qed.

Lemma sends_only_forEachErr {A : Type} (P : Call -> Prop)
  (body : A -> World S -> Outcome S error) (l : list A) :
  (forall x, sends_only P (body x)) -> sends_only P (forEachErr body l).
Proof.
  intros Hb; induction l as [|x l IH]; simpl; [apply sends_only_ret|].
  apply sends_only_bind; [apply Hb|].
  intros [e|]; [apply sends_only_ret | exact IH].
Qed.

Lemma sends_only_poll {L : Type} (P : Call -> Prop) (ticks : nat)
  (condition : L -> World S -> Outcome S (bool * error * L)) (l : L) :
  (forall l, sends_only P (condition l)) -> sends_only P (poll ticks condition l).
Proof.
  intros Hc; revert l; induction ticks as [|n IH]; intros l; simpl;
    (apply sends_only_bind; [apply Hc|]);
    intros [[[|] [e|]] l']; try apply sends_only_ret.
  apply IH.
Qed.

(** A client that was built: what the two calls answered. *)
Lemma dial_built (w w0 : World S) :
  dial respond w = Returns (None, liveClient) w0 ->
  exists s0 s1,
    respond ctrl_GetConfig (remote w) = (None, s0) /\
    respond ctrlclient_New s0 = (None, s1) /\
    w0 = {| remote := s1;
            calls := (calls w ++ [ctrl_GetConfig]) ++ [ctrlclient_New] |}.
Proof.
  unfold dial, New, bind, call, ret.
  destruct (respond ctrl_GetConfig (remote w)) as [[e0|] s0] eqn:Hc; simpl;
    [discriminate|].
  destruct (respond ctrlclient_New s0) as [[e1|] s1] eqn:HN; simpl; [discriminate|].
  intros H; injection H as <-. exists s0, s1. repeat split; assumption.
Qed.

(** *** Accessors *)

Lemma find_absent {A : Type} (f : A -> bool) (l : list A) :
  (forall x, In x l -> f x = false) -> find f l = None.
Proof.
  induction l as [|x l IH]; intros H; simpl; [reflexivity|].
  rewrite (H x (or_introl eq_refl)). apply IH. intros y Hy; apply H; now right.
Qed.

(** C10. When the listing of the namespace succeeds and holds no cluster
    of the given name, [GetCluster] returns the nil cluster and the nil
    error. *)
Theorem GetCluster_absent_is_nil_without_error (name ns : string)
  (w w' : World S) (clustersInNamespace : list clusterv1.Cluster) :
  GetClusters respond ns w = Returns (clustersInNamespace, None) w' ->
  (forall nc, In nc clustersInNamespace ->
     Name (clusterv1.Cluster_ObjectMeta nc) <> name) ->
  GetCluster respond name ns w = Returns (None, None) w'.
Proof.
  intros Hlist Habsent. unfold GetCluster, bind. rewrite Hlist. unfold ret.
  rewrite find_absent; [reflexivity|].
  intros nc Hnc. apply String.eqb_neq. now apply Habsent.
Qed.

(** *** Force delete *)

(** C6. Once the client is built: when [Get] fails (the machine is
    absent), [ForceDeleteMachine] returns that failure wrapped and [Get]
    is the only call it sends, neither update nor delete; when [Get]
    finds the machine and the remote side accepts the update, the calls
    are, in this order, the get, an update that carries the machine with
    an empty finalizer set, and a delete with foreground propagation. *)
Theorem ForceDeleteMachine_clears_finalizers_then_deletes
  (namespace name : string) (w w0 : World S) :
  dial respond w = Returns (None, liveClient) w0 ->
  (forall e s1,
     respond (client_Get KMachine {| nn_Namespace := namespace; nn_Name := name |})
       (remote w0) = (inl e, s1) ->
     ForceDeleteMachine respond namespace name w
     = Returns (Some (WithMessage "error getting Machine %s/%s" [namespace; name] e))
         {| remote := s1;
            calls := calls w0 ++
              [client_Get KMachine {| nn_Namespace := namespace; nn_Name := name |}] |}) /\
  (forall machine s1 updated s2,
     respond (client_Get KMachine {| nn_Namespace := namespace; nn_Name := name |})
       (remote w0) = (inr machine, s1) ->
     respond (client_Update KMachine (setMachineFinalizers [] machine)) s1
       = (inr updated, s2) ->
     Finalizers (clusterv1.Machine_ObjectMeta (setMachineFinalizers [] machine)) = [] /\
     exists err w',
       ForceDeleteMachine respond namespace name w = Returns err w' /\
       calls w' = calls w0 ++
         [client_Get KMachine {| nn_Namespace := namespace; nn_Name := name |};
          client_Update KMachine (setMachineFinalizers [] machine);
          client_Delete KMachine updated (Some DeletePropagationForeground)]).
Proof.
  intros Hdial.
  unfold ForceDeleteMachine, dial, New, via, bind, call, ret in *.
  destruct (respond ctrl_GetConfig (remote w)) as [[e0|] s0]; simpl in *;
    [discriminate|].
  destruct (respond ctrlclient_New s0) as [[e1|] s0']; simpl in *;
    [discriminate|].
  injection Hdial as <-. simpl.
  split.
  - intros e s1 Hget. rewrite Hget. reflexivity.
  - intros machine s1 updated s2 Hget Hupd. split; [reflexivity|].
    rewrite Hget; simpl. rewrite Hupd; simpl.
    destruct (respond (client_Delete KMachine updated (Some DeletePropagationForeground)) s2)
      as [[e|] s3]; simpl; eexists; eexists; (split; [reflexivity|]); simpl;
      rewrite <- !app_assoc; reflexivity.
Qed.

(** *** Statuses *)

Lemma clustersHaveStatus_iff (Items : list clusterv1.Cluster) :
  clustersHaveStatus Items = true <->
  forall c, In c Items ->
    clusterv1.ClusterStatus_isZero (clusterv1.Cluster_Status c) = false /\
    clusterv1.cs_ProviderStatus (clusterv1.Cluster_Status c) <> None.
Proof.
  induction Items as [|c Items IH]; simpl.
  - split; [intros _ c [] | reflexivity].
  - destruct (clusterv1.ClusterStatus_isZero (clusterv1.Cluster_Status c)) eqn:Hz.
    + split; [discriminate|]. intros H.
      destruct (H c (or_introl eq_refl)) as [Hc _]. congruence.
    + destruct (clusterv1.cs_ProviderStatus (clusterv1.Cluster_Status c)) eqn:Hp.
      * rewrite IH. split.
        -- intros H x [<-|Hx]; [split; congruence | now apply H].
        -- intros H x Hx; apply H; now right.
      * split; [discriminate|]. intros H.
        destruct (H c (or_introl eq_refl)) as [_ Hc]. congruence.
Qed.

Lemma machineDeploymentsHaveStatus_iff (Items : list clusterv1.MachineDeployment) :
  machineDeploymentsHaveStatus Items = true <->
  forall md, In md Items ->
    clusterv1.MachineDeploymentStatus_isZero (clusterv1.MachineDeployment_Status md)
    = false.
Proof.
  induction Items as [|md Items IH]; simpl.
  - split; [intros _ c [] | reflexivity].
  - destruct (clusterv1.MachineDeploymentStatus_isZero _) eqn:Hz.
    + split; [discriminate|]. intros H.
      specialize (H md (or_introl eq_refl)). congruence.
    + rewrite IH. split.
      * intros H x [<-|Hx]; [assumption | now apply H].
      * intros H x Hx; apply H; now right.
Qed.

Lemma machineSetsHaveStatus_iff (Items : list clusterv1.MachineSet) :
  machineSetsHaveStatus Items = true <->
  forall ms, In ms Items ->
    clusterv1.MachineSetStatus_isZero (clusterv1.MachineSet_Status ms) = false.
Proof.
  induction Items as [|ms Items IH]; simpl.
  - split; [intros _ c [] | reflexivity].
  - destruct (clusterv1.MachineSetStatus_isZero _) eqn:Hz.
    + split; [discriminate|]. intros H.
      specialize (H ms (or_introl eq_refl)). congruence.
    + rewrite IH. split.
      * intros H x [<-|Hx]; [assumption | now apply H].
      * intros H x Hx; apply H; now right.
Qed.

Lemma machinesHaveStatus_iff (Items : list clusterv1.Machine) :
  machinesHaveStatus Items = true <->
  forall m, In m Items ->
    clusterv1.MachineStatus_isZero (clusterv1.Machine_Status m) = false /\
    clusterv1.ms_ProviderStatus (clusterv1.Machine_Status m) <> None.
Proof.
  induction Items as [|m Items IH]; simpl.
  - split; [intros _ c [] | reflexivity].
  - destruct (clusterv1.MachineStatus_isZero (clusterv1.Machine_Status m)) eqn:Hz.
    + split; [discriminate|]. intros H.
      destruct (H m (or_introl eq_refl)) as [Hc _]. congruence.
    + destruct (clusterv1.ms_ProviderStatus (clusterv1.Machine_Status m)) eqn:Hp.
      * rewrite IH. split.
        -- intros H x [<-|Hx]; [split; congruence | now apply H].
        -- intros H x Hx; apply H; now right.
      * split; [discriminate|]. intros H.
        destruct (H m (or_introl eq_refl)) as [_ Hc]. congruence.
Qed.

(** A tick never reports an error, and a list that fails makes it report
    not-ready. *)
Lemma resourceStatusesProbe_never_fails (w : World S) :
  exists ready w', resourceStatusesProbe respond liveClient w = Returns (ready, None) w'.
Proof.
  unfold resourceStatusesProbe, via, bind, call, ret.
  destruct (respond (client_List KCluster noListOptions) (remote w)) as [r0 s0]; simpl.
  destruct (respond (clientSet_List KCluster "") s0) as [[e|cs] s1]; simpl;
    [now eauto|].
  destruct (clustersHaveStatus cs); simpl; [|now eauto].
  destruct (respond (clientSet_List KMachineDeployment "") s1) as [[e|mds] s2]; simpl;
    [now eauto|].
  destruct (machineDeploymentsHaveStatus mds); simpl; [|now eauto].
  destruct (respond (clientSet_List KMachineSet "") s2) as [[e|mss] s3]; simpl;
    [now eauto|].
  destruct (machineSetsHaveStatus mss); simpl; [|now eauto].
  destruct (respond (clientSet_List KMachine "") s3) as [[e|ms] s4]; simpl;
    [now eauto|].
  destruct (machinesHaveStatus ms); simpl; now eauto.
Qed.

(** C7. Let the remote side list [clusters], [machineDeployments],
    [machineSets] and [machines].  One tick of the probe of
    [WaitForResourceStatuses] reports ready, without error, exactly when
    every listed cluster has a non-empty status and a provider status,
    every listed machine deployment and machine set a non-empty status,
    and every listed machine a non-empty status and a provider status;
    so one object with an empty status makes the tick report not-ready. *)
Theorem resourceStatusesProbe_ready_iff (w : World S)
  (clusters : list clusterv1.Cluster)
  (machineDeployments : list clusterv1.MachineDeployment)
  (machineSets : list clusterv1.MachineSet) (machines : list clusterv1.Machine) :
  statusListing respond (remote w)
  = (inr clusters, inr machineDeployments, inr machineSets, inr machines) ->
  exists ready w',
    resourceStatusesProbe respond liveClient w = Returns (ready, None) w' /\
    (ready = true <->
     (forall c, In c clusters ->
        clusterv1.ClusterStatus_isZero (clusterv1.Cluster_Status c) = false /\
        clusterv1.cs_ProviderStatus (clusterv1.Cluster_Status c) <> None) /\
     (forall md, In md machineDeployments ->
        clusterv1.MachineDeploymentStatus_isZero
          (clusterv1.MachineDeployment_Status md) = false) /\
     (forall ms, In ms machineSets ->
        clusterv1.MachineSetStatus_isZero (clusterv1.MachineSet_Status ms) = false) /\
     (forall m, In m machines ->
        clusterv1.MachineStatus_isZero (clusterv1.Machine_Status m) = false /\
        clusterv1.ms_ProviderStatus (clusterv1.Machine_Status m) <> None)).
Proof.
  unfold statusListing. intros H.
  destruct (respond (client_List KCluster noListOptions) (remote w)) as [r0 s0] eqn:E0.
  destruct (respond (clientSet_List KCluster "") s0) as [cs s1] eqn:E1.
  destruct (respond (clientSet_List KMachineDeployment "") s1) as [mds s2] eqn:E2.
  destruct (respond (clientSet_List KMachineSet "") s2) as [mss s3] eqn:E3.
  destruct (respond (clientSet_List KMachine "") s3) as [ms s4] eqn:E4.
  injection H as -> -> -> ->.
  pose proof (clustersHaveStatus_iff clusters) as I1.
  pose proof (machineDeploymentsHaveStatus_iff machineDeployments) as I2.
  pose proof (machineSetsHaveStatus_iff machineSets) as I3.
  pose proof (machinesHaveStatus_iff machines) as I4.
  unfold resourceStatusesProbe, via, bind, call, ret.
  rewrite E0; simpl. rewrite E1; simpl.
  destruct (clustersHaveStatus clusters); simpl;
    [|eexists; eexists; split; [reflexivity | intuition congruence]].
  rewrite E2; simpl.
  destruct (machineDeploymentsHaveStatus machineDeployments); simpl;
    [|eexists; eexists; split; [reflexivity | intuition congruence]].
  rewrite E3; simpl.
  destruct (machineSetsHaveStatus machineSets); simpl;
    [|eexists; eexists; split; [reflexivity | intuition congruence]].
  rewrite E4; simpl.
  destruct (machinesHaveStatus machines); simpl;
    eexists; eexists; (split; [reflexivity | intuition congruence]).
Qed.

(** *** Ownership filters *)

Lemma owner_loop_appends {T : Type} (Items : list T) (idx : nat) (x : T)
  (cluster : clusterv1.Cluster) (refs : list OwnerReference) (n : nat)
  (acc : list T) (w : World S) :
  nth_error Items idx = Some x ->
  forRange (fun (_ : nat) (or : OwnerReference) (acc : list T) =>
              if ownerIs cluster or
              then bind (index Items idx) (fun x => ret (acc ++ [x]))
              else ret acc) n refs acc w
  = Returns (acc ++ repeat x (length (filter (ownerIs cluster) refs))) w.
Proof.
  intros Hx. revert n acc; induction refs as [|r refs IH]; intros n acc; simpl.
  - unfold ret. now rewrite app_nil_r.
  - destruct (ownerIs cluster r); simpl.
    + erewrite bind_Returns;
        [|erewrite bind_Returns; [reflexivity | apply index_in_range; exact Hx]].
      rewrite IH. now rewrite <- app_assoc.
    + erewrite bind_Returns; [|reflexivity]. apply IH.
Qed.

Lemma ownership_loop_appends {T : Type} (meta : T -> ObjectMeta)
  (cluster : clusterv1.Cluster) (Items pre suf acc : list T) (w : World S) :
  Items = pre ++ suf ->
  forRange (fun (idx : nat) (md : T) (acc : list T) =>
              forRange (fun (_ : nat) (or : OwnerReference) (acc : list T) =>
                          if ownerIs cluster or
                          then bind (index Items idx) (fun x => ret (acc ++ [x]))
                          else ret acc) 0 (OwnerReferences (meta md)) acc)
    (length pre) suf acc w
  = Returns (acc ++ appended meta cluster suf) w.
Proof.
  revert pre acc; induction suf as [|x suf IH]; intros pre acc HItems; simpl.
  - unfold ret. now rewrite app_nil_r.
  - erewrite bind_Returns.
    2:{ apply (owner_loop_appends Items (length pre) x).
        subst Items. rewrite nth_error_app2, Nat.sub_diag; [reflexivity | lia]. }
    specialize (IH (pre ++ [x]) (acc ++ repeat x (ownerMatches cluster (meta x)))).
    rewrite length_app, Nat.add_1_r in IH. simpl in IH.
    unfold ownerMatches in IH at 1. rewrite IH.
    + unfold appended; simpl. now rewrite <- app_assoc.
    + now rewrite <- app_assoc.
Qed.

Lemma appended_In {T : Type} (meta : T -> ObjectMeta) (cluster : clusterv1.Cluster)
  (Items : list T) (x : T) :
  In x (appended meta cluster Items) <->
  In x Items /\ ownedByCluster cluster (meta x) = true.
Proof.
  unfold appended, ownedByCluster, ownerMatches. rewrite in_flat_map. split.
  - intros [y [Hy Hx]]. apply repeat_spec in Hx as Hxy. subst y. split; [assumption|].
    destruct (filter (ownerIs cluster) (OwnerReferences (meta x))) as [|r rs] eqn:Hf;
      [now simpl in Hx|].
    assert (Hr : In r (filter (ownerIs cluster) (OwnerReferences (meta x))))
      by (rewrite Hf; now left).
    apply filter_In in Hr. apply existsb_exists. now exists r.
  - intros [Hx Ho]. exists x; split; [assumption|].
    apply existsb_exists in Ho as [r [Hr Hm]].
    assert (Hf : In r (filter (ownerIs cluster) (OwnerReferences (meta x))))
      by (apply filter_In; now split).
    destruct (filter (ownerIs cluster) (OwnerReferences (meta x))); [easy|].
    now left.
Qed.

(** With at most one owner reference per item that names the cluster, the
    loops compute the plain filter. *)
Lemma appended_filter {T : Type} (meta : T -> ObjectMeta) (cluster : clusterv1.Cluster)
  (Items : list T) :
  (forall x, In x Items -> (ownerMatches cluster (meta x) <= 1)%nat) ->
  appended meta cluster Items
  = filter (fun x => ownedByCluster cluster (meta x)) Items.
Proof.
  unfold appended, ownedByCluster, ownerMatches.
  induction Items as [|x Items IH]; intros H; simpl; [reflexivity|].
  rewrite IH by (intros y Hy; apply H; now right).
  specialize (H x (or_introl eq_refl)).
  assert (Hex : existsb (ownerIs cluster) (OwnerReferences (meta x))
                = negb (length (filter (ownerIs cluster) (OwnerReferences (meta x))) =? 0)%nat).
  { clear. induction (OwnerReferences (meta x)) as [|r rs IHr]; simpl; [reflexivity|].
    destruct (ownerIs cluster r); simpl; [reflexivity | exact IHr]. }
  rewrite Hex.
  destruct (length (filter (ownerIs cluster) (OwnerReferences (meta x)))) as [|[|n]];
    simpl; [reflexivity | reflexivity | lia].
Qed.

(** The sibling filters: once the candidates are fetched they return,
    without error, every candidate that an owner reference ties to the
    cluster, and no other. *)
Lemma GetMachineSetsForCluster_fetched (cluster : clusterv1.Cluster)
  (w w0 : World S) (s1 s2 : S) (Items : list clusterv1.MachineSet) :
  dial respond w = Returns (None, liveClient) w0 ->
  respond (SetLabelSelector (clusterSelector cluster)) (remote w0) = (None, s1) ->
  respond (client_List KMachineSet
             {| lo_Namespace := ""; lo_LabelSelector := clusterSelector cluster |}) s1
    = (inr Items, s2) ->
  exists w',
    GetMachineSetsForCluster respond cluster w
    = Returns (appended clusterv1.MachineSet_ObjectMeta cluster Items, None) w'.
Proof.
  intros Hdial Hsel Hlist.
  unfold GetMachineSetsForCluster, dial, New, via, bind, call, ret in *.
  destruct (respond ctrl_GetConfig (remote w)) as [[e0|] s0]; simpl in *;
    [discriminate|].
  destruct (respond ctrlclient_New s0) as [[e1|] s0']; simpl in *; [discriminate|].
  injection Hdial as <-. simpl in *. rewrite Hsel; simpl. rewrite Hlist; simpl.
  pose proof (ownership_loop_appends clusterv1.MachineSet_ObjectMeta cluster
                Items [] Items []) as Hloop.
  simpl in Hloop. unfold bind, ret in Hloop. rewrite Hloop by reflexivity.
  eexists; reflexivity.
Qed.

Lemma GetMachinesForCluster_fetched (cluster : clusterv1.Cluster)
  (w w0 : World S) (s1 s2 : S) (Items : list clusterv1.Machine) :
  dial respond w = Returns (None, liveClient) w0 ->
  respond (SetLabelSelector (clusterSelector cluster)) (remote w0) = (None, s1) ->
  respond (client_List KMachine
             {| lo_Namespace := ""; lo_LabelSelector := clusterSelector cluster |}) s1
    = (inr Items, s2) ->
  exists w',
    GetMachinesForCluster respond cluster w
    = Returns (appended clusterv1.Machine_ObjectMeta cluster Items, None) w'.
Proof.
  intros Hdial Hsel Hlist.
  unfold GetMachinesForCluster, dial, New, via, bind, call, ret in *.
  destruct (respond ctrl_GetConfig (remote w)) as [[e0|] s0]; simpl in *;
    [discriminate|].
  destruct (respond ctrlclient_New s0) as [[e1|] s0']; simpl in *; [discriminate|].
  injection Hdial as <-. simpl in *. rewrite Hsel; simpl. rewrite Hlist; simpl.
  pose proof (ownership_loop_appends clusterv1.Machine_ObjectMeta cluster
                Items [] Items []) as Hloop.
  simpl in Hloop. unfold bind, ret in Hloop. rewrite Hloop by reflexivity.
  eexists; reflexivity.
Qed.

(** [GetMachineDeploymentsForCluster] indexes the slice it is building:
    while that slice is empty, the first owner reference that names the
    cluster panics. *)
Lemma deployment_owner_loop (T : Type) (cluster : clusterv1.Cluster) (idx : nat)
  (refs : list OwnerReference) (n : nat) (w : World S) :
  forRange (fun (_ : nat) (or : OwnerReference) (acc : list T) =>
              if ownerIs cluster or
              then bind (index acc idx) (fun x => ret (acc ++ [x]))
              else ret acc) n refs [] w
  = if existsb (ownerIs cluster) refs
    then Panics (IndexOutOfRange idx 0) w
    else Returns [] w.
Proof.
  revert n; induction refs as [|r refs IH]; intros n; simpl; [reflexivity|].
  destruct (ownerIs cluster r); simpl.
  - apply bind_Panics. apply bind_Panics. apply index_nil.
  - erewrite bind_Returns; [|reflexivity]. apply IH.
Qed.

Lemma deployment_loop (cluster : clusterv1.Cluster)
  (Items : list clusterv1.MachineDeployment) (idx : nat) (w : World S) :
  forRange (fun (idx : nat) (md : clusterv1.MachineDeployment)
                (machineDeployments : list clusterv1.MachineDeployment) =>
              forRange (fun (_ : nat) (or : OwnerReference)
                            (machineDeployments : list clusterv1.MachineDeployment) =>
                          if ownerIs cluster or
                          then bind (index machineDeployments idx)
                                 (fun x => ret (machineDeployments ++ [x]))
                          else ret machineDeployments)
                0 (OwnerReferences (clusterv1.MachineDeployment_ObjectMeta md))
                machineDeployments)
    idx Items [] w
  = match firstOwned clusterv1.MachineDeployment_ObjectMeta cluster Items with
    | Some i => Panics (IndexOutOfRange (idx + i) 0) w
    | None => Returns [] w
    end.
Proof.
  revert idx; induction Items as [|md Items IH]; intros idx; simpl; [reflexivity|].
  unfold ownedByCluster at 1.
  pose proof (deployment_owner_loop clusterv1.MachineDeployment cluster idx
                (OwnerReferences (clusterv1.MachineDeployment_ObjectMeta md)) 0 w)
    as Hinner.
  destruct (existsb (ownerIs cluster)
              (OwnerReferences (clusterv1.MachineDeployment_ObjectMeta md))).
  - rewrite Nat.add_0_r. now apply bind_Panics.
  - erewrite bind_Returns; [|exact Hinner]. rewrite IH.
    destruct (firstOwned clusterv1.MachineDeployment_ObjectMeta cluster Items);
      simpl; [|reflexivity].
    now rewrite Nat.add_succ_r.
Qed.

Lemma firstOwned_None {T : Type} (meta : T -> ObjectMeta)
  (cluster : clusterv1.Cluster) (Items : list T) :
  firstOwned meta cluster Items = None <->
  existsb (fun x => ownedByCluster cluster (meta x)) Items = false.
Proof.
  induction Items as [|x Items IH]; simpl; [tauto|].
  destruct (ownedByCluster cluster (meta x)); simpl; [split; discriminate|].
  rewrite <- IH. destruct (firstOwned meta cluster Items); simpl;
    split; congruence.
Qed.

(** Once its candidates are fetched, [GetMachineDeploymentsForCluster]
    returns (the empty list) only when no candidate belongs to the
    cluster; as soon as one does, it panics. *)
Lemma GetMachineDeploymentsForCluster_fetched (cluster : clusterv1.Cluster)
  (w w0 : World S) (s1 s2 : S) (Items : list clusterv1.MachineDeployment) :
  dial respond w = Returns (None, liveClient) w0 ->
  respond (SetLabelSelector (clusterSelector cluster)) (remote w0) = (None, s1) ->
  respond (client_List KMachineDeployment
             {| lo_Namespace := ""; lo_LabelSelector := clusterSelector cluster |}) s1
    = (inr Items, s2) ->
  exists w',
    GetMachineDeploymentsForCluster respond cluster w
    = match firstOwned clusterv1.MachineDeployment_ObjectMeta cluster Items with
      | Some i => Panics (IndexOutOfRange i 0) w'
      | None => Returns ([], None) w'
      end.
Proof.
  intros Hdial Hsel Hlist.
  unfold GetMachineDeploymentsForCluster, dial, New, via, bind, call, ret in *.
  destruct (respond ctrl_GetConfig (remote w)) as [[e0|] s0]; simpl in *;
    [discriminate|].
  destruct (respond ctrlclient_New s0) as [[e1|] s0']; simpl in *; [discriminate|].
  injection Hdial as <-. simpl in *. rewrite Hsel; simpl. rewrite Hlist; simpl.
  pose proof (deployment_loop cluster Items 0) as Hloop.
  unfold bind, ret in Hloop. rewrite Hloop.
  destruct (firstOwned clusterv1.MachineDeployment_ObjectMeta cluster Items);
    eexists; reflexivity.
Qed.

(** *** The concurrent machine creator *)

(** Handed the nil machine, [waitForMachineReady] cannot succeed: it
    returns the configuration error, or its probe panics at once, on
    [machine.Name], before any [Get]. *)
Lemma waitForMachineReady_nil (w : World S) :
  waitForMachineReady respond None w
  = let (err, s0) := respond ctrl_GetConfig (remote w) in
    match err with
    | Some e =>
        Returns (Wrap e "error creating config for core clientset")
          {| remote := s0; calls := calls w ++ [ctrl_GetConfig] |}
    | None =>
        let (_, s1) := respond ctrlclient_New s0 in
        let (_, s2) := respond (os_Getenv TimeoutMachineReady) s1 in
        Panics NilPointerDereference
          {| remote := s2;
             calls := ((calls w ++ [ctrl_GetConfig]) ++ [ctrlclient_New])
                      ++ [os_Getenv TimeoutMachineReady] |}
    end.
Proof.
  unfold waitForMachineReady, New, bind, call, ret.
  destruct (respond ctrl_GetConfig (remote w)) as [[e0|] s0]; simpl; [reflexivity|].
  destruct (respond ctrlclient_New s0) as [e1 s1]; simpl.
  destruct (respond (os_Getenv TimeoutMachineReady) s1) as [p s2]; simpl.
  unfold PollImmediate.
  destruct (Z.to_nat (machineReadyTimeout p / retryIntervalResourceReady));
    reflexivity.
Qed.

Lemma waitForMachineReady_nil_sends_no_get :
  sends_only (fun c => is_get c = false) (waitForMachineReady respond None).
Proof.
  intros w. rewrite waitForMachineReady_nil.
  destruct (respond ctrl_GetConfig (remote w)) as [[e0|] s0]; simpl.
  - exists [ctrl_GetConfig]; split; [reflexivity | now repeat constructor].
  - destruct (respond ctrlclient_New s0) as [e1 s1].
    destruct (respond (os_Getenv TimeoutMachineReady) s1) as [p s2]; simpl.
    exists [ctrl_GetConfig; ctrlclient_New; os_Getenv TimeoutMachineReady].
    split; [now rewrite <- !app_assoc | now repeat constructor].
Qed.

Lemma sends_only_forRange {A St : Type} (P : Call -> Prop)
  (body : nat -> A -> St -> World S -> Outcome S St) (idx : nat) (l : list A)
  (st : St) :
  (forall i x st, sends_only P (body i x st)) -> sends_only P (forRange body idx l st).
Proof.
  intros Hb; revert idx st; induction l as [|x l IH]; intros idx st; simpl;
    [apply sends_only_ret|].
  apply sends_only_bind; [apply Hb | intros st'; apply IH].
Qed.

(** The poll of the nil machine ends at its first probe, before any
    call. *)
Lemma poll_nil_machine (ticks : nat) (clientset : Client) (w : World S) :
  poll ticks (machineReadyProbe respond clientset) None w
  = Panics NilPointerDereference w.
Proof. destruct ticks; reflexivity. Qed.

(** A goroutine that is alone takes every step. *)
Lemma interleave_alone (clientset : Client) (namespace : string) (steps : nat)
  (schedule : list nat) (position : UnitAt) (v : Shared) (w : World S) :
  interleave respond clientset namespace (Datatypes.S steps) schedule [position] v w
  = bind (createMachineUnit respond clientset namespace position v)
      (fun r =>
         interleave respond clientset namespace steps (tl schedule)
           (resumed (fst r)) (snd r)) w.
Proof.
  cbn [interleave length]. rewrite Nat.mod_1_r. cbn [nth_error firstn skipn app].
  unfold bind.
  destruct (createMachineUnit respond clientset namespace position v w)
    as [[next v'] w'|r w']; [|reflexivity].
  cbn [fst snd]. now rewrite app_nil_r.
Qed.

(** The positions inside the wait are those of [waitForMachineReady]: a
    goroutine that is alone does, from [atGetConfig] on, what
    [waitForMachineReady] does with the nil machine, and then latches
    the error. *)
Lemma unit_wait_is_waitForMachineReady (clientset : Client) (namespace : string)
  (schedule : list nat) (v : Shared) (w : World S) :
  interleave respond clientset namespace 5 schedule [atGetConfig] v w
  = bind (waitForMachineReady respond None)
      (fun err =>
         ret match err with
             | Some e =>
                 {| shared_err := shared_err v;
                    shared_latch := errOnce_Do (Some e) (shared_latch v) |}
             | None => v
             end) w.
Proof.
  unfold bind at 1. rewrite waitForMachineReady_nil.
  rewrite interleave_alone. cbn [createMachineUnit]. unfold bind, call, ret.
  destruct (respond ctrl_GetConfig (remote w)) as [[e0|] s0]; cbn [fst snd resumed].
  - rewrite interleave_alone. reflexivity.
  - rewrite interleave_alone. cbn [createMachineUnit]. unfold New, bind, call, ret.
    cbn [remote calls].
    destruct (respond ctrlclient_New s0) as [e1 s1]; cbn [fst snd resumed].
    rewrite interleave_alone. cbn [createMachineUnit]. unfold bind, call, ret.
    cbn [remote calls].
    destruct (respond (os_Getenv TimeoutMachineReady) s1) as [p s2];
      cbn [fst snd resumed].
    rewrite interleave_alone. cbn [createMachineUnit].
    unfold bind, PollImmediate. now rewrite poll_nil_machine.
Qed.

(** No step of a goroutine asks for a machine. *)
Lemma createMachineUnit_sends_no_get (clientset : Client) (namespace : string)
  (position : UnitAt) (v : Shared) :
  sends_only (fun c => is_get c = false)
    (createMachineUnit respond clientset namespace position v).
Proof.
  destruct position as [machine|result| | | | |cs|cs p|err]; cbn [createMachineUnit].
  - apply sends_only_bind; [now apply sends_only_via|].
    intros [e|created]; apply sends_only_ret.
  - apply sends_only_ret.
  - destruct (shared_err v); apply sends_only_ret.
  - apply sends_only_ret.
  - apply sends_only_bind; [now apply sends_only_call|].
    intros [e|]; apply sends_only_ret.
  - apply sends_only_bind; [now apply sends_only_New|].
    intros cs; apply sends_only_ret.
  - apply sends_only_bind; [now apply sends_only_call|].
    intros p; apply sends_only_ret.
  - intros w. unfold bind, PollImmediate. rewrite poll_nil_machine.
    apply extends_refl.
  - destruct err; apply sends_only_ret.
Qed.

(** What every step may send, every interleaving may send. *)
Lemma sends_only_interleave (P : Call -> Prop) (clientset : Client)
  (namespace : string) (steps : nat) (schedule : list nat) (units : list UnitAt)
  (v : Shared) :
  (forall position v,
     sends_only P (createMachineUnit respond clientset namespace position v)) ->
  sends_only P (interleave respond clientset namespace steps schedule units v).
Proof.
  intros Hstep. revert schedule units v.
  induction steps as [|steps IH]; intros schedule units v;
    destruct units as [|u0 units]; try apply sends_only_ret.
  cbn [interleave].
  destruct (nth_error (u0 :: units) _) as [position|]; [|apply sends_only_ret].
  apply sends_only_bind; [apply Hstep|].
  intros [next v']. apply IH.
Qed.

(** No run of [CreateMachines] ever asks for a machine, whatever the
    schedule: the readiness of a created machine is never looked at. *)
Lemma CreateMachines_sends_no_get (schedule : list nat)
  (machines : list clusterv1.Machine) (namespace : string) :
  sends_only (fun c => is_get c = false)
    (CreateMachines respond schedule machines namespace).
Proof.
  unfold CreateMachines.
  apply sends_only_bind; [now apply sends_only_call|].
  intros [e|]; [apply sends_only_ret|].
  apply sends_only_bind; [now apply sends_only_call|]. intros err.
  apply sends_only_bind; [|intros v; apply sends_only_ret].
  apply sends_only_interleave. intros position v.
  apply createMachineUnit_sends_no_get.
Qed.

(** The run under a schedule is one of the outcomes that are reachable. *)
Lemma interleave_reachable (clientset : Client) (namespace : string) (steps : nat)
  (schedule : list nat) (units : list UnitAt) (v : Shared) (w : World S) :
  In (interleave respond clientset namespace steps schedule units v w)
    (reachable respond clientset namespace steps units v w).
Proof.
  revert schedule units v w.
  induction steps as [|steps IH]; intros schedule units v w;
    destruct units as [|u0 units]; try (left; reflexivity).
  cbn [interleave reachable].
  remember (u0 :: units) as l eqn:Hl.
  assert (Hi : (hd 0 schedule mod length l < length l)%nat)
    by (apply Nat.mod_upper_bound; subst l; discriminate).
  remember (hd 0 schedule mod length l)%nat as i eqn:Ei. clear Ei.
  apply in_flat_map. exists i. split; [apply in_seq; lia|].
  destruct (nth_error l i) as [position|] eqn:Hu;
    [|apply nth_error_None in Hu; lia].
  unfold bind.
  destruct (createMachineUnit respond clientset namespace position v w)
    as [[next v'] w'|r w']; [apply IH | left; reflexivity].
Qed.

Lemma CreateMachines_in_outcomes (schedule : list nat)
  (machines : list clusterv1.Machine) (namespace : string) (w : World S) :
  In (CreateMachines respond schedule machines namespace w)
    (CreateMachines_outcomes respond machines namespace w).
Proof.
  unfold CreateMachines, CreateMachines_outcomes. unfold bind at 1.
  destruct (call respond ctrl_GetConfig w) as [[e|] w0|r w0];
    [left; reflexivity| |left; reflexivity].
  unfold bind at 1.
  destruct (call respond ctrlclient_New w0) as [err w1|r w1]; [|left; reflexivity].
  unfold bind, ret.
  match goal with
  | |- context [interleave respond ?cs ?ns ?n schedule ?us ?v w1] =>
      pose proof (interleave_reachable cs ns n schedule us v w1) as H;
        destruct (interleave respond cs ns n schedule us v w1) as [v' w'|r w']
  end.
  - apply (in_map (fun o : Outcome S Shared =>
                     match o with
                     | Returns v w' => Returns (gerr (shared_latch v)) w'
                     | Panics r w' => Panics r w'
                     end) _ _ H).
  - apply (in_map (fun o : Outcome S Shared =>
                     match o with
                     | Returns v w' => Returns (gerr (shared_latch v)) w'
                     | Panics r w' => Panics r w'
                     end) _ _ H).
Qed.

(** A goroutine is closer to its end after each step. *)
Lemma createMachineUnit_progress (clientset : Client) (namespace : string)
  (position : UnitAt) (v v' : Shared) (next : option UnitAt) (w w' : World S) :
  createMachineUnit respond clientset namespace position v w = Returns (next, v') w' ->
  (list_sum (map stepsToEnd (resumed next)) < stepsToEnd position)%nat.
Proof.
  destruct position as [machine|result| | | | |cs|cs p|err]; cbn [createMachineUnit];
    unfold bind, ret.
  - destruct (via respond clientset _ w) as [[e|created] w1|r w1];
      intros H; inversion H; subst; simpl; lia.
  - intros H; inversion H; subst; simpl; lia.
  - destruct (shared_err v); intros H; inversion H; subst; simpl; lia.
  - intros H; inversion H; subst; simpl; lia.
  - destruct (call respond ctrl_GetConfig w) as [[e|] w1|r w1];
      intros H; inversion H; subst; simpl; lia.
  - destruct (New respond w) as [cs w1|r w1];
      intros H; inversion H; subst; simpl; lia.
  - destruct (call respond _ w) as [p w1|r w1];
      intros H; inversion H; subst; simpl; lia.
  - destruct (PollImmediate _ _ _ _ w) as [e w1|r w1];
      intros H; inversion H; subst; simpl; lia.
  - destruct err; intros H; inversion H; subst; simpl; lia.
Qed.

(** Taking the goroutine at [i] out of the list. *)
Lemma nth_error_parts {A : Type} (l : list A) (i : nat) (x : A) :
  nth_error l i = Some x -> l = firstn i l ++ x :: skipn (Datatypes.S i) l.
Proof.
  revert i; induction l as [|y l IH]; intros [|i] H; simpl in *; try discriminate.
  - now injection H as ->.
  - f_equal. now apply IH.
Qed.

Lemma stepsToEnd_after_step (units : list UnitAt) (i : nat) (position : UnitAt)
  (next : option UnitAt) :
  nth_error units i = Some position ->
  (list_sum (map stepsToEnd (resumed next)) < stepsToEnd position)%nat ->
  (list_sum (map stepsToEnd
               (firstn i units ++ resumed next ++ skipn (Datatypes.S i) units))
   < list_sum (map stepsToEnd units))%nat.
Proof.
  intros Hu Hlt. rewrite (nth_error_parts units i position Hu) at 3.
  rewrite !map_app, !list_sum_app. simpl. lia.
Qed.

(** [CreateMachines] starts with the steps that its goroutines take at
    most. *)
Lemma unitSteps_of_machines (machines : list clusterv1.Machine) :
  list_sum (map stepsToEnd (map atCreate machines)) = (unitSteps * length machines)%nat.
Proof.
  unfold unitSteps. induction machines as [|x l IH]; simpl in *; lia.
Qed.

(** The bound on the steps is never used up: with the steps that the
    goroutines take at most, one step more changes nothing. *)
Lemma interleave_steps_suffice (clientset : Client) (namespace : string)
  (steps : nat) (schedule : list nat) (units : list UnitAt) (v : Shared)
  (w : World S) :
  (list_sum (map stepsToEnd units) <= steps)%nat ->
  interleave respond clientset namespace (Datatypes.S steps) schedule units v w
  = interleave respond clientset namespace steps schedule units v w.
Proof.
  revert schedule units v w.
  induction steps as [|steps IH]; intros schedule units v w Hsum;
    destruct units as [|u0 units]; try reflexivity.
  - simpl in Hsum. destruct u0; simpl in Hsum; lia.
  - remember (u0 :: units) as l eqn:Hl.
    assert (Hne : l <> []) by (subst l; discriminate).
    clear Hl. cbn [interleave].
    destruct l as [|u1 l]; [contradiction|].
    remember (u1 :: l) as l' eqn:Hl'.
    remember (hd 0 schedule mod length l')%nat as i eqn:Ei. clear Ei.
    destruct (nth_error l' i) as [position|] eqn:Hu; [|reflexivity].
    unfold bind.
    destruct (createMachineUnit respond clientset namespace position v w)
      as [[next v'] w'|r w'] eqn:Hstep; [|reflexivity].
    apply IH.
    pose proof (stepsToEnd_after_step l' i position next Hu
                  (createMachineUnit_progress _ _ _ _ _ _ _ _ Hstep)).
    lia.
Qed.

(** *** The deletion coordinator *)

(** With no namespace given, [DeleteClusters] stops right after its
    listing: without doing anything when the listing is empty, with a
    panic on the first cluster otherwise. *)
Lemma DeleteClusters_all_namespaces (w w0 : World S) (s1 : S)
  (Items : list clusterv1.Cluster) :
  dial respond w = Returns (None, liveClient) w0 ->
  respond (client_List KCluster noListOptions) (remote w0) = (inr Items, s1) ->
  DeleteClusters respond "" w
  = match Items with
    | [] =>
        Returns None
          {| remote := s1;
             calls := calls w0 ++ [client_List KCluster noListOptions] |}
    | _ :: _ =>
        Panics NilPointerDereference
          {| remote := s1;
             calls := calls w0 ++ [client_List KCluster noListOptions] |}
    end.
Proof.
  intros Hdial Hlist.
  unfold DeleteClusters, dial, New, via, bind, call, ret in *.
  destruct (respond ctrl_GetConfig (remote w)) as [[e0|] s0]; simpl in *;
    [discriminate|].
  destruct (respond ctrlclient_New s0) as [[e1|] s0']; simpl in *; [discriminate|].
  injection Hdial as <-. simpl in *. rewrite Hlist; simpl.
  destruct Items as [|c Items]; reflexivity.
Qed.

(** With no namespace given, [DeleteClusters] never sends a delete. *)
Lemma DeleteClusters_all_namespaces_sends_no_write :
  sends_only (fun c => is_write c = false) (DeleteClusters respond "").
Proof.
  unfold DeleteClusters.
  apply sends_only_bind; [now apply sends_only_call|].
  intros [e|]; [apply sends_only_ret|].
  apply sends_only_bind; [now apply sends_only_New|]. intros clientset.
  cbn [String.eqb negb].
  intros w. unfold bind at 1. unfold bind at 1.
  pose proof (sends_only_via (fun c => is_write c = false) clientset
                (client_List KCluster noListOptions) eq_refl w) as Hlist.
  destruct (via respond clientset (client_List KCluster noListOptions) w)
    as [[e|Items] w1|r w1]; simpl in *; try exact Hlist.
  destruct Items as [|c Items]; exact Hlist.
Qed.

(** Given a namespace, [DeleteMachines] never lists machines: what it
    polls after the delete is the list of machine sets. *)
Lemma DeleteMachines_never_lists_machines (namespace : string) :
  namespace <> "" ->
  sends_only (fun c => is_list_of KMachine c = false)
    (DeleteMachines respond namespace).
Proof.
  intros Hns. apply String.eqb_neq in Hns.
  unfold DeleteMachines.
  apply sends_only_bind; [now apply sends_only_call|].
  intros [e|]; [apply sends_only_ret|].
  apply sends_only_bind; [now apply sends_only_New|]. intros clientset.
  rewrite Hns. cbn [negb].
  apply sends_only_bind; [apply sends_only_ret|].
  intros [err|[seen toDelete]]; [apply sends_only_ret|].
  apply sends_only_forEachErr. intros ns.
  apply sends_only_bind; [now apply sends_only_via|].
  intros [e|]; [apply sends_only_ret|].
  apply sends_only_bind; [|intros [e|]; apply sends_only_ret].
  unfold waitForMachineSetsDelete, PollImmediate.
  apply sends_only_poll. intros []. unfold stateless.
  apply sends_only_bind; [|intros r; apply sends_only_ret].
  apply sends_only_bind; [now apply sends_only_call|].
  intros [e|]; [apply sends_only_ret|].
  apply sends_only_bind; [now apply sends_only_New|]. intros cs.
  apply sends_only_bind; [now apply sends_only_via|].
  intros [e|Items]; [apply sends_only_ret|].
  destruct (0 <? length Items)%nat; apply sends_only_ret.
Qed.

(** Given a namespace, no list is ever stored under it: [DeleteMachines]
    hands [Delete] the nil list.  When the client refuses it, the error
    is returned wrapped; nothing is deleted and nothing is polled. *)
Lemma DeleteMachines_in_a_namespace (namespace : string) (w w0 : World S)
  (e : Err) (s1 : S) :
  namespace <> "" ->
  dial respond w = Returns (None, liveClient) w0 ->
  respond (client_DeleteList KMachine None) (remote w0) = (Some e, s1) ->
  DeleteMachines respond namespace w
  = Returns
      (Some (WithMessage "error deleting Machines in namespace %q" [namespace] e))
      {| remote := s1; calls := calls w0 ++ [client_DeleteList KMachine None] |}.
Proof.
  intros Hns Hdial Hdel. apply String.eqb_neq in Hns.
  destruct (dial_built w w0 Hdial) as (s0 & s1' & Hc & HN & ->).
  unfold DeleteMachines. rewrite Hns. cbn [negb app map_lookup forEachErr].
  unfold New, via, bind, call, ret. rewrite Hc. cbn [remote calls].
  rewrite HN. simpl. unfold bind, ret. simpl. simpl in Hdel. rewrite Hdel.
  reflexivity.
Qed.

End ClientFacts.

(** ** The client at concrete inputs *)

(** C1. The candidate list fetched for cluster [c1] holds the machine
    deployment [md1], whose owner reference names [c1] by kind and name.
    [GetMachineSetsForCluster] and [GetMachinesForCluster] return the
    candidates owned by [c1]; [GetMachineDeploymentsForCluster] does not
    return [md1] but panics, with an index out of range, on the first
    candidate that matches. *)
Theorem GetMachineDeploymentsForCluster_panics_on_first_match :
  ownedByCluster c1 (clusterv1.MachineDeployment_ObjectMeta md1) = true /\
  (exists w',
     GetMachineSetsForCluster snapshot c1 (start populated)
     = Returns ([ms1], None) w') /\
  (exists w',
     GetMachinesForCluster snapshot c1 (start populated)
     = Returns ([m1], None) w') /\
  GetMachineDeploymentsForCluster snapshot c1 (start populated)
  = Panics (IndexOutOfRange 0 0)
      {| remote := populated;
         calls :=
           [ctrl_GetConfig; ctrlclient_New;
            SetLabelSelector (clusterSelector c1);
            client_List KMachineDeployment
              {| lo_Namespace := ""; lo_LabelSelector := clusterSelector c1 |}] |}.
Proof.
  split; [reflexivity|].
  split; [eexists; cbv; reflexivity|].
  split; [eexists; cbv; reflexivity|].
  reflexivity.
Qed.

(** C2. The remote side accepts the creation of [m2].  The unit then
    does not wait for [m2]: it hands the nil machine to
    [waitForMachineReady], whose first probe panics; no [Get] of the
    machine is ever sent.  With one goroutine the scheduler has no
    choice: this is the run under every schedule. *)
Theorem CreateMachines_waits_on_nil_machine :
  rejected emptySnapshot m2 = false /\
  forall schedule,
    CreateMachines snapshot schedule [m2] "default" (start emptySnapshot)
    = Panics NilPointerDereference
        {| remote := emptySnapshot;
           calls :=
             [ctrl_GetConfig; ctrlclient_New;
              client_Create KMachine (setMachineNamespace "default" m2);
              ctrl_GetConfig; ctrlclient_New; os_Getenv TimeoutMachineReady] |}.
Proof.
  split; [reflexivity|]. intros schedule.
  pose proof (CreateMachines_in_outcomes Snapshot snapshot schedule [m2] "default"
                (start emptySnapshot)) as H.
  assert (Hl : CreateMachines_outcomes snapshot [m2] "default" (start emptySnapshot)
               = [Panics NilPointerDereference
                    {| remote := emptySnapshot;
                       calls :=
                         [ctrl_GetConfig; ctrlclient_New;
                          client_Create KMachine (setMachineNamespace "default" m2);
                          ctrl_GetConfig; ctrlclient_New;
                          os_Getenv TimeoutMachineReady] |}])
    by (vm_compute; reflexivity).
  rewrite Hl in H. destruct H as [H|[]]. now symmetry.
Qed.

(** C3. Of the two machines the remote side refuses [m2] and accepts
    [m1].  Whatever the schedule, the run ends in one of two ways.
    Either the goroutine of [m1] finds [err] nil, goes on to wait on the
    nil machine and panics, which ends the process: no error is
    returned.  Or it finds in [err] the error that the goroutine of [m2]
    has assigned in the meantime, takes its own create for failed and
    skips the wait: then the error of [m2] is returned.  When both
    creates are sent and the goroutine of [m1] then runs on, the process
    panics; when the two assign [err] in turn, the error is returned. *)
Theorem CreateMachines_panics_or_skips_the_wait_when_one_create_fails :
  rejected rejectsM2 m2 = true /\ rejected rejectsM2 m1 = false /\
  (forall schedule, exists w',
     CreateMachines snapshot schedule [m1; m2] "default" (start rejectsM2)
     = Panics NilPointerDereference w' \/
     CreateMachines snapshot schedule [m1; m2] "default" (start rejectsM2)
     = Returns (createError "default" m2) w') /\
  (exists w',
     CreateMachines snapshot createsFirst [m1; m2] "default" (start rejectsM2)
     = Panics NilPointerDereference w' /\
     filter is_create (calls w')
     = [client_Create KMachine (setMachineNamespace "default" m1);
        client_Create KMachine (setMachineNamespace "default" m2)]) /\
  (exists w',
     CreateMachines snapshot assignsInTurn [m1; m2] "default" (start rejectsM2)
     = Returns (createError "default" m2) w' /\
     filter is_create (calls w')
     = [client_Create KMachine (setMachineNamespace "default" m1);
        client_Create KMachine (setMachineNamespace "default" m2)]).
Proof.
  split; [reflexivity|]. split; [reflexivity|]. split; [|split].
  - intros schedule.
    pose proof (CreateMachines_in_outcomes Snapshot snapshot schedule [m1; m2]
                  "default" (start rejectsM2)) as H.
    assert (Hall :
      forallb
        (fun o : Outcome Snapshot error =>
           match o with
           | Panics NilPointerDereference _ => true
           | Returns
               (Some (WithMessage f [a] (StatusError StatusReasonAlreadyExists n))) _ =>
               ((f =? "error creating a machine object in namespace %v")%string
                && (a =? "default")%string && (n =? "m2")%string)%bool
           | _ => false
           end)
        (CreateMachines_outcomes snapshot [m1; m2] "default" (start rejectsM2))
      = true) by (vm_compute; reflexivity).
    rewrite forallb_forall in Hall. specialize (Hall _ H). clear H.
    destruct (CreateMachines snapshot schedule [m1; m2] "default" (start rejectsM2))
      as [[e|] w'|r w']; try discriminate.
    + exists w'. right.
      destruct e as [| | | |f args cause]; try discriminate.
      destruct args as [|a [|a' args]]; try discriminate.
      destruct cause as [reason n| | | |]; try discriminate.
      destruct reason; try discriminate.
      apply andb_true_iff in Hall as [Hall Hn].
      apply andb_true_iff in Hall as [Hf Ha].
      apply String.eqb_eq in Hf, Ha, Hn. subst. reflexivity.
    + exists w'. left. destruct r; [reflexivity | discriminate].
  - eexists; split; [vm_compute; reflexivity | reflexivity].
  - eexists; split; [vm_compute; reflexivity | reflexivity].
Qed.

(** C4. The remote side holds one cluster, in namespace [default].
    [DeleteClusters] with the empty namespace lists the clusters and
    then panics on the nil entry of its map of per-namespace lists: it
    sends no delete and polls nothing. *)
Theorem DeleteClusters_all_namespaces_panics :
  snap_clusters populated = [c1] /\
  DeleteClusters snapshot "" (start populated)
  = Panics NilPointerDereference
      {| remote := populated;
         calls := [ctrl_GetConfig; ctrlclient_New;
                   client_List KCluster noListOptions] |}.
Proof. split; reflexivity. Qed.

(** C5. The remote side lists the machine [m1].  [DeleteMachines] for
    the namespace of [m1] hands [Delete] the nil list, since no list is
    ever stored in its map; the client refuses it and the error is
    returned.  Nothing is deleted and no list is polled: not that of the
    machines, which no run ever asks for, and not that of the machine
    sets, which the code would poll after a delete that went through. *)
Theorem DeleteMachines_fails_on_the_nil_list_and_polls_nothing :
  snapshot_reply (client_List KMachine noListOptions) machinesLeft = inr [m1] /\
  DeleteMachines snapshot "default" (start machinesLeft)
  = Returns
      (Some (WithMessage "error deleting Machines in namespace %q" ["default"]
               nilObjectRefused))
      {| remote := machinesLeft;
         calls :=
           [ctrl_GetConfig; ctrlclient_New; client_DeleteList KMachine None] |}.
Proof. split; reflexivity. Qed.

(** ** Instances *)

Lemma GetCluster_absent_instance :
  GetCluster snapshot "c9" "default" (start populated)
  = Returns (None, None)
      {| remote := populated;
         calls := [ctrl_GetConfig; ctrlclient_New;
                   client_List KCluster
                     {| lo_Namespace := "default"; lo_LabelSelector := "" |}] |}.
Proof.
  apply (GetCluster_absent_is_nil_without_error Snapshot snapshot "c9" "default"
           (start populated) _ [c1]).
  - reflexivity.
  - intros nc [<-|[]]. simpl. discriminate.
Defined.

Lemma ForceDeleteMachine_instance :
  ForceDeleteMachine snapshot "default" "m9" (start populated)
  = Returns
      (Some (WithMessage "error getting Machine %s/%s" ["default"; "m9"]
               (StatusError StatusReasonNotFound "m9")))
      {| remote := populated;
         calls := [ctrl_GetConfig; ctrlclient_New;
                   client_Get KMachine
                     {| nn_Namespace := "default"; nn_Name := "m9" |}] |} /\
  Finalizers (clusterv1.Machine_ObjectMeta m1) = ["machine.cluster.k8s.io"] /\
  exists err w',
    ForceDeleteMachine snapshot "default" "m1" (start populated) = Returns err w' /\
    calls w'
    = [ctrl_GetConfig; ctrlclient_New;
       client_Get KMachine {| nn_Namespace := "default"; nn_Name := "m1" |};
       client_Update KMachine (setMachineFinalizers [] m1);
       client_Delete KMachine (setMachineFinalizers [] m1)
         (Some DeletePropagationForeground)].
Proof.
  split; [|split; [reflexivity|]].
  - apply (proj1 (ForceDeleteMachine_clears_finalizers_then_deletes Snapshot snapshot
                    "default" "m9" (start populated) _ eq_refl)).
    reflexivity.
  - apply (proj2 (ForceDeleteMachine_clears_finalizers_then_deletes Snapshot snapshot
                    "default" "m1" (start populated) _ eq_refl)
             m1 populated (setMachineFinalizers [] m1) populated eq_refl eq_refl).
Defined.

Lemma resourceStatusesProbe_instance :
  exists w',
    resourceStatusesProbe snapshot liveClient (start populated)
    = Returns (true, None) w'.
Proof.
  destruct (resourceStatusesProbe_ready_iff Snapshot snapshot (start populated)
              [c1] [md1] [ms1; ms2] [m1; m2] eq_refl) as [ready [w' [Hrun Hiff]]].
  exists w'. rewrite Hrun. f_equal. f_equal.
  apply Hiff. split; [|split; [|split]].
  - intros c [<-|[]]; split; [reflexivity | discriminate].
  - intros md [<-|[]]; reflexivity.
  - intros ms [<-|[<-|[]]]; reflexivity.
  - intros m [<-|[<-|[]]]; (split; [reflexivity | discriminate]).
Defined.

(** * More properties of the client *)

Section MoreFacts.

Variable S : Type.
Variable respond : forall c : Call, S -> reply c * S.

(** *** Loops and polls *)

Lemma sends_only_forRangeReturn {A R : Type} (P : Call -> Prop)
  (body : A -> World S -> Outcome S (option R)) (l : list A) :
  (forall x, sends_only P (body x)) -> sends_only P (forRangeReturn body l).
Proof.
  intros Hb; induction l as [|x l IH]; simpl; [apply sends_only_ret|].
  apply sends_only_bind; [apply Hb|].
  intros [v|]; [apply sends_only_ret | exact IH].
Qed.

Lemma sends_only_weaken {A : Type} (P Q : Call -> Prop)
  (m : World S -> Outcome S A) :
  (forall c, P c -> Q c) -> sends_only P m -> sends_only Q m.
Proof.
  intros HPQ Hm w. destruct (Hm w) as [l [E F]]. exists l; split; [exact E|].
  eapply Forall_impl; [|exact F]. exact HPQ.
Qed.

(** A poll that ends without error ends with a probe that said yes. *)
Lemma poll_success {L : Type} (ticks : nat)
  (condition : L -> World S -> Outcome S (bool * error * L)) (l : L)
  (w w' : World S) :
  poll ticks condition l w = Returns None w' ->
  exists l1 w1 l2, condition l1 w1 = Returns (true, None, l2) w'.
Proof.
  revert l w; induction ticks as [|n IH]; intros l w; simpl; unfold bind;
    destruct (condition l w) as [[[[|] [e|]] l'] w1|r w1] eqn:Hc;
    unfold ret; try discriminate.
  - intros H; injection H as <-. eauto.
  - intros H; injection H as <-. eauto.
  - apply IH.
Qed.

(** The error of a poll is the timeout or the error of a probe. *)
Lemma poll_error {L : Type} (ticks : nat)
  (condition : L -> World S -> Outcome S (bool * error * L)) (l : L)
  (w w' : World S) (e : Err) :
  poll ticks condition l w = Returns (Some e) w' ->
  e = ErrWaitTimeout \/
  exists l1 w1 b l2, condition l1 w1 = Returns (b, Some e, l2) w'.
Proof.
  revert l w; induction ticks as [|n IH]; intros l w; simpl; unfold bind;
    destruct (condition l w) as [[[[|] [e0|]] l'] w1|r w1] eqn:Hc;
    unfold ret; try discriminate;
    try (intros H; injection H as <- <-; right; eauto 6; fail).
  - intros H; injection H as <- <-. now left.
  - apply IH.
Qed.

(** A poll panics only where a probe does. *)
Lemma poll_panic {L : Type} (ticks : nat)
  (condition : L -> World S -> Outcome S (bool * error * L)) (l : L)
  (w w' : World S) (r : PanicReason) :
  poll ticks condition l w = Panics r w' ->
  exists l1 w1, condition l1 w1 = Panics r w'.
Proof.
  revert l w; induction ticks as [|n IH]; intros l w; simpl; unfold bind;
    destruct (condition l w) as [[[[|] [e0|]] l'] w1|r1 w1] eqn:Hc;
    unfold ret; try discriminate;
    try (intros H; injection H as <- <-; eauto; fail).
  apply IH.
Qed.

(** *** Creating objects *)

(** X1. [CreateMachineDeployments] returns from inside its loop: whatever
    follows the first deployment of the list has no effect, and the only
    create it ever sends is that of the first deployment, in the given
    namespace. *)
Theorem CreateMachineDeployments_creates_only_the_first
  (deploy : clusterv1.MachineDeployment) (rest : list clusterv1.MachineDeployment)
  (namespace : string) :
  (forall w, CreateMachineDeployments respond (deploy :: rest) namespace w
             = CreateMachineDeployments respond [deploy] namespace w) /\
  sends_only
    (fun c => is_write c = true ->
              c = client_Create KMachineDeployment
                    (setMachineDeploymentNamespace namespace deploy))
    (CreateMachineDeployments respond (deploy :: rest) namespace).
Proof.
  assert (Hfirst : forall w, CreateMachineDeployments respond (deploy :: rest) namespace w
                             = CreateMachineDeployments respond [deploy] namespace w).
  { intros w. unfold CreateMachineDeployments, bind.
    destruct (call respond ctrl_GetConfig w) as [[e|] w0|r w0]; try reflexivity.
    destruct (New respond w0) as [clientset w1|r w1]; [|reflexivity].
    simpl. unfold bind.
    destruct (via respond clientset _ w1) as [[e|o] w2|r w2]; reflexivity. }
  split; [exact Hfirst|].
  intros w. rewrite Hfirst. revert w. unfold CreateMachineDeployments.
  apply sends_only_bind; [apply sends_only_call; discriminate|].
  intros [e|]; [apply sends_only_ret|].
  apply sends_only_bind; [apply sends_only_New; discriminate|]. intros clientset.
  apply sends_only_bind; [|intros [err|]; apply sends_only_ret].
  cbn [forRangeReturn]. apply sends_only_bind; [|intros [v|]; apply sends_only_ret].
  apply sends_only_bind; [apply sends_only_via; reflexivity|].
  intros [e|o]; apply sends_only_ret.
Qed.

(** X2. [CreateMachineSets] likewise creates only the first machine set
    of its list. *)
Theorem CreateMachineSets_creates_only_the_first
  (ms : clusterv1.MachineSet) (rest : list clusterv1.MachineSet)
  (namespace : string) :
  (forall w, CreateMachineSets respond (ms :: rest) namespace w
             = CreateMachineSets respond [ms] namespace w) /\
  sends_only
    (fun c => is_write c = true ->
              c = client_Create KMachineSet (setMachineSetNamespace namespace ms))
    (CreateMachineSets respond (ms :: rest) namespace).
Proof.
  assert (Hfirst : forall w, CreateMachineSets respond (ms :: rest) namespace w
                             = CreateMachineSets respond [ms] namespace w).
  { intros w. unfold CreateMachineSets, bind.
    destruct (call respond ctrl_GetConfig w) as [[e|] w0|r w0]; try reflexivity.
    destruct (New respond w0) as [clientset w1|r w1]; [|reflexivity].
    simpl. unfold bind.
    destruct (via respond clientset _ w1) as [[e|o] w2|r w2]; reflexivity. }
  split; [exact Hfirst|].
  intros w. rewrite Hfirst. revert w. unfold CreateMachineSets.
  apply sends_only_bind; [apply sends_only_call; discriminate|].
  intros [e|]; [apply sends_only_ret|].
  apply sends_only_bind; [apply sends_only_New; discriminate|]. intros clientset.
  apply sends_only_bind; [|intros [err|]; apply sends_only_ret].
  cbn [forRangeReturn]. apply sends_only_bind; [|intros [v|]; apply sends_only_ret].
  apply sends_only_bind; [apply sends_only_via; reflexivity|].
  intros [e|o]; apply sends_only_ret.
Qed.

(** X3. Once the client is built, [CreateClusterObject] sends exactly one
    create, and the cluster it carries never has an empty namespace: a
    cluster that names a namespace is sent as it is, one that does not is
    sent in the namespace of the context, [default] when the context has
    none. *)
Theorem CreateClusterObject_defaults_the_namespace (c : client)
  (cluster : clusterv1.Cluster) (w w0 : World S) :
  dial respond w = Returns (None, liveClient) w0 ->
  exists sent err w',
    CreateClusterObject respond c cluster w = Returns err w' /\
    calls w' = calls w0 ++ [client_Create KCluster sent] /\
    Namespace (clusterv1.Cluster_ObjectMeta sent) <> "" /\
    Name (clusterv1.Cluster_ObjectMeta sent) = Name (clusterv1.Cluster_ObjectMeta cluster) /\
    (Namespace (clusterv1.Cluster_ObjectMeta cluster) <> "" -> sent = cluster) /\
    (Namespace (clusterv1.Cluster_ObjectMeta cluster) = "" ->
     Namespace (clusterv1.Cluster_ObjectMeta sent) = GetContextNamespace c).
Proof.
  intros Hdial.
  unfold CreateClusterObject, dial, New, via, bind, call, ret in *.
  destruct (respond ctrl_GetConfig (remote w)) as [[e0|] s0]; simpl in *;
    [discriminate|].
  destruct (respond ctrlclient_New s0) as [[e1|] s0']; simpl in *; [discriminate|].
  injection Hdial as <-. simpl.
  assert (Hctx : GetContextNamespace c <> "").
  { unfold GetContextNamespace.
    destruct (tcmd.Namespace (configOverrides_Context c) =? "")%string eqn:E;
      [discriminate | now apply String.eqb_neq]. }
  destruct (Namespace (clusterv1.Cluster_ObjectMeta cluster) =? "")%string eqn:Hns.
  - apply String.eqb_eq in Hns.
    destruct (respond (client_Create KCluster
                         (setClusterNamespace (GetContextNamespace c) cluster)) s0')
      as [[e|o] s1]; simpl;
      exists (setClusterNamespace (GetContextNamespace c) cluster);
      eexists; eexists; (split; [reflexivity|]); simpl;
      (split; [reflexivity|]); (split; [exact Hctx|]);
      (split; [reflexivity|]); (split; [congruence | reflexivity]).
  - apply String.eqb_neq in Hns.
    destruct (respond (client_Create KCluster cluster) s0') as [[e|o] s1]; simpl;
      exists cluster; eexists; eexists; (split; [reflexivity|]); simpl;
      (split; [reflexivity|]); (split; [exact Hns|]);
      (split; [reflexivity|]); (split; [reflexivity | congruence]).
Qed.

(** *** Listing objects *)

(** X4. [GetMachines], [GetMachineSets], [GetMachineDeployments] and
    [GetMachineClasses] ignore the namespace they are given: they send
    the same unscoped list for every namespace and return its whole
    answer. *)
Theorem listings_ignore_their_namespace :
  namespace_blind (GetMachines respond) /\
  namespace_blind (GetMachineSets respond) /\
  namespace_blind (GetMachineDeployments respond) /\
  namespace_blind (GetMachineClasses respond).
Proof.
  repeat split; intros;
    unfold GetMachines, GetMachineSets, GetMachineDeployments, GetMachineClasses,
      bind in *;
    destruct (call respond ctrl_GetConfig w) as [[e|] w0|r w0];
    try reflexivity; try (unfold ret in *; discriminate);
    destruct (New respond w0) as [clientset w1|r w1];
    try reflexivity; try discriminate;
    destruct (via respond clientset _ w1) as [[e|Items] w2|r w2];
    try reflexivity; try (unfold ret in *; discriminate); assumption.
Qed.

Lemma GetClusterAPIObject_fetched
  (clusterName namespace : string) (w w1 w2 : World S)
  (machines : list clusterv1.Machine) (cluster : option clusterv1.Cluster) :
  GetMachines respond namespace w = Returns (machines, None) w1 ->
  GetCluster respond clusterName namespace w1 = Returns (cluster, None) w2 ->
  GetClusterAPIObject respond clusterName namespace w
  = match filter IsControlPlaneMachine machines with
    | [] =>
        Returns
          (None, None, [],
           Some (WithMessage "unable to fetch control plane machine in cluster %s/%s"
                   [namespace; clusterName]
                   (ErrorString "expected one or more control plane machines, got: 0")))
          w2
    | first :: _ =>
        Returns
          (cluster, Some first,
           filter (fun m => negb (IsControlPlaneMachine m)) machines, None) w2
    end.
Proof.
  intros Hmachines Hcluster. unfold GetClusterAPIObject.
  erewrite bind_Returns; [|exact Hmachines]. cbv beta iota.
  erewrite bind_Returns; [|exact Hcluster]. cbv beta iota.
  unfold ExtractControlPlaneMachines.
  rewrite ExtractControlPlaneMachines_loop. cbn [app].
  destruct (filter IsControlPlaneMachine machines) as [|first others];
    reflexivity.
Qed.

(** X5. When the machines and the cluster are fetched, [GetClusterAPIObject]
    fails when no machine is a control plane machine; otherwise it
    returns, without panic, the first control plane machine of the
    listing as the control plane and the machines without the marker as
    nodes, so every further control plane machine is in neither result.
    The cluster is handed on as [GetCluster] returned it. *)
Theorem GetClusterAPIObject_takes_the_first_control_plane
  (clusterName namespace : string) (w w1 w2 : World S)
  (machines : list clusterv1.Machine) (cluster : option clusterv1.Cluster) :
  GetMachines respond namespace w = Returns (machines, None) w1 ->
  GetCluster respond clusterName namespace w1 = Returns (cluster, None) w2 ->
  (existsb IsControlPlaneMachine machines = false ->
   exists e,
     GetClusterAPIObject respond clusterName namespace w
     = Returns (None, None, [], Some e) w2) /\
  (forall first others,
     filter IsControlPlaneMachine machines = first :: others ->
     exists nodes,
       GetClusterAPIObject respond clusterName namespace w
       = Returns (cluster, Some first, nodes, None) w2 /\
       nodes = filter (fun m => negb (IsControlPlaneMachine m)) machines /\
       forall m, In m others -> ~ In m nodes).
Proof.
  intros Hmachines Hcluster.
  rewrite (GetClusterAPIObject_fetched clusterName namespace w w1 w2 machines cluster
             Hmachines Hcluster).
  split.
  - intros Hnone. apply filter_nil_existsb in Hnone. rewrite Hnone. eauto.
  - intros first others Hf. rewrite Hf. eexists; split; [reflexivity|].
    split; [reflexivity|].
    intros m Hm Hn. apply filter_In in Hn as [_ Hn].
    assert (Hin : In m (filter IsControlPlaneMachine machines))
      by (rewrite Hf; now right).
    apply filter_In in Hin as [_ Hin]. rewrite Hin in Hn. discriminate.
Qed.

(** X6. [GetClusterAPIObject] does not report a missing cluster: when the
    listing of clusters holds no cluster of the given name and a control
    plane machine exists, it returns the nil cluster with the nil error. *)
Theorem GetClusterAPIObject_returns_nil_cluster_without_error
  (clusterName namespace : string) (w w1 w2 : World S)
  (machines : list clusterv1.Machine) (clusters : list clusterv1.Cluster) :
  GetMachines respond namespace w = Returns (machines, None) w1 ->
  GetClusters respond namespace w1 = Returns (clusters, None) w2 ->
  (forall nc, In nc clusters -> Name (clusterv1.Cluster_ObjectMeta nc) <> clusterName) ->
  existsb IsControlPlaneMachine machines = true ->
  exists controlPlane nodes,
    GetClusterAPIObject respond clusterName namespace w
    = Returns (None, Some controlPlane, nodes, None) w2.
Proof.
  intros Hmachines Hclusters Habsent Hcp.
  assert (Hcluster : GetCluster respond clusterName namespace w1
                     = Returns (None, None) w2).
  { unfold GetCluster. erewrite bind_Returns; [|exact Hclusters]. cbv beta iota.
    unfold ret. rewrite find_absent; [reflexivity|].
    intros nc Hnc. apply String.eqb_neq. now apply Habsent. }
  rewrite (GetClusterAPIObject_fetched clusterName namespace w w1 w2 machines None
             Hmachines Hcluster).
  destruct (filter IsControlPlaneMachine machines) as [|first others] eqn:Hf.
  - apply filter_nil_existsb in Hf. congruence.
  - eauto.
Qed.

(** *** Force delete, the siblings *)

(** X7. [ForceDeleteMachineSet], once the client is built: a failing
    [Get] is returned wrapped and is the only call; when the machine set
    is found and the update accepted, the calls are the get, an update
    that carries the machine set with no finalizer, and a delete with
    foreground propagation, in this order. *)
Theorem ForceDeleteMachineSet_clears_finalizers_then_deletes
  (namespace name : string) (w w0 : World S) :
  dial respond w = Returns (None, liveClient) w0 ->
  (forall e s1,
     respond (client_Get KMachineSet {| nn_Namespace := namespace; nn_Name := name |})
       (remote w0) = (inl e, s1) ->
     ForceDeleteMachineSet respond namespace name w
     = Returns (Some (WithMessage "error getting Machine %s/%s" [namespace; name] e))
         {| remote := s1;
            calls := calls w0 ++
              [client_Get KMachineSet {| nn_Namespace := namespace; nn_Name := name |}] |}) /\
  (forall machineSet s1 updated s2,
     respond (client_Get KMachineSet {| nn_Namespace := namespace; nn_Name := name |})
       (remote w0) = (inr machineSet, s1) ->
     respond (client_Update KMachineSet (setMachineSetFinalizers [] machineSet)) s1
       = (inr updated, s2) ->
     Finalizers (clusterv1.MachineSet_ObjectMeta (setMachineSetFinalizers [] machineSet))
     = [] /\
     exists err w',
       ForceDeleteMachineSet respond namespace name w = Returns err w' /\
       calls w' = calls w0 ++
         [client_Get KMachineSet {| nn_Namespace := namespace; nn_Name := name |};
          client_Update KMachineSet (setMachineSetFinalizers [] machineSet);
          client_Delete KMachineSet updated (Some DeletePropagationForeground)]).
Proof.
  intros Hdial.
  unfold ForceDeleteMachineSet, dial, New, via, bind, call, ret in *.
  destruct (respond ctrl_GetConfig (remote w)) as [[e0|] s0]; simpl in *;
    [discriminate|].
  destruct (respond ctrlclient_New s0) as [[e1|] s0']; simpl in *;
    [discriminate|].
  injection Hdial as <-. simpl.
  split.
  - intros e s1 Hget. rewrite Hget. reflexivity.
  - intros machineSet s1 updated s2 Hget Hupd. split; [reflexivity|].
    rewrite Hget; simpl. rewrite Hupd; simpl.
    destruct (respond (client_Delete KMachineSet updated
                         (Some DeletePropagationForeground)) s2)
      as [[e|] s3]; simpl; eexists; eexists; (split; [reflexivity|]); simpl;
      rewrite <- !app_assoc; reflexivity.
Qed.

(** X8. [ForceDeleteMachineDeployment] behaves the same way on machine
    deployments. *)
Theorem ForceDeleteMachineDeployment_clears_finalizers_then_deletes
  (namespace name : string) (w w0 : World S) :
  dial respond w = Returns (None, liveClient) w0 ->
  (forall e s1,
     respond (client_Get KMachineDeployment
                {| nn_Namespace := namespace; nn_Name := name |})
       (remote w0) = (inl e, s1) ->
     ForceDeleteMachineDeployment respond namespace name w
     = Returns (Some (WithMessage "error getting Machine %s/%s" [namespace; name] e))
         {| remote := s1;
            calls := calls w0 ++
              [client_Get KMachineDeployment
                 {| nn_Namespace := namespace; nn_Name := name |}] |}) /\
  (forall machineDeployment s1 updated s2,
     respond (client_Get KMachineDeployment
                {| nn_Namespace := namespace; nn_Name := name |})
       (remote w0) = (inr machineDeployment, s1) ->
     respond (client_Update KMachineDeployment
                (setMachineDeploymentFinalizers [] machineDeployment)) s1
       = (inr updated, s2) ->
     Finalizers (clusterv1.MachineDeployment_ObjectMeta
                   (setMachineDeploymentFinalizers [] machineDeployment)) = [] /\
     exists err w',
       ForceDeleteMachineDeployment respond namespace name w = Returns err w' /\
       calls w' = calls w0 ++
         [client_Get KMachineDeployment {| nn_Namespace := namespace; nn_Name := name |};
          client_Update KMachineDeployment
            (setMachineDeploymentFinalizers [] machineDeployment);
          client_Delete KMachineDeployment updated (Some DeletePropagationForeground)]).
Proof.
  intros Hdial.
  unfold ForceDeleteMachineDeployment, dial, New, via, bind, call, ret in *.
  destruct (respond ctrl_GetConfig (remote w)) as [[e0|] s0]; simpl in *;
    [discriminate|].
  destruct (respond ctrlclient_New s0) as [[e1|] s0']; simpl in *;
    [discriminate|].
  injection Hdial as <-. simpl.
  split.
  - intros e s1 Hget. rewrite Hget. reflexivity.
  - intros machineDeployment s1 updated s2 Hget Hupd. split; [reflexivity|].
    rewrite Hget; simpl. rewrite Hupd; simpl.
    destruct (respond (client_Delete KMachineDeployment updated
                         (Some DeletePropagationForeground)) s2)
      as [[e|] s3]; simpl; eexists; eexists; (split; [reflexivity|]); simpl;
      rewrite <- !app_assoc; reflexivity.
Qed.

(** *** The deletion coordinator, the other kinds *)

Lemma DeleteMachineClasses_invariant (depth : nat) :
  forall (namespace : string) (w : World S),
    extends (fun c => is_write c = false) w
      (final (DeleteMachineClasses respond depth namespace w)) /\
    (namespace <> "" ->
     forall w', DeleteMachineClasses respond depth namespace w <> Returns (Some None) w').
Proof.
  induction depth as [|d IH]; intros ns w.
  - simpl. split; [apply extends_refl | intros _ w' H; discriminate].
  - cbn [DeleteMachineClasses]. unfold bind.
    pose proof (sends_only_call S respond (fun c => is_write c = false)
                  ctrl_GetConfig eq_refl w) as E0.
    destruct (call respond ctrl_GetConfig w) as [[e|] w0|r w0]; cbn [final] in E0;
      cbv beta iota.
    + split; [exact E0 | intros _ w' H; discriminate].
    + pose proof (sends_only_New S respond (fun c => is_write c = false)
                    eq_refl w0) as E1.
      destruct (New respond w0) as [cs w1|r w1]; cbn [final] in E1; cbv beta iota.
      2:{ split; [eapply extends_trans; eassumption | intros _ w' H; discriminate]. }
      assert (E01 : extends (fun c => is_write c = false) w w1)
        by (eapply extends_trans; eassumption).
      destruct (ns =? "")%string eqn:Hns; cbn [negb]; cbv beta iota.
      * apply String.eqb_eq in Hns. subst ns.
        split; [|intros H; now elim H].
        pose proof (sends_only_via S respond (fun c => is_write c = false) cs
                      (client_List KMachineClass noListOptions) eq_refl w1) as E2.
        destruct (via respond cs (client_List KMachineClass noListOptions) w1)
          as [[e|[|x Items]] w2|r w2]; cbn [final] in E2; simpl;
          eapply extends_trans; eassumption.
      * apply String.eqb_neq in Hns.
        cbv [ret]. cbn [app forRangeReturn]. unfold bind. cbv beta iota.
        destruct (IH ns w1) as [E2 Hnever].
        destruct (DeleteMachineClasses respond d ns w1) as [[[e|]|] w2|r w2] eqn:Hrec;
          cbn [final] in E2; cbv beta iota.
        -- split; [eapply extends_trans; eassumption | intros _ w' H; discriminate].
        -- exfalso. now apply (Hnever Hns w2).
        -- split; [eapply extends_trans; eassumption | intros _ w' H; discriminate].
        -- split; [eapply extends_trans; eassumption | intros _ w' H; discriminate].
    + split; [exact E0 | intros _ w' H; discriminate].
Qed.

(** X9. [DeleteMachineClasses] never sends a delete (nor any other write),
    for any namespace and however deep its recursion goes. *)
Theorem DeleteMachineClasses_never_deletes (depth : nat) (namespace : string) :
  sends_only (fun c => is_write c = false)
    (DeleteMachineClasses respond depth namespace).
Proof. intros w. apply DeleteMachineClasses_invariant. Qed.

(** X10. Given a namespace, [DeleteMachineClasses] never returns nil: it
    first calls itself with the same namespace, so it returns the error
    of reading the configuration or uses up the stack. *)
Theorem DeleteMachineClasses_never_succeeds_in_a_namespace (depth : nat)
  (namespace : string) (w w' : World S) :
  namespace <> "" ->
  DeleteMachineClasses respond depth namespace w <> Returns (Some None) w'.
Proof. intros Hns. now apply DeleteMachineClasses_invariant. Qed.

(** X11. With no namespace given, [DeleteMachineDeployments],
    [DeleteMachineSets] and [DeleteMachines] share the fate of
    [DeleteClusters]: after the listing they return (empty listing) or
    panic on the nil entry of the map (any object listed), and never send
    a delete. *)
Theorem Delete_all_namespaces_never_deletes :
  sends_only (fun c => is_write c = false) (DeleteMachineDeployments respond "") /\
  sends_only (fun c => is_write c = false) (DeleteMachineSets respond "") /\
  sends_only (fun c => is_write c = false) (DeleteMachines respond "").
Proof.
  repeat split.
  - unfold DeleteMachineDeployments.
    apply sends_only_bind; [now apply sends_only_call|].
    intros [e|]; [apply sends_only_ret|].
    apply sends_only_bind; [now apply sends_only_New|]. intros clientset.
    cbn [String.eqb negb].
    intros w. unfold bind at 1. unfold bind at 1.
    pose proof (sends_only_via S respond (fun c => is_write c = false) clientset
                  (client_List KMachineDeployment noListOptions) eq_refl w) as Hlist.
    destruct (via respond clientset (client_List KMachineDeployment noListOptions) w)
      as [[e|Items] w1|r w1]; simpl in *; try exact Hlist.
    destruct Items as [|c Items]; exact Hlist.
  - unfold DeleteMachineSets.
    apply sends_only_bind; [now apply sends_only_call|].
    intros [e|]; [apply sends_only_ret|].
    apply sends_only_bind; [now apply sends_only_New|]. intros clientset.
    cbn [String.eqb negb].
    intros w. unfold bind at 1. unfold bind at 1.
    pose proof (sends_only_via S respond (fun c => is_write c = false) clientset
                  (client_List KMachineSet noListOptions) eq_refl w) as Hlist.
    destruct (via respond clientset (client_List KMachineSet noListOptions) w)
      as [[e|Items] w1|r w1]; simpl in *; try exact Hlist.
    destruct Items as [|c Items]; exact Hlist.
  - unfold DeleteMachines.
    apply sends_only_bind; [now apply sends_only_call|].
    intros [e|]; [apply sends_only_ret|].
    apply sends_only_bind; [now apply sends_only_New|]. intros clientset.
    cbn [String.eqb negb].
    intros w. unfold bind at 1. unfold bind at 1.
    pose proof (sends_only_via S respond (fun c => is_write c = false) clientset
                  (client_List KMachine noListOptions) eq_refl w) as Hlist.
    destruct (via respond clientset (client_List KMachine noListOptions) w)
      as [[e|Items] w1|r w1]; simpl in *; try exact Hlist.
    destruct Items as [|c Items]; exact Hlist.
Qed.

Lemma waitForClusterDelete_success (namespace : string) (w w' : World S) :
  waitForClusterDelete respond namespace w = Returns None w' ->
  exists s, respond (client_List KCluster noListOptions) s = (inr [], remote w').
Proof.
  intros H. unfold waitForClusterDelete, PollImmediate in H.
  apply poll_success in H as (l1 & w1 & l2 & Hp).
  cbv [stateless bind call New via ret panic] in Hp.
  destruct (respond ctrl_GetConfig (remote w1)) as [[e|] s0]; simpl in Hp;
    [discriminate|].
  destruct (respond ctrlclient_New s0) as [[e|] s1]; simpl in Hp; [discriminate|].
  destruct (respond (client_List KCluster noListOptions) s1) as [[e|Items] s2] eqn:Hl;
    simpl in Hp; [discriminate|].
  destruct Items; simpl in Hp; [|discriminate].
  inversion Hp; subst. exists s1. exact Hl.
Qed.

Lemma waitForMachineSetsDelete_success (namespace : string) (w w' : World S) :
  waitForMachineSetsDelete respond namespace w = Returns None w' ->
  exists s, respond (client_List KMachineSet noListOptions) s = (inr [], remote w').
Proof.
  intros H. unfold waitForMachineSetsDelete, PollImmediate in H.
  apply poll_success in H as (l1 & w1 & l2 & Hp).
  cbv [stateless bind call New via ret panic] in Hp.
  destruct (respond ctrl_GetConfig (remote w1)) as [[e|] s0]; simpl in Hp;
    [discriminate|].
  destruct (respond ctrlclient_New s0) as [[e|] s1]; simpl in Hp; [discriminate|].
  destruct (respond (client_List KMachineSet noListOptions) s1) as [[e|Items] s2] eqn:Hl;
    simpl in Hp; [discriminate|].
  destruct Items; simpl in Hp; [|discriminate].
  inversion Hp; subst. exists s1. exact Hl.
Qed.

Lemma waitForMachineDeploymentsDelete_success (namespace : string) (w w' : World S) :
  waitForMachineDeploymentsDelete respond namespace w = Returns None w' ->
  exists s,
    respond (client_List KMachineDeployment noListOptions) s = (inr [], remote w').
Proof.
  intros H. unfold waitForMachineDeploymentsDelete, PollImmediate in H.
  apply poll_success in H as (l1 & w1 & l2 & Hp).
  cbv [stateless bind call New via ret panic] in Hp.
  destruct (respond ctrl_GetConfig (remote w1)) as [[e|] s0]; simpl in Hp;
    [discriminate|].
  destruct (respond ctrlclient_New s0) as [[e|] s1]; simpl in Hp; [discriminate|].
  destruct (respond (client_List KMachineDeployment noListOptions) s1)
    as [[e|Items] s2] eqn:Hl; simpl in Hp; [discriminate|].
  destruct Items; simpl in Hp; [|discriminate].
  inversion Hp; subst. exists s1. exact Hl.
Qed.

(** X12. Given a namespace, [DeleteClusters] stores no list under it and
    hands [Delete] the nil list.  When the client refuses it, the error
    is returned wrapped, the refused delete is the only call after the
    client was built, and the list of clusters is not polled. *)
Theorem DeleteClusters_returns_the_refusal_of_the_nil_list (namespace : string)
  (w w0 : World S) (e : Err) (s1 : S) :
  namespace <> "" ->
  dial respond w = Returns (None, liveClient) w0 ->
  respond (client_DeleteList KCluster None) (remote w0) = (Some e, s1) ->
  DeleteClusters respond namespace w
  = Returns
      (Some (WithMessage "error deleting Clusters in namespace %q" [namespace] e))
      {| remote := s1; calls := calls w0 ++ [client_DeleteList KCluster None] |}.
Proof.
  intros Hns Hdial Hdel. apply String.eqb_neq in Hns.
  destruct (dial_built S respond w w0 Hdial) as (s0 & s1' & Hc & HN & ->).
  unfold DeleteClusters. rewrite Hns. cbn [negb app map_lookup forEachErr].
  unfold New, via, bind, call, ret. rewrite Hc. cbn [remote calls].
  rewrite HN. simpl. unfold bind, ret. simpl. simpl in Hdel. rewrite Hdel.
  reflexivity.
Qed.

(** X13. Given a namespace, [DeleteMachineSets] likewise hands [Delete]
    the nil list and returns the refusal wrapped, without a poll. *)
Theorem DeleteMachineSets_returns_the_refusal_of_the_nil_list (namespace : string)
  (w w0 : World S) (e : Err) (s1 : S) :
  namespace <> "" ->
  dial respond w = Returns (None, liveClient) w0 ->
  respond (client_DeleteList KMachineSet None) (remote w0) = (Some e, s1) ->
  DeleteMachineSets respond namespace w
  = Returns
      (Some (WithMessage "error deleting MachineSets in namespace %q" [namespace] e))
      {| remote := s1; calls := calls w0 ++ [client_DeleteList KMachineSet None] |}.
Proof.
  intros Hns Hdial Hdel. apply String.eqb_neq in Hns.
  destruct (dial_built S respond w w0 Hdial) as (s0 & s1' & Hc & HN & ->).
  unfold DeleteMachineSets. rewrite Hns. cbn [negb app map_lookup forEachErr].
  unfold New, via, bind, call, ret. rewrite Hc. cbn [remote calls].
  rewrite HN. simpl. unfold bind, ret. simpl. simpl in Hdel. rewrite Hdel.
  reflexivity.
Qed.

(** X14. Given a namespace, [DeleteMachineDeployments] likewise hands
    [Delete] the nil list and returns the refusal wrapped, without a
    poll. *)
Theorem DeleteMachineDeployments_returns_the_refusal_of_the_nil_list
  (namespace : string) (w w0 : World S) (e : Err) (s1 : S) :
  namespace <> "" ->
  dial respond w = Returns (None, liveClient) w0 ->
  respond (client_DeleteList KMachineDeployment None) (remote w0) = (Some e, s1) ->
  DeleteMachineDeployments respond namespace w
  = Returns
      (Some (WithMessage "error deleting MachineDeployments in namespace %q"
               [namespace] e))
      {| remote := s1;
         calls := calls w0 ++ [client_DeleteList KMachineDeployment None] |}.
Proof.
  intros Hns Hdial Hdel. apply String.eqb_neq in Hns.
  destruct (dial_built S respond w w0 Hdial) as (s0 & s1' & Hc & HN & ->).
  unfold DeleteMachineDeployments. rewrite Hns. cbn [negb app map_lookup forEachErr].
  unfold New, via, bind, call, ret. rewrite Hc. cbn [remote calls].
  rewrite HN. simpl. unfold bind, ret. simpl. simpl in Hdel. rewrite Hdel.
  reflexivity.
Qed.

(** *** Waiting *)

(** X15. [WaitForClusterV1alpha1Ready] never returns the error of a
    failed list: it returns nil right after a list of clusters that
    succeeded, and its only errors are the one of reading the
    configuration and the timeout; it panics only on the nil client. *)
Theorem WaitForClusterV1alpha1Ready_outcomes (w : World S) :
  match WaitForClusterV1alpha1Ready respond w with
  | Returns None w' =>
      exists s Items,
        respond (client_List KCluster noListOptions) s = (inr Items, remote w')
  | Returns (Some e) _ =>
      e = ErrWaitTimeout \/
      exists cause, e = WithMessage "error creating config for core clientset" [] cause
  | Panics r _ => r = NilPointerDereference
  end.
Proof.
  unfold WaitForClusterV1alpha1Ready, waitForClusterResourceReady. unfold bind at 1.
  destruct (call respond ctrl_GetConfig w) as [[e|] w0|r w0] eqn:Hc.
  - right. now exists e.
  - unfold bind at 1. unfold New, bind, call.
    destruct (respond ctrlclient_New (remote w0)) as [err s1]. cbv [ret].
    unfold PollImmediate.
    destruct (poll _ _ tt _) as [[e|] w2|r w2] eqn:Hpoll.
    + apply poll_error in Hpoll as [->|(l1 & w3 & b & l2 & Hp)]; [now left|].
      exfalso. cbv [stateless bind call via ret panic] in Hp.
      destruct err; [discriminate|].
      destruct (respond (client_List KCluster noListOptions) (remote w3))
        as [[e1|Items] s2]; discriminate.
    + apply poll_success in Hpoll as (l1 & w3 & l2 & Hp).
      cbv [stateless bind call via ret panic] in Hp.
      destruct err; [discriminate|].
      destruct (respond (client_List KCluster noListOptions) (remote w3))
        as [[e1|Items] s2] eqn:Hl; [discriminate|].
      inversion Hp; subst. exists (remote w3), Items. exact Hl.
    + apply poll_panic in Hpoll as (l1 & w3 & Hp).
      cbv [stateless bind call via ret panic] in Hp.
      destruct err; [now inversion Hp|].
      destruct (respond (client_List KCluster noListOptions) (remote w3))
        as [[e1|Items] s2]; discriminate.
  - unfold call in Hc. destruct (respond ctrl_GetConfig (remote w)); discriminate.
Qed.

Lemma stateless_Returns (condition : World S -> Outcome S (bool * error))
  (l l' : unit) (w w' : World S) (r : bool * error) :
  stateless condition l w = Returns (r, l') w' -> condition w = Returns r w'.
Proof.
  unfold stateless, bind, ret. destruct (condition w) as [a w1|p w1];
    intros H; inversion H; reflexivity.
Qed.

Lemma stateless_Panics (condition : World S -> Outcome S (bool * error))
  (l : unit) (w w' : World S) (r : PanicReason) :
  stateless condition l w = Panics r w' -> condition w = Panics r w'.
Proof.
  unfold stateless, bind, ret. destruct (condition w) as [a w1|p w1];
    intros H; inversion H; reflexivity.
Qed.

Lemma resourceStatusesProbe_nil_client (w : World S) :
  resourceStatusesProbe respond nilClient w = Panics NilPointerDereference w.
Proof. reflexivity. Qed.

(** A tick that reports ready has asked for all four lists, was
    answered each time, and found every listed object in order; a list
    that fails makes the tick report not-ready. *)
Lemma resourceStatusesProbe_ready_lists (w w' : World S) :
  resourceStatusesProbe respond liveClient w = Returns (true, None) w' ->
  exists clusters machineDeployments machineSets machines,
    statusListing respond (remote w)
    = (inr clusters, inr machineDeployments, inr machineSets, inr machines) /\
    clustersHaveStatus clusters = true /\
    machineDeploymentsHaveStatus machineDeployments = true /\
    machineSetsHaveStatus machineSets = true /\
    machinesHaveStatus machines = true.
Proof.
  intros H. unfold resourceStatusesProbe, via, bind, call, ret in H.
  unfold statusListing.
  destruct (respond (client_List KCluster noListOptions) (remote w)) as [r0 s0];
    simpl in H.
  destruct (respond (clientSet_List KCluster "") s0) as [[e|cs] s1];
    simpl in H; [discriminate|].
  destruct (clustersHaveStatus cs) eqn:H1; simpl in H; [|discriminate].
  destruct (respond (clientSet_List KMachineDeployment "") s1) as [[e|mds] s2];
    simpl in H; [discriminate|].
  destruct (machineDeploymentsHaveStatus mds) eqn:H2; simpl in H; [|discriminate].
  destruct (respond (clientSet_List KMachineSet "") s2) as [[e|mss] s3];
    simpl in H; [discriminate|].
  destruct (machineSetsHaveStatus mss) eqn:H3; simpl in H; [|discriminate].
  destruct (respond (clientSet_List KMachine "") s3) as [[e|ms] s4];
    simpl in H; [discriminate|].
  destruct (machinesHaveStatus ms) eqn:H4; simpl in H; [|discriminate].
  exists cs, mds, mss, ms. repeat split; assumption.
Qed.

(** X16. [WaitForResourceStatuses] returns nil only right after a tick of
    its probe in which all four lists were answered and every listed
    object was found in order, so a list that fails keeps it waiting;
    such a failure is never returned as an error either: the only errors
    are the one of reading the configuration and the timeout, and it
    panics only on the nil client. *)
Theorem WaitForResourceStatuses_outcomes (w : World S) :
  match WaitForResourceStatuses respond w with
  | Returns None w' =>
      exists w1 clusters machineDeployments machineSets machines,
        resourceStatusesProbe respond liveClient w1 = Returns (true, None) w' /\
        statusListing respond (remote w1)
        = (inr clusters, inr machineDeployments, inr machineSets, inr machines) /\
        clustersHaveStatus clusters = true /\
        machineDeploymentsHaveStatus machineDeployments = true /\
        machineSetsHaveStatus machineSets = true /\
        machinesHaveStatus machines = true
  | Returns (Some e) _ =>
      e = ErrWaitTimeout \/
      exists cause, e = WithMessage "error creating config for core clientset" [] cause
  | Panics r _ => r = NilPointerDereference
  end.
Proof.
  unfold WaitForResourceStatuses. unfold bind at 1.
  destruct (call respond ctrl_GetConfig w) as [[e|] w0|r w0] eqn:Hc.
  - right. now exists e.
  - unfold bind at 1.
    destruct (New respond w0) as [cs w1|r w1] eqn:HN.
    + unfold PollImmediate.
      destruct (poll _ _ tt w1) as [[e|] w2|r w2] eqn:Hpoll.
      * apply poll_error in Hpoll as [->|(l1 & w3 & b & l2 & Hp)]; [now left|].
        exfalso. apply stateless_Returns in Hp. destruct cs.
        -- rewrite resourceStatusesProbe_nil_client in Hp. discriminate.
        -- destruct (resourceStatusesProbe_never_fails S respond w3)
             as (ready & w4 & Hnf). rewrite Hnf in Hp. discriminate.
      * apply poll_success in Hpoll as (l1 & w3 & l2 & Hp).
        apply stateless_Returns in Hp. destruct cs.
        -- rewrite resourceStatusesProbe_nil_client in Hp. discriminate.
        -- destruct (resourceStatusesProbe_ready_lists w3 w2 Hp)
             as (clusters & mds & mss & ms & Hl & H1 & H2 & H3 & H4).
           exists w3, clusters, mds, mss, ms. repeat split; assumption.
      * apply poll_panic in Hpoll as (l1 & w3 & Hp).
        apply stateless_Panics in Hp. destruct cs.
        -- rewrite resourceStatusesProbe_nil_client in Hp. now inversion Hp.
        -- destruct (resourceStatusesProbe_never_fails S respond w3)
             as (ready & w4 & Hnf). rewrite Hnf in Hp. discriminate.
    + unfold New, bind, call in HN.
      destruct (respond ctrlclient_New (remote w0)); discriminate.
  - unfold call in Hc. destruct (respond ctrl_GetConfig (remote w)); discriminate.
Qed.

(** What is decoded into a map is added to it. *)
Lemma decodeMap_length {T : Type} (answer into : list (string * T)) :
  (0 <? length (decodeMap answer into))%nat
  = ((0 <? length answer)%nat || (0 <? length into)%nat)%bool.
Proof.
  assert (Hins : forall k (v : T) m, (0 <? length (map_insert k v m))%nat = true).
  { intros k v [|[k0 v0] m]; simpl; [reflexivity|].
    destruct (k0 =? k)%string; reflexivity. }
  assert (Hfold : forall (l m : list (string * T)),
             (0 <? length m)%nat = true ->
             (0 <? length (fold_left (fun m kv => map_insert (fst kv) (snd kv) m) l m))%nat
             = true).
  { induction l as [|kv l IH]; intros m Hm; simpl; [exact Hm|].
    apply IH, Hins. }
  unfold decodeMap. destruct answer as [|kv answer]; [reflexivity|].
  cbn [fold_left length Nat.ltb Nat.leb orb]. apply Hfold, Hins.
Qed.

(** The decoder invents no readiness and loses none: the object is ready
    after an answer exactly when the answer or the object was. *)
Lemma machineReady_decodeMachine (answer into : clusterv1.Machine) :
  machineReady (decodeMachine answer into)
  = (machineReady answer || machineReady into)%bool.
Proof.
  unfold machineReady, decodeMachine. cbn [clusterv1.Machine_Status
    clusterv1.Machine_ObjectMeta clusterv1.NodeRef decodeObjectMeta Annotations].
  rewrite decodeMap_length.
  destruct (clusterv1.NodeRef (clusterv1.Machine_Status answer)) as [a|],
    (clusterv1.NodeRef (clusterv1.Machine_Status into)) as [i|]; cbn [decodePointer];
    try reflexivity.
  - now rewrite orb_true_r.
Qed.

(** A poll that ends without error ends with a probe that said yes, in a
    state that every probe before it has kept within [Inv]. *)
Lemma poll_success_inv {L : Type} (Inv : L -> Prop) (ticks : nat)
  (condition : L -> World S -> Outcome S (bool * error * L)) (l : L)
  (w w' : World S) :
  Inv l ->
  (forall l1 w1 b e l2 w2,
     Inv l1 -> condition l1 w1 = Returns (b, e, l2) w2 -> Inv l2) ->
  poll ticks condition l w = Returns None w' ->
  exists l1 w1 l2, Inv l1 /\ condition l1 w1 = Returns (true, None, l2) w'.
Proof.
  intros Hl Hstep. revert l w Hl; induction ticks as [|n IH]; intros l w Hl;
    simpl; unfold bind;
    destruct (condition l w) as [[[[|] [e|]] l'] w1|r w1] eqn:Hc;
    unfold ret; try discriminate.
  - intros H; injection H as <-. eauto.
  - intros H; injection H as <-. eauto.
  - apply IH. exact (Hstep _ _ _ _ _ _ Hl Hc).
Qed.

(** X17. [waitForMachineReady] on a machine never returns the error of a
    failed [Get]: its only errors are the one of reading the
    configuration and the timeout, and it panics only on the nil client.
    It returns nil only right after a [Get] that was answered with a
    machine or with NotFound, and only if the machine it was handed, or
    a machine some [Get] was answered with, has a node reference or an
    annotation: the object keeps what an answer leaves out, so the
    answer it returns after need not be ready itself. *)
Theorem waitForMachineReady_outcomes (machine : clusterv1.Machine) (w : World S) :
  match waitForMachineReady respond (Some machine) w with
  | Returns None w' =>
      (exists key s,
         (exists answer,
            respond (client_Get KMachine key) s = (inr answer, remote w')) \/
         (exists e,
            respond (client_Get KMachine key) s = (inl e, remote w') /\
            IsNotFound e = true)) /\
      (machineReady machine = true \/
       exists key s answer s',
         respond (client_Get KMachine key) s = (inr answer, s') /\
         machineReady answer = true)
  | Returns (Some e) _ =>
      e = ErrWaitTimeout \/
      exists cause, e = WithMessage "error creating config for core clientset" [] cause
  | Panics r _ => r = NilPointerDereference
  end.
Proof.
  set (Inv := fun l : option clusterv1.Machine =>
         match l with
         | None => True
         | Some m =>
             machineReady m = true ->
             machineReady machine = true \/
             exists key s answer s',
               respond (client_Get KMachine key) s = (inr answer, s') /\
               machineReady answer = true
         end).
  unfold waitForMachineReady. unfold bind at 1.
  destruct (call respond ctrl_GetConfig w) as [[e|] w0|r w0] eqn:Hc.
  - right. now exists e.
  - unfold bind at 1.
    destruct (New respond w0) as [cs w1|r w1] eqn:HN.
    + unfold bind at 1.
      destruct (call respond (os_Getenv TimeoutMachineReady) w1) as [p w2|r w2] eqn:He.
      * unfold PollImmediate.
        destruct (poll _ _ (Some machine) w2) as [[e|] w3|r w3] eqn:Hpoll.
        -- apply poll_error in Hpoll as [->|(l1 & w4 & b & l2 & Hp)]; [now left|].
           exfalso. destruct l1 as [m1|]; [|discriminate].
           cbv [machineReadyProbe bind via call ret panic] in Hp.
           destruct cs; [discriminate|].
           destruct (respond (client_Get KMachine _) (remote w4)) as [[e1|m'] s5];
             [destruct (negb (IsNotFound e1))|]; discriminate.
        -- apply (poll_success_inv Inv) in Hpoll as (l1 & w4 & l2 & Hinv & Hp).
           ++ destruct l1 as [m1|]; [|discriminate].
              cbv [machineReadyProbe bind via call ret panic] in Hp.
              destruct cs; [discriminate|].
              match type of Hp with
              | context [respond (client_Get KMachine ?k) (remote w4)] =>
                  destruct (respond (client_Get KMachine k) (remote w4))
                    as [[e1|answer] s5] eqn:Hg
              end.
              ** destruct (IsNotFound e1) eqn:Hnf; cbn [negb] in Hp; [|discriminate].
                 assert (Hw : remote w3 = s5) by (inversion Hp; reflexivity).
                 assert (Hr : machineReady m1 = true) by (inversion Hp; reflexivity).
                 split; [|exact (Hinv Hr)].
                 eexists; exists (remote w4). right. exists e1.
                 rewrite Hw. split; [exact Hg | exact Hnf].
              ** cbv zeta in Hp.
                 assert (Hw : remote w3 = s5) by (inversion Hp; reflexivity).
                 assert (Hr : machineReady (decodeMachine answer m1) = true)
                   by (inversion Hp; reflexivity).
                 split.
                 --- eexists; exists (remote w4). left. exists answer.
                     rewrite Hw. exact Hg.
                 --- rewrite machineReady_decodeMachine in Hr.
                     apply orb_true_iff in Hr as [Hr|Hr]; [|exact (Hinv Hr)].
                     right. eexists; exists (remote w4), answer, s5.
                     split; [exact Hg | exact Hr].
           ++ intros Hr. now left.
           ++ intros l1 w4 b e l2 w5 Hinv Hp.
              destruct l1 as [m1|]; [|discriminate].
              cbv [machineReadyProbe bind via call ret panic] in Hp.
              destruct cs; [discriminate|].
              match type of Hp with
              | context [respond (client_Get KMachine ?k) (remote w4)] =>
                  destruct (respond (client_Get KMachine k) (remote w4))
                    as [[e1|answer] s5] eqn:Hg
              end.
              ** assert (Hl : l2 = Some m1)
                   by (destruct (negb (IsNotFound e1)); inversion Hp; reflexivity).
                 subst l2. exact Hinv.
              ** cbv zeta in Hp.
                 assert (Hl : l2 = Some (decodeMachine answer m1))
                   by (inversion Hp; reflexivity).
                 subst l2. intros Hr. rewrite machineReady_decodeMachine in Hr.
                 apply orb_true_iff in Hr as [Hr|Hr]; [|exact (Hinv Hr)].
                 right. eexists; exists (remote w4), answer, s5.
                 split; [exact Hg | exact Hr].
        -- apply poll_panic in Hpoll as (l1 & w4 & Hp).
           destruct l1 as [m1|]; [|now inversion Hp].
           cbv [machineReadyProbe bind via call ret panic] in Hp.
           destruct cs; [now inversion Hp|].
           destruct (respond (client_Get KMachine _) (remote w4)) as [[e1|m'] s5];
             [destruct (negb (IsNotFound e1))|]; discriminate.
      * unfold call in He.
        destruct (respond (os_Getenv TimeoutMachineReady) (remote w1)); discriminate.
    + unfold New, bind, call in HN.
      destruct (respond ctrlclient_New (remote w0)); discriminate.
  - unfold call in Hc. destruct (respond ctrl_GetConfig (remote w)); discriminate.
Qed.

(** X18. A machine the remote side does not know is still reported ready:
    when [Get] answers NotFound and the machine handed in carries a node
    reference or an annotation, [waitForMachineReady] returns nil after
    that one probe. *)
Theorem waitForMachineReady_ready_when_not_found (machine : clusterv1.Machine)
  (w : World S) (s0 s1 s2 s3 : S) (p : string) (e : Err) :
  respond ctrl_GetConfig (remote w) = (None, s0) ->
  respond ctrlclient_New s0 = (None, s1) ->
  respond (os_Getenv TimeoutMachineReady) s1 = (p, s2) ->
  respond (client_Get KMachine
             {| nn_Namespace := Namespace (clusterv1.Machine_ObjectMeta machine);
                nn_Name := Name (clusterv1.Machine_ObjectMeta machine) |}) s2
    = (inl e, s3) ->
  IsNotFound e = true ->
  machineReady machine = true ->
  waitForMachineReady respond (Some machine) w
  = Returns None
      {| remote := s3;
         calls := calls w ++
           [ctrl_GetConfig; ctrlclient_New; os_Getenv TimeoutMachineReady;
            client_Get KMachine
              {| nn_Namespace := Namespace (clusterv1.Machine_ObjectMeta machine);
                 nn_Name := Name (clusterv1.Machine_ObjectMeta machine) |}] |}.
Proof.
  intros Hc HN He Hg Hnf Hready.
  unfold waitForMachineReady, New, bind, call, ret.
  rewrite Hc; simpl. rewrite HN; simpl. rewrite He; simpl.
  unfold PollImmediate.
  destruct (Z.to_nat (machineReadyTimeout p / retryIntervalResourceReady));
    simpl; unfold bind, call; simpl; rewrite Hg; simpl; rewrite Hnf; simpl;
    unfold ret; rewrite Hready; rewrite <- !app_assoc; reflexivity.
Qed.

(** The object keeps what an answer leaves out: a machine that is handed
    in with a node reference or an annotation is reported ready after
    the first [Get] that is answered, whatever the answer holds. *)
Lemma waitForMachineReady_ready_whatever_the_answer (machine : clusterv1.Machine)
  (w : World S) (s0 s1 s2 s3 : S) (p : string) (answer : clusterv1.Machine) :
  respond ctrl_GetConfig (remote w) = (None, s0) ->
  respond ctrlclient_New s0 = (None, s1) ->
  respond (os_Getenv TimeoutMachineReady) s1 = (p, s2) ->
  respond (client_Get KMachine
             {| nn_Namespace := Namespace (clusterv1.Machine_ObjectMeta machine);
                nn_Name := Name (clusterv1.Machine_ObjectMeta machine) |}) s2
    = (inr answer, s3) ->
  machineReady machine = true ->
  waitForMachineReady respond (Some machine) w
  = Returns None
      {| remote := s3;
         calls := calls w ++
           [ctrl_GetConfig; ctrlclient_New; os_Getenv TimeoutMachineReady;
            client_Get KMachine
              {| nn_Namespace := Namespace (clusterv1.Machine_ObjectMeta machine);
                 nn_Name := Name (clusterv1.Machine_ObjectMeta machine) |}] |}.
Proof.
  intros Hc HN He Hg Hready.
  assert (Hm : machineReady (decodeMachine answer machine) = true)
    by (rewrite machineReady_decodeMachine, Hready; apply orb_true_r).
  unfold waitForMachineReady, New, bind, call, ret.
  rewrite Hc; simpl. rewrite HN; simpl. rewrite He; simpl.
  unfold PollImmediate.
  destruct (Z.to_nat (machineReadyTimeout p / retryIntervalResourceReady));
    simpl; unfold bind, call; simpl; rewrite Hg; simpl; unfold ret;
    fold (decodeMachine answer machine); rewrite Hm; rewrite <- !app_assoc;
    reflexivity.
Qed.

End MoreFacts.

(** ** kubectl, namespaces, the endpoint and the components store *)

Section CoreFacts.

Variable S : Type.
Variable respond : forall c : Call, S -> reply c * S.
Variable respondCore : forall c : CoreCall, S -> core_reply c * S.
Variable SplitHostPort : string -> option (string * string).
Variable NumError : string -> Err.

(** *** kubectl apply *)

Lemma afterRuns_shift (c : client) (manifest : string) (n : nat) (s : S) :
  afterRuns respondCore c manifest (Datatypes.S n) s
  = afterRuns respondCore c manifest n (afterRuns respondCore c manifest 1 s).
Proof. unfold afterRuns. now rewrite Nat.iter_succ_r. Qed.

(** One probe: a run of kubectl, then the verdict on its failure. *)
Lemma kubectlApplyProbe_run (c : client) (manifest : string) (w : World S) :
  kubectlApplyProbe respondCore c manifest w
  = Returns
      match applyFailure respondCore c manifest (remote w) with
      | None => (true, None)
      | Some f => (false, if retryable f then None else Some (ExecFailure_error f))
      end
      {| remote := afterRuns respondCore c manifest 1 (remote w); calls := calls w |}.
Proof.
  unfold kubectlApplyProbe, kubectlApply, kubectlManifestCmd, applyFailure, afterRuns,
    bind, callCore, ret. simpl.
  destruct (respondCore (exec_kubectl (buildKubectlArgs c "apply") manifest) (remote w))
    as [[out [cause|]] s']; simpl; [|reflexivity].
  unfold retryable.
  destruct (Contains _ "EOF"); simpl; [reflexivity|].
  destruct (Contains _ "refused"); simpl; [reflexivity|].
  destruct (Contains _ "no such host"); simpl; [reflexivity|].
  destruct (Contains _ "unable to recognize"); simpl; [reflexivity|].
  destruct (Contains _ defaultNamespaceNotFound); reflexivity.
Qed.

Lemma kubectl_poll_retries (c : client) (manifest : string) (k : nat) :
  forall (ticks : nat) (w : World S),
    k <= ticks ->
    (forall i, i < k ->
       exists f, applyFailure respondCore c manifest
                   (afterRuns respondCore c manifest i (remote w)) = Some f /\
                 retryable f = true) ->
    applyFailure respondCore c manifest (afterRuns respondCore c manifest k (remote w))
    = None ->
    poll ticks (stateless (kubectlApplyProbe respondCore c manifest)) tt w
    = Returns None
        {| remote := afterRuns respondCore c manifest (Datatypes.S k) (remote w);
           calls := calls w |}.
Proof.
  induction k as [|k IH]; intros ticks w Hk Hfail Hok.
  - assert (Hstep : stateless (kubectlApplyProbe respondCore c manifest) tt w
                    = Returns (true, None, tt)
                        {| remote := afterRuns respondCore c manifest 1 (remote w);
                           calls := calls w |}).
    { unfold stateless. erewrite bind_Returns; [|apply kubectlApplyProbe_run].
      simpl in Hok. rewrite Hok. reflexivity. }
    destruct ticks; simpl; (erewrite bind_Returns; [|exact Hstep]); reflexivity.
  - destruct (Hfail 0 (Nat.lt_0_succ k)) as (f & Hf & Hr). simpl in Hf.
    assert (Hstep : stateless (kubectlApplyProbe respondCore c manifest) tt w
                    = Returns (false, None, tt)
                        {| remote := afterRuns respondCore c manifest 1 (remote w);
                           calls := calls w |}).
    { unfold stateless. erewrite bind_Returns; [|apply kubectlApplyProbe_run].
      rewrite Hf, Hr. reflexivity. }
    destruct ticks as [|ticks]; [lia|].
    simpl. erewrite bind_Returns; [|exact Hstep]. cbv beta iota.
    rewrite IH.
    + cbn [remote calls]. now rewrite <- afterRuns_shift.
    + lia.
    + intros i Hi. cbn [remote]. rewrite <- afterRuns_shift. apply Hfail. lia.
    + cbn [remote]. now rewrite <- afterRuns_shift.
Qed.

(** X19. [Apply] returns a failure of kubectl that is not one of the
    transient ones at once, wrapped with the output, after that single
    run. *)
Theorem Apply_returns_a_fatal_failure_at_once (c : client) (manifest : string)
  (w : World S) (f : ExecFailure) :
  applyFailure respondCore c manifest (remote w) = Some f ->
  retryable f = false ->
  Apply respondCore c manifest w
  = Returns (Some (ExecFailure_error f))
      {| remote := afterRuns respondCore c manifest 1 (remote w); calls := calls w |}.
Proof.
  intros Hf Hr. unfold Apply, waitForKubectlApply, PollImmediate.
  assert (Hstep : stateless (kubectlApplyProbe respondCore c manifest) tt w
                  = Returns (false, Some (ExecFailure_error f), tt)
                      {| remote := afterRuns respondCore c manifest 1 (remote w);
                         calls := calls w |}).
  { unfold stateless. erewrite bind_Returns; [|apply kubectlApplyProbe_run].
    rewrite Hf, Hr. reflexivity. }
  destruct (Z.to_nat (timeoutKubectlApply / retryIntervalKubectlApply)); simpl;
    (erewrite bind_Returns; [|exact Hstep]); reflexivity.
Qed.

(** X20. [Apply] runs kubectl again after each transient failure
    (connection refused or closed, unknown host, kind not recognized,
    default namespace missing): when the first [k] runs fail that way,
    [k] at most 90, and the next one succeeds, it returns nil after these
    [k + 1] runs. *)
Theorem Apply_retries_transient_failures (c : client) (manifest : string)
  (w : World S) (k : nat) :
  k <= 90 ->
  (forall i, i < k ->
     exists f, applyFailure respondCore c manifest
                 (afterRuns respondCore c manifest i (remote w)) = Some f /\
               retryable f = true) ->
  applyFailure respondCore c manifest (afterRuns respondCore c manifest k (remote w))
  = None ->
  Apply respondCore c manifest w
  = Returns None
      {| remote := afterRuns respondCore c manifest (Datatypes.S k) (remote w);
         calls := calls w |}.
Proof.
  intros Hk Hfail Hok. unfold Apply, waitForKubectlApply, PollImmediate.
  apply kubectl_poll_retries; [|assumption|assumption].
  replace (Z.to_nat (timeoutKubectlApply / retryIntervalKubectlApply)) with 90
    by reflexivity.
  exact Hk.
Qed.

(** *** Namespaces *)

(** X21. The namespace calls are forgiving: [DeleteNamespace] leaves the
    namespace [default] alone, without a single call; for any other
    namespace it treats NotFound as success, and [EnsureNamespace] treats
    AlreadyExists as success. *)
Theorem namespaces_are_ensured_and_deleted_idempotently (name : string)
  (w w0 : World S) :
  dial respond w = Returns (None, liveClient) w0 ->
  DeleteNamespace respond respondCore "default" w = Returns None w /\
  (forall e s1,
     name <> "default" ->
     respondCore (namespace_Delete name) (remote w0) = (Some e, s1) ->
     IsNotFound e = true ->
     DeleteNamespace respond respondCore name w
     = Returns None {| remote := s1; calls := calls w0 |}) /\
  (forall e s1,
     respondCore (namespace_Create name) (remote w0) = (Some e, s1) ->
     IsAlreadyExists e = true ->
     EnsureNamespace respond respondCore name w
     = Returns None {| remote := s1; calls := calls w0 |}).
Proof.
  intros Hdial. split; [reflexivity|].
  destruct (dial_built S respond w w0 Hdial) as (s0 & s1' & Hc & HN & ->).
  split.
  - intros e s1 Hname Hdel Hnf. apply String.eqb_neq in Hname.
    unfold DeleteNamespace, NamespaceDefault. rewrite Hname.
    unfold New, viaCore, callCore, bind, call, ret.
    rewrite Hc. cbn [remote calls]. rewrite HN. cbn [remote calls]. cbv beta iota.
    cbn [remote calls].
    cbn [remote] in Hdel. rewrite Hdel. cbv beta iota. rewrite Hnf. reflexivity.
  - intros e s1 Hcreate Hex.
    unfold EnsureNamespace, New, viaCore, callCore, bind, call, ret.
    rewrite Hc. cbn [remote calls]. rewrite HN. cbn [remote calls]. cbv beta iota.
    cbn [remote calls].
    cbn [remote] in Hcreate. rewrite Hcreate. cbv beta iota. rewrite Hex. reflexivity.
Qed.

(** *** The endpoint of a cluster *)

(** X22. [UpdateClusterObjectEndpoint] does not check the cluster that
    [GetCluster] hands back: for a cluster that does not exist (the nil
    cluster, no error) and an endpoint whose port, if it has one, is a
    number, it panics with a nil pointer dereference. *)
Theorem UpdateClusterObjectEndpoint_panics_on_absent_cluster
  (clusterEndpoint clusterName namespace : string) (w w0 w1 : World S) :
  dial respond w = Returns (None, liveClient) w0 ->
  GetCluster respond clusterName namespace w0 = Returns (None, None) w1 ->
  (forall host port,
     SplitHostPort clusterEndpoint = Some (host, port) -> Atoi port <> None) ->
  UpdateClusterObjectEndpoint respond respondCore SplitHostPort NumError
    clusterEndpoint clusterName namespace w
  = Panics NilPointerDereference w1.
Proof.
  intros Hdial Hget Hport.
  unfold UpdateClusterObjectEndpoint.
  unfold dial in Hdial. unfold bind at 1. unfold bind at 1 in Hdial.
  destruct (call respond ctrl_GetConfig w) as [[e|] wa|r wa];
    [discriminate | | discriminate].
  unfold bind at 1. unfold bind at 1 in Hdial.
  destruct (New respond wa) as [cs wb|r wb]; [|discriminate].
  unfold ret in Hdial. injection Hdial as -> ->.
  erewrite bind_Returns; [|exact Hget]. cbv beta iota.
  destruct (SplitHostPort clusterEndpoint) as [[host port]|] eqn:Hsplit.
  - specialize (Hport host port eq_refl).
    destruct (Atoi port); [reflexivity | now elim Hport].
  - reflexivity.
Qed.

(** X23. When the endpoint has no port that [net.SplitHostPort] can split
    off, [UpdateClusterObjectEndpoint] takes the whole text as the host
    and 443 as the port; the endpoint is added after the ones the cluster
    already has, and the result of the status update is returned as it
    is. *)
Theorem UpdateClusterObjectEndpoint_defaults_the_port
  (clusterEndpoint clusterName namespace : string) (w w0 w1 : World S)
  (cluster : clusterv1.Cluster) :
  dial respond w = Returns (None, liveClient) w0 ->
  GetCluster respond clusterName namespace w0 = Returns (Some cluster, None) w1 ->
  SplitHostPort clusterEndpoint = None ->
  exists sent,
    UpdateClusterObjectEndpoint respond respondCore SplitHostPort NumError
      clusterEndpoint clusterName namespace w
    = (let (err, s2) := respondCore (status_Update sent) (remote w1) in
       Returns err {| remote := s2; calls := calls w1 |}) /\
    clusterv1.APIEndpoints (clusterv1.Cluster_Status sent)
    = Some (match clusterv1.APIEndpoints (clusterv1.Cluster_Status cluster) with
            | Some endpoints => endpoints
            | None => []
            end ++ [{| clusterv1.Host := clusterEndpoint; clusterv1.Port := 443 |}]) /\
    clusterv1.Cluster_ObjectMeta sent = clusterv1.Cluster_ObjectMeta cluster.
Proof.
  intros Hdial Hget Hsplit.
  exists (appendAPIEndpoint
            {| clusterv1.Host := clusterEndpoint; clusterv1.Port := 443 |} cluster).
  split; [|split; [|reflexivity]].
  - unfold UpdateClusterObjectEndpoint.
    unfold dial in Hdial. unfold bind at 1. unfold bind at 1 in Hdial.
    destruct (call respond ctrl_GetConfig w) as [[e|] wa|r wa];
      [discriminate | | discriminate].
    unfold bind at 1. unfold bind at 1 in Hdial.
    destruct (New respond wa) as [cs wb|r wb]; [|discriminate].
    unfold ret in Hdial. injection Hdial as -> ->.
    erewrite bind_Returns; [|exact Hget]. cbv beta iota.
    rewrite Hsplit. reflexivity.
  - unfold appendAPIEndpoint; simpl.
    destruct (clusterv1.APIEndpoints (clusterv1.Cluster_Status cluster)); reflexivity.
Qed.

(** *** The provider components store *)

Lemma map_lookup_insert {T : Type} (key k : string) (v : T) (m : list (string * T)) :
  map_lookup k (map_insert key v m)
  = if (k =? key)%string then Some v else map_lookup k m.
Proof.
  induction m as [|[k0 v0] m IH]; simpl.
  - rewrite (String.eqb_sym key k). reflexivity.
  - destruct (k0 =? key)%string eqn:E0; simpl.
    + apply String.eqb_eq in E0. subst k0. rewrite (String.eqb_sym key k).
      destruct (k =? key)%string; reflexivity.
    + destruct (k0 =? k)%string eqn:E1; [|exact IH].
      apply String.eqb_eq in E1. subst k0. now rewrite E0.
Qed.

(** X24. Saving the provider components into a config map that exists
    updates it and loses nothing: the config map sent has the metadata of
    the one fetched, holds the components under the key
    [provider-components], and every other key as before. *)
Theorem saveToConfigMap_keeps_the_other_keys (providerComponents : string)
  (w : World S) (configMap : ConfigMap) (s1 : S) :
  respondCore (configMap_Get {| nn_Namespace := "default"; nn_Name := "clusterctl" |})
    (remote w) = (inr configMap, s1) ->
  exists sent data,
    saveToConfigMap respondCore providerComponents w
    = (let (err, s2) := respondCore (configMap_Update sent) s1 in
       Returns
         match err with
         | Some e => Some (WithMessage "error updating config map %q" ["clusterctl"] e)
         | None => None
         end {| remote := s2; calls := calls w |}) /\
    ConfigMap_ObjectMeta sent = ConfigMap_ObjectMeta configMap /\
    Data sent = Some data /\
    forall k,
      map_lookup k data
      = if (k =? "provider-components")%string then Some providerComponents
        else match Data configMap with
             | Some old => map_lookup k old
             | None => None
             end.
Proof.
  intros Hget.
  exists {| ConfigMap_ObjectMeta := ConfigMap_ObjectMeta configMap;
            Data := Some (map_insert configMapProviderComponentsKey providerComponents
                            (match Data configMap with Some d => d | None => [] end)) |}.
  eexists; split; [|split; [|split]].
  - unfold saveToConfigMap, bind, callCore, ret. unfold NamespaceDefault, configMapName.
    rewrite Hget. cbv beta iota. cbn [remote calls].
    destruct (respondCore (configMap_Update _) s1) as [[e|] s2]; reflexivity.
  - reflexivity.
  - reflexivity.
  - intros k. rewrite map_lookup_insert. unfold configMapProviderComponentsKey.
    destruct (k =? "provider-components")%string; [reflexivity|].
    destruct (Data configMap); reflexivity.
Qed.

(** X25. When the config map does not exist, saving creates it, holding
    only the components; any other failure of the get is returned wrapped
    and nothing is written. *)
Theorem saveToConfigMap_creates_when_absent (providerComponents : string)
  (w : World S) (e : Err) (s1 : S) :
  respondCore (configMap_Get {| nn_Namespace := "default"; nn_Name := "clusterctl" |})
    (remote w) = (inl e, s1) ->
  saveToConfigMap respondCore providerComponents w
  = if IsNotFound e then
      let (err, s2) :=
        respondCore
          (configMap_Create
             {| ConfigMap_ObjectMeta := mkMeta "clusterctl" "";
                Data := Some [("provider-components", providerComponents)] |}) s1 in
      Returns
        match err with
        | Some e' => Some (WithMessage "error creating config map %q" ["clusterctl"] e')
        | None => None
        end {| remote := s2; calls := calls w |}
    else
      Returns (Some (WithMessage "unable to get configmap %q" ["clusterctl"] e))
        {| remote := s1; calls := calls w |}.
Proof.
  intros Hget.
  unfold saveToConfigMap, bind, callCore, ret. unfold NamespaceDefault, configMapName.
  rewrite Hget. cbv beta iota.
  destruct (IsNotFound e); [|reflexivity].
  cbv beta iota zeta. cbn [remote calls]. unfold mkMeta, configMapProviderComponentsKey.
  cbn [map_insert].
  destruct (respondCore (configMap_Create _) s1) as [[e'|] s2]; reflexivity.
Qed.

End CoreFacts.

(** ** The latch of the machine creator *)

Section LatchFacts.

Variable S : Type.
Variable respond : forall c : Call, S -> reply c * S.

Lemma nth_error_taken {A : Type} (l : list A) (i : nat) (x : A) :
  nth_error l i = Some x ->
  exists before after,
    l = before ++ x :: after /\
    firstn i l = before /\ skipn (Datatypes.S i) l = after.
Proof.
  intros H. exists (firstn i l), (skipn (Datatypes.S i) l).
  split; [now apply nth_error_parts | now split].
Qed.

Lemma stepsToEnd_positive (position : UnitAt) : (1 <= stepsToEnd position)%nat.
Proof. destruct position; simpl; lia. Qed.

Lemma pendingCreates_app (namespace : string) (l1 l2 : list UnitAt) :
  pendingCreates namespace (l1 ++ l2)
  = pendingCreates namespace l1 ++ pendingCreates namespace l2.
Proof. unfold pendingCreates. apply flat_map_app. Qed.

Lemma pendingCreates_atCreate (namespace : string) (l : list clusterv1.Machine) :
  pendingCreates namespace (map atCreate l)
  = map (fun x => client_Create KMachine (setMachineNamespace namespace x)) l.
Proof. induction l as [|x l IH]; simpl; [reflexivity | now rewrite <- IH]. Qed.

(** What holds of a goroutine depends on the shared variables only
    through [err], and stays true when [err] is assigned a refusal. *)
Lemma refusedAt_same_err {namespace : string} {machines : list clusterv1.Machine}
  (v v1 : Shared) (position : UnitAt) :
  shared_err v1 = shared_err v ->
  refusedAt respond namespace machines v position ->
  refusedAt respond namespace machines v1 position.
Proof. intros E; destruct position; simpl; try rewrite E; trivial. Qed.

Lemma refusedAt_new_err {namespace : string} {machines : list clusterv1.Machine}
  (v v1 : Shared) (position : UnitAt) (e : Err) :
  shared_err v1 = Some e -> refusal respond namespace machines e ->
  refusedAt respond namespace machines v position ->
  refusedAt respond namespace machines v1 position.
Proof.
  intros E He; destruct position; simpl; trivial; intros _; exists e; now split.
Qed.

(** While every create is refused, every schedule ends: every create
    that was still to come has been sent, and the latch is shut on one
    of the refusals. *)
Lemma interleave_all_refused (namespace : string)
  (machines : list clusterv1.Machine)
  (Hrefuse : forall s x, exists e s',
      respond (client_Create KMachine x) s = (inl e, s'))
  (steps : nat) :
  forall (schedule : list nat) (units : list UnitAt) (v : Shared) (w : World S),
    Forall (refusedAt respond namespace machines v) units ->
    (list_sum (map stepsToEnd units) <= steps)%nat ->
    latched respond namespace machines v ->
    exists v' w' sent,
      interleave respond liveClient namespace steps schedule units v w
      = Returns v' w' /\
      calls w' = calls w ++ sent /\
      Permutation sent (pendingCreates namespace units) /\
      latched respond namespace machines v' /\
      (errOnce_done (shared_latch v) = true ->
       errOnce_done (shared_latch v') = true) /\
      (units <> [] -> errOnce_done (shared_latch v') = true).
Proof.
  induction steps as [|steps IH]; intros schedule units v w Hall Hsum Hlatch;
    destruct units as [|u0 units].
  - exists v, w, []. cbn. rewrite app_nil_r.
    repeat split; auto; try (intros H; now contradiction H).
  - simpl in Hsum. pose proof (stepsToEnd_positive u0). lia.
  - exists v, w, []. cbn. rewrite app_nil_r.
    repeat split; auto; try (intros H; now contradiction H).
  - cbn [interleave].
    remember (u0 :: units) as l eqn:Hl.
    assert (Hi : (hd 0 schedule mod length l < length l)%nat)
      by (apply Nat.mod_upper_bound; subst l; discriminate).
    clear Hl u0 units.
    remember (hd 0 schedule mod length l)%nat as i eqn:Ei. clear Ei.
    destruct (nth_error l i) as [position|] eqn:Hu;
      [|apply nth_error_None in Hu; lia].
    destruct (nth_error_taken l i position Hu) as (before & after & -> & -> & ->).
    clear Hu Hi.
    apply Forall_app in Hall as [Hbefore Hall].
    inversion Hall as [|? ? Hpos Hafter]; subst. clear Hall.
    rewrite map_app, list_sum_app in Hsum. cbn [map list_sum] in Hsum.
    rewrite pendingCreates_app.
    change (position :: after) with ([position] ++ after).
    rewrite (pendingCreates_app namespace [position] after).
    destruct position as [machine|result| | | | |cs|cs p|err];
      cbn [refusedAt] in Hpos; try contradiction.
    + (* the create is sent and refused *)
      cbn [createMachineUnit via]. unfold bind at 1. unfold bind at 1. unfold call.
      destruct (Hrefuse (remote w) (setMachineNamespace namespace machine))
        as (e & s' & Hr).
      rewrite Hr. cbn [ret resumed].
      destruct (IH (tl schedule) (before ++ [atAssign (Some e)] ++ after) v
                  {| remote := s';
                     calls := calls w ++
                       [client_Create KMachine (setMachineNamespace namespace machine)] |})
        as (v' & w' & sent & Hrun & Hcalls & Hperm & Hl' & Hmono & Hdone).
      * apply Forall_app; split; [exact Hbefore|].
        constructor; [|exact Hafter].
        exists e; split; [reflexivity|]. exists machine, (remote w), s'. now split.
      * rewrite !map_app, !list_sum_app. simpl in Hsum |- *. lia.
      * exact Hlatch.
      * exists v', w',
          (client_Create KMachine (setMachineNamespace namespace machine) :: sent).
        split; [exact Hrun|]. split; [|split; [|split; [exact Hl'|split]]].
        -- cbn [calls] in Hcalls. rewrite Hcalls, <- app_assoc. reflexivity.
        -- rewrite !pendingCreates_app in Hperm. cbn [pendingCreates flat_map app] in *.
           now apply Permutation_cons_app.
        -- exact Hmono.
        -- intros _. apply Hdone. intros H. apply app_eq_nil in H as [_ H].
           discriminate.
    + (* [err] is assigned the refusal *)
      destruct Hpos as (e & -> & He).
      cbn [createMachineUnit]. unfold bind at 1. cbn [ret resumed].
      destruct (IH (tl schedule) (before ++ [atTest] ++ after)
                  {| shared_err := Some e; shared_latch := shared_latch v |} w)
        as (v' & w' & sent & Hrun & Hcalls & Hperm & Hl' & Hmono & Hdone).
      * apply Forall_app; split.
        -- eapply Forall_impl; [|exact Hbefore].
           intros u. now apply (refusedAt_new_err v _ u e).
        -- constructor; [exists e; now split|].
           eapply Forall_impl; [|exact Hafter].
           intros u. now apply (refusedAt_new_err v _ u e).
      * rewrite !map_app, !list_sum_app. simpl in Hsum |- *. lia.
      * exact Hlatch.
      * exists v', w', sent.
        split; [exact Hrun|]. split; [exact Hcalls|].
        split; [|split; [exact Hl'|split]].
        -- rewrite !pendingCreates_app in Hperm.
           cbn [pendingCreates flat_map app] in *. exact Hperm.
        -- exact Hmono.
        -- intros _. apply Hdone. intros H. apply app_eq_nil in H as [_ H].
           discriminate.
    + (* [err] is tested: it holds a refusal *)
      destruct Hpos as (e & He & Hr).
      cbn [createMachineUnit]. rewrite He. unfold bind at 1. cbn [ret resumed].
      destruct (IH (tl schedule) (before ++ [atDo] ++ after) v w)
        as (v' & w' & sent & Hrun & Hcalls & Hperm & Hl' & Hmono & Hdone).
      * apply Forall_app; split; [exact Hbefore|].
        constructor; [exists e; now split | exact Hafter].
      * rewrite !map_app, !list_sum_app. simpl in Hsum |- *. lia.
      * exact Hlatch.
      * exists v', w', sent.
        split; [exact Hrun|]. split; [exact Hcalls|].
        split; [|split; [exact Hl'|split]].
        -- rewrite !pendingCreates_app in Hperm.
           cbn [pendingCreates flat_map app] in *. exact Hperm.
        -- exact Hmono.
        -- intros _. apply Hdone. intros H. apply app_eq_nil in H as [_ H].
           discriminate.
    + (* the latch *)
      destruct Hpos as (e & He & Hr).
      cbn [createMachineUnit]. rewrite He. unfold bind at 1. cbn [ret resumed].
      set (v1 := {| shared_err := Some e;
                    shared_latch :=
                      errOnce_Do
                        (Wrapf e "error creating a machine object in namespace %v"
                           [namespace]) (shared_latch v) |}).
      assert (Hdone1 : errOnce_done (shared_latch v1) = true).
      { unfold v1, errOnce_Do; cbn [shared_latch].
        destruct (errOnce_done (shared_latch v)) eqn:Hd; [exact Hd | reflexivity]. }
      destruct (IH (tl schedule) (before ++ [] ++ after) v1 w)
        as (v' & w' & sent & Hrun & Hcalls & Hperm & Hl' & Hmono & Hdone).
      * apply Forall_app; split.
        -- eapply Forall_impl; [|exact Hbefore].
           intros u. now apply (refusedAt_new_err v v1 u e).
        -- eapply Forall_impl; [|exact Hafter].
           intros u. now apply (refusedAt_new_err v v1 u e).
      * rewrite !map_app, !list_sum_app. simpl in Hsum |- *. lia.
      * intros _. unfold v1, errOnce_Do; cbn [shared_latch].
        destruct (errOnce_done (shared_latch v)) eqn:Hd.
        -- now apply Hlatch.
        -- exists e. now split.
      * exists v', w', sent.
        split; [exact Hrun|]. split; [exact Hcalls|].
        split; [|split; [exact Hl'|split]].
        -- rewrite !pendingCreates_app in Hperm.
           cbn [pendingCreates flat_map app] in *. exact Hperm.
        -- intros _. now apply Hmono.
        -- intros _. now apply Hmono.
Qed.

(** X26. The latch of [CreateMachines], whatever the schedule: when the
    remote side refuses every create, every machine of the list has its
    create sent once, in the given namespace and in the order the
    scheduler makes, and the error returned is the refusal of one of
    the machines, wrapped.  It need not be that of the first machine of
    the list, nor that of the goroutine which shut the latch: what is
    wrapped is what [err] holds by then. *)
Theorem CreateMachines_returns_one_of_the_errors_when_every_create_fails
  (schedule : list nat) (machine : clusterv1.Machine)
  (machines : list clusterv1.Machine) (namespace : string) (w w0 : World S) :
  dial respond w = Returns (None, liveClient) w0 ->
  (forall s x, exists e s', respond (client_Create KMachine x) s = (inl e, s')) ->
  exists x e s s' w' sent,
    In x (machine :: machines) /\
    respond (client_Create KMachine (setMachineNamespace namespace x)) s
      = (inl e, s') /\
    CreateMachines respond schedule (machine :: machines) namespace w
    = Returns
        (Some (WithMessage "error creating a machine object in namespace %v"
                 [namespace] e)) w' /\
    calls w' = calls w0 ++ sent /\
    Permutation sent
      (map (fun x => client_Create KMachine (setMachineNamespace namespace x))
         (machine :: machines)).
Proof.
  intros Hdial Hrefuse.
  destruct (dial_built S respond w w0 Hdial) as (s0 & s1 & Hc & HN & ->).
  destruct (interleave_all_refused namespace (machine :: machines) Hrefuse
              (unitSteps * length (machine :: machines)) schedule
              (map atCreate (machine :: machines))
              {| shared_err := None;
                 shared_latch := {| errOnce_done := false; gerr := None |} |}
              {| remote := s1;
                 calls := (calls w ++ [ctrl_GetConfig]) ++ [ctrlclient_New] |})
    as (v' & w' & sent & Hrun & Hcalls & Hperm & Hlatch & _ & Hdone).
  - apply Forall_forall. intros u Hu. apply in_map_iff in Hu as (x & <- & Hx).
    exact Hx.
  - rewrite map_map. cbn [stepsToEnd]. unfold unitSteps.
    generalize (machine :: machines). intros l.
    induction l as [|x l IHl]; simpl in *; lia.
  - intros Hd. discriminate Hd.
  - destruct (Hlatch (Hdone ltac:(discriminate))) as (e & (x & s & s' & Hx & Hr) & Hg).
    exists x, e, s, s', w', sent.
    split; [exact Hx|]. split; [exact Hr|]. split; [|split].
    + unfold CreateMachines, bind, call. rewrite Hc. cbn [remote calls].
      rewrite HN. cbn [remote calls]. rewrite Hrun. unfold ret. now rewrite Hg.
    + exact Hcalls.
    + now rewrite pendingCreates_atCreate in Hperm.
Qed.

End LatchFacts.

(** ** More instances *)

Lemma CreateClusterObject_instance :
  exists sent err w',
    CreateClusterObject snapshot noOverrides (mkCluster "c2" "" readyClusterStatus)
      (start emptySnapshot) = Returns err w' /\
    Namespace (clusterv1.Cluster_ObjectMeta sent) = "default" /\
    calls w' = [ctrl_GetConfig; ctrlclient_New; client_Create KCluster sent].
Proof.
  destruct (CreateClusterObject_defaults_the_namespace Snapshot snapshot noOverrides
              (mkCluster "c2" "" readyClusterStatus) (start emptySnapshot) _ eq_refl)
    as (sent & err & w' & Hrun & Hcalls & Hne & Hname & Hsame & Hdef).
  exists sent, err, w'. split; [exact Hrun|]. split; [exact (Hdef eq_refl) | exact Hcalls].
Defined.

Lemma GetClusterAPIObject_first_control_plane_instance :
  exists nodes w',
    GetClusterAPIObject snapshot "c1" "default" (start threeMachines)
    = Returns (Some c1, Some m2, nodes, None) w' /\
    nodes = [m1] /\ ~ In m3 nodes.
Proof.
  destruct (proj2 (GetClusterAPIObject_takes_the_first_control_plane Snapshot snapshot
                     "c1" "default" (start threeMachines) _ _ [m1; m2; m3] (Some c1)
                     eq_refl eq_refl) m2 [m3] eq_refl)
    as (nodes & Hrun & Hnodes & Hdropped).
  exists nodes. eexists. split; [exact Hrun|]. split; [exact Hnodes|].
  apply Hdropped. now left.
Defined.

Lemma GetClusterAPIObject_nil_cluster_instance :
  exists controlPlane nodes w',
    GetClusterAPIObject snapshot "c9" "default" (start threeMachines)
    = Returns (None, Some controlPlane, nodes, None) w'.
Proof.
  destruct (GetClusterAPIObject_returns_nil_cluster_without_error Snapshot snapshot
              "c9" "default" (start threeMachines) _ _ [m1; m2; m3] [c1]
              eq_refl eq_refl) as (controlPlane & nodes & Hrun).
  - intros nc [<-|[]]. simpl. discriminate.
  - reflexivity.
  - exists controlPlane, nodes. eexists. exact Hrun.
Defined.

Lemma ForceDeleteMachineSet_instance :
  ForceDeleteMachineSet snapshot "default" "ms9" (start populated)
  = Returns
      (Some (WithMessage "error getting Machine %s/%s" ["default"; "ms9"]
               (StatusError StatusReasonNotFound "ms9")))
      {| remote := populated;
         calls := [ctrl_GetConfig; ctrlclient_New;
                   client_Get KMachineSet
                     {| nn_Namespace := "default"; nn_Name := "ms9" |}] |} /\
  exists err w',
    ForceDeleteMachineSet snapshot "default" "ms1" (start populated) = Returns err w' /\
    calls w'
    = [ctrl_GetConfig; ctrlclient_New;
       client_Get KMachineSet {| nn_Namespace := "default"; nn_Name := "ms1" |};
       client_Update KMachineSet (setMachineSetFinalizers [] ms1);
       client_Delete KMachineSet (setMachineSetFinalizers [] ms1)
         (Some DeletePropagationForeground)].
Proof.
  split.
  - apply (proj1 (ForceDeleteMachineSet_clears_finalizers_then_deletes Snapshot snapshot
                    "default" "ms9" (start populated) _ eq_refl)).
    reflexivity.
  - apply (proj2 (ForceDeleteMachineSet_clears_finalizers_then_deletes Snapshot snapshot
                    "default" "ms1" (start populated) _ eq_refl)
             ms1 populated (setMachineSetFinalizers [] ms1) populated eq_refl eq_refl).
Defined.

Lemma ForceDeleteMachineDeployment_instance :
  ForceDeleteMachineDeployment snapshot "default" "md9" (start populated)
  = Returns
      (Some (WithMessage "error getting Machine %s/%s" ["default"; "md9"]
               (StatusError StatusReasonNotFound "md9")))
      {| remote := populated;
         calls := [ctrl_GetConfig; ctrlclient_New;
                   client_Get KMachineDeployment
                     {| nn_Namespace := "default"; nn_Name := "md9" |}] |} /\
  exists err w',
    ForceDeleteMachineDeployment snapshot "default" "md1" (start populated)
    = Returns err w' /\
    calls w'
    = [ctrl_GetConfig; ctrlclient_New;
       client_Get KMachineDeployment {| nn_Namespace := "default"; nn_Name := "md1" |};
       client_Update KMachineDeployment (setMachineDeploymentFinalizers [] md1);
       client_Delete KMachineDeployment (setMachineDeploymentFinalizers [] md1)
         (Some DeletePropagationForeground)].
Proof.
  split.
  - apply (proj1 (ForceDeleteMachineDeployment_clears_finalizers_then_deletes
                    Snapshot snapshot "default" "md9" (start populated) _ eq_refl)).
    reflexivity.
  - apply (proj2 (ForceDeleteMachineDeployment_clears_finalizers_then_deletes
                    Snapshot snapshot "default" "md1" (start populated) _ eq_refl)
             md1 populated (setMachineDeploymentFinalizers [] md1) populated
             eq_refl eq_refl).
Defined.

Lemma DeleteMachineClasses_instance :
  DeleteMachineClasses snapshot 3 "default" (start emptySnapshot)
  = Returns None
      {| remote := emptySnapshot;
         calls := [ctrl_GetConfig; ctrlclient_New; ctrl_GetConfig; ctrlclient_New;
                   ctrl_GetConfig; ctrlclient_New] |} /\
  DeleteMachineClasses snapshot 3 "default" (start emptySnapshot)
  <> Returns (Some None) (start emptySnapshot).
Proof.
  split; [reflexivity|].
  apply (DeleteMachineClasses_never_succeeds_in_a_namespace Snapshot snapshot 3 "default"
           (start emptySnapshot) (start emptySnapshot)).
  discriminate.
Defined.

Lemma DeleteClusters_refusal_instance :
  DeleteClusters snapshot "default" (start populated)
  = Returns
      (Some (WithMessage "error deleting Clusters in namespace %q" ["default"]
               nilObjectRefused))
      {| remote := populated;
         calls := [ctrl_GetConfig; ctrlclient_New; client_DeleteList KCluster None] |}.
Proof.
  apply (DeleteClusters_returns_the_refusal_of_the_nil_list Snapshot snapshot
           "default" (start populated)
           {| remote := populated; calls := [ctrl_GetConfig; ctrlclient_New] |}
           nilObjectRefused populated).
  - discriminate.
  - reflexivity.
  - reflexivity.
Defined.

Lemma DeleteMachineSets_refusal_instance :
  DeleteMachineSets snapshot "default" (start populated)
  = Returns
      (Some (WithMessage "error deleting MachineSets in namespace %q" ["default"]
               nilObjectRefused))
      {| remote := populated;
         calls := [ctrl_GetConfig; ctrlclient_New;
                   client_DeleteList KMachineSet None] |}.
Proof.
  apply (DeleteMachineSets_returns_the_refusal_of_the_nil_list Snapshot snapshot
           "default" (start populated)
           {| remote := populated; calls := [ctrl_GetConfig; ctrlclient_New] |}
           nilObjectRefused populated).
  - discriminate.
  - reflexivity.
  - reflexivity.
Defined.

Lemma DeleteMachineDeployments_refusal_instance :
  DeleteMachineDeployments snapshot "default" (start populated)
  = Returns
      (Some (WithMessage "error deleting MachineDeployments in namespace %q"
               ["default"] nilObjectRefused))
      {| remote := populated;
         calls := [ctrl_GetConfig; ctrlclient_New;
                   client_DeleteList KMachineDeployment None] |}.
Proof.
  apply (DeleteMachineDeployments_returns_the_refusal_of_the_nil_list Snapshot
           snapshot "default" (start populated)
           {| remote := populated; calls := [ctrl_GetConfig; ctrlclient_New] |}
           nilObjectRefused populated).
  - discriminate.
  - reflexivity.
  - reflexivity.
Defined.

Lemma waitForMachineReady_not_found_instance :
  waitForMachineReady snapshot (Some annotated) (start emptySnapshot)
  = Returns None
      {| remote := emptySnapshot;
         calls := [ctrl_GetConfig; ctrlclient_New; os_Getenv TimeoutMachineReady;
                   client_Get KMachine
                     {| nn_Namespace := "default"; nn_Name := "m7" |}] |}.
Proof.
  apply (waitForMachineReady_ready_when_not_found Snapshot snapshot annotated
           (start emptySnapshot) emptySnapshot emptySnapshot emptySnapshot emptySnapshot
           "" (StatusError StatusReasonNotFound "m7"));
    reflexivity.
Defined.

Lemma Apply_fatal_instance :
  Apply rejectingKubectl noOverrides "kind: Cluster" (start 0)
  = Returns
      (Some (WithMessage "couldn't kubectl apply, output: %s"
               ["error: error validating data"] (ErrorString "exit status 1")))
      {| remote := 1; calls := [] |}.
Proof.
  apply (Apply_returns_a_fatal_failure_at_once nat rejectingKubectl noOverrides
           "kind: Cluster" (start 0)
           {| ef_output := "error: error validating data";
              ef_cause := "exit status 1" |});
    reflexivity.
Defined.

Lemma Apply_retries_instance :
  Apply startingServer noOverrides "kind: Cluster" (start 0)
  = Returns None {| remote := 3; calls := [] |}.
Proof.
  apply (Apply_retries_transient_failures nat startingServer noOverrides
           "kind: Cluster" (start 0) 2).
  - lia.
  - intros [|[|i]] Hi; [| |lia]; eexists; split; reflexivity.
  - reflexivity.
Defined.

Lemma namespaces_instance :
  DeleteNamespace snapshot snapshotCore "staging" (start emptySnapshot)
  = Returns None
      {| remote := emptySnapshot; calls := [ctrl_GetConfig; ctrlclient_New] |} /\
  EnsureNamespace snapshot snapshotCore "default" (start emptySnapshot)
  = Returns None
      {| remote := emptySnapshot; calls := [ctrl_GetConfig; ctrlclient_New] |}.
Proof.
  split.
  - apply (proj1 (proj2 (namespaces_are_ensured_and_deleted_idempotently
                           Snapshot snapshot snapshotCore "staging"
                           (start emptySnapshot) _ eq_refl))
             (StatusError StatusReasonNotFound "staging") emptySnapshot).
    + discriminate.
    + reflexivity.
    + reflexivity.
  - apply (proj2 (proj2 (namespaces_are_ensured_and_deleted_idempotently
                           Snapshot snapshot snapshotCore "default"
                           (start emptySnapshot) _ eq_refl))
             (StatusError StatusReasonAlreadyExists "default") emptySnapshot);
      reflexivity.
Defined.

Lemma UpdateClusterObjectEndpoint_absent_instance :
  UpdateClusterObjectEndpoint snapshot snapshotCore splitAtColon ErrorString
    "10.0.0.1:6443" "c9" "default" (start populated)
  = Panics NilPointerDereference
      {| remote := populated;
         calls := [ctrl_GetConfig; ctrlclient_New; ctrl_GetConfig; ctrlclient_New;
                   client_List KCluster
                     {| lo_Namespace := "default"; lo_LabelSelector := "" |}] |}.
Proof.
  apply (UpdateClusterObjectEndpoint_panics_on_absent_cluster Snapshot snapshot
           snapshotCore splitAtColon ErrorString "10.0.0.1:6443" "c9" "default"
           (start populated)
           {| remote := populated; calls := [ctrl_GetConfig; ctrlclient_New] |}).
  - reflexivity.
  - reflexivity.
  - intros host port H. vm_compute in H. injection H as _ <-. discriminate.
Defined.

Lemma UpdateClusterObjectEndpoint_default_port_instance :
  exists sent w',
    UpdateClusterObjectEndpoint snapshot snapshotCore splitAtColon ErrorString
      "10.0.0.1" "c1" "default" (start populated) = Returns None w' /\
    clusterv1.APIEndpoints (clusterv1.Cluster_Status sent)
    = Some [{| clusterv1.Host := "10.0.0.1"; clusterv1.Port := 443 |}].
Proof.
  destruct (UpdateClusterObjectEndpoint_defaults_the_port Snapshot snapshot
              snapshotCore splitAtColon ErrorString "10.0.0.1" "c1" "default"
              (start populated)
              {| remote := populated; calls := [ctrl_GetConfig; ctrlclient_New] |}
              {| remote := populated;
                 calls := [ctrl_GetConfig; ctrlclient_New; ctrl_GetConfig;
                           ctrlclient_New;
                           client_List KCluster
                             {| lo_Namespace := "default"; lo_LabelSelector := "" |}] |}
              c1 eq_refl eq_refl eq_refl) as (sent & Hrun & Hendpoints & Hmeta).
  exists sent. eexists. split; [exact Hrun | exact Hendpoints].
Defined.

Lemma saveToConfigMap_update_instance :
  exists sent data,
    saveToConfigMap configMapStore "components" (start (Some otherConfigMap))
    = Returns None {| remote := Some sent; calls := [] |} /\
    Data sent = Some data /\
    map_lookup "other" data = Some "kept" /\
    map_lookup "provider-components" data = Some "components".
Proof.
  destruct (saveToConfigMap_keeps_the_other_keys (option ConfigMap) configMapStore
              "components" (start (Some otherConfigMap)) otherConfigMap
              (Some otherConfigMap) eq_refl)
    as (sent & data & Hrun & Hmeta & Hdata & Hkeys).
  exists sent, data. split; [exact Hrun|]. split; [exact Hdata|].
  split; [exact (Hkeys "other") | exact (Hkeys "provider-components")].
Defined.

Lemma saveToConfigMap_create_instance :
  saveToConfigMap configMapStore "components" (start None)
  = Returns None
      {| remote :=
           Some {| ConfigMap_ObjectMeta := mkMeta "clusterctl" "";
                   Data := Some [("provider-components", "components")] |};
         calls := [] |}.
Proof.
  exact (saveToConfigMap_creates_when_absent (option ConfigMap) configMapStore
           "components" (start None)
           (notFound {| nn_Namespace := "default"; nn_Name := "clusterctl" |})
           None eq_refl).
Defined.

Lemma CreateMachines_one_error_instance :
  exists x e s s' w' sent,
    In x [m1; m2] /\
    refusing (client_Create KMachine (setMachineNamespace "default" x)) s
      = (inl e, s') /\
    CreateMachines refusing assignsInTurn [m1; m2] "default" (start tt)
    = Returns
        (Some (WithMessage "error creating a machine object in namespace %v"
                 ["default"] e)) w' /\
    calls w' = [ctrl_GetConfig; ctrlclient_New] ++ sent /\
    Permutation sent
      (map (fun x => client_Create KMachine (setMachineNamespace "default" x))
         [m1; m2]).
Proof.
  apply (CreateMachines_returns_one_of_the_errors_when_every_create_fails unit
           refusing assignsInTurn m1 [m2] "default" (start tt)
           {| remote := tt; calls := [ctrl_GetConfig; ctrlclient_New] |}).
  - reflexivity.
  - intros s x. eexists. eexists. reflexivity.
Defined.

(** Which error is returned is up to the scheduler: when each goroutine
    runs to its end before the next starts it is that of the first
    machine; when both have assigned [err] before either tests it, it
    is that of the second, though the goroutine of the first shuts the
    latch. *)
Lemma CreateMachines_error_depends_on_the_schedule :
  (exists w',
     CreateMachines refusing [] [m1; m2] "default" (start tt)
     = Returns
         (Some (WithMessage "error creating a machine object in namespace %v"
                  ["default"] (StatusError StatusReasonInvalid "m1"))) w') /\
  (exists w',
     CreateMachines refusing assignsInTurn [m1; m2] "default" (start tt)
     = Returns
         (Some (WithMessage "error creating a machine object in namespace %v"
                  ["default"] (StatusError StatusReasonInvalid "m2"))) w').
Proof. split; eexists; vm_compute; reflexivity. Qed.
